(** * Meal planner: selection-and-allocation engine

    Shallow embedding of [planner_jidelnicku_final.py] and the properties
    stated about it.

    Conventions of the embedding.
    - Python [int] is [Z]; Python [float] is idealised as an exact rational
      [Q] (non-finite floats and rounding are outside the model); an [int]
      that meets a [float] is injected with [inject_Z].
    - A [dict] is an insertion-ordered association list with first-match
      lookup and in-place update ([dict_get], [dict_set]); a [set] of strings
      is a [gset string].
    - A raised exception is the [Raise] constructor of [result], carrying the
      exception class; messages and console output are not modelled.
    - Mutable objects (the builder, the running totals, the distribution) are
      threaded as explicit state. *)

From Stdlib Require Import QArith Qabs Qminmax ZArith List Sorted Permutation.
From Stdlib Require Import Lia Ascii String.
From stdpp Require Import gmap strings.
Import ListNotations.

Open Scope string_scope.
Open Scope list_scope.

(** ** Exceptions *)

Inductive exn : Type :=
| KeyError
| ValueError
| TypeError
| AttributeError.

Inductive result (A : Type) : Type :=
| Ok (a : A)
| Raise (e : exn).

Arguments Ok {A} a.
Arguments Raise {A} e.

Definition bind {A B : Type} (m : result A) (k : A -> result B) : result B :=
  match m with
  | Ok a => k a
  | Raise e => Raise e
  end.

Notation "'let*' x ':=' m 'in' k" := (bind m (fun x => k))
  (at level 10, x pattern, m at level 100, k at level 200).

(** ** Dictionaries *)

Definition dict (V : Type) : Type := list (string * V).

(** [d.get(k)] *)
Fixpoint dict_get {V : Type} (d : dict V) (k : string) : option V :=
  match d with
  | [] => None
  | (k', v) :: d' => if String.eqb k' k then Some v else dict_get d' k
  end.

(** [d.get(k, default)] *)
Definition dict_get_default {V : Type} (d : dict V) (k : string) (default : V) : V :=
  match dict_get d k with
  | Some v => v
  | None => default
  end.

(** [d[k]], raising [KeyError] on a missing key *)
Definition dict_index {V : Type} (d : dict V) (k : string) : result V :=
  match dict_get d k with
  | Some v => Ok v
  | None => Raise KeyError
  end.

(** [d[k] = v]: update in place, or append a new key *)
Fixpoint dict_set {V : Type} (d : dict V) (k : string) (v : V) : dict V :=
  match d with
  | [] => [(k, v)]
  | (k', v') :: d' =>
      if String.eqb k' k then (k', v) :: d' else (k', v') :: dict_set d' k v
  end.

(** truth value of a dict *)
Definition dict_truthy {V : Type} (d : dict V) : bool :=
  match d with
  | [] => false
  | _ :: _ => true
  end.

(** truth value of an optional dict argument ([None] or [{}] is false) *)
Definition opt_dict_truthy {V : Type} (d : option (dict V)) : bool :=
  match d with
  | None => false
  | Some d' => dict_truthy d'
  end.

(** [x in s] for a set of strings *)
Definition set_mem (x : string) (s : gset string) : bool := bool_decide (x ∈ s).

(** strict comparisons on rationals *)
Definition Qltb (x y : Q) : bool := negb (Qle_bool y x).
Definition Qgtb (x y : Q) : bool := Qltb y x.

(** [min_val is not None and val < min_val] *)
Definition below_min (val : Q) (min_val : option Q) : bool :=
  match min_val with
  | Some m => Qltb val m
  | None => false
  end.

(** [max_val is not None and val > max_val] *)
Definition above_max (val : Q) (max_val : option Q) : bool :=
  match max_val with
  | Some m => Qgtb val m
  | None => false
  end.

(** [sum(xs)]: left to right, starting from 0 *)
Definition sumZ (xs : list Z) : Z := fold_left Z.add xs 0%Z.
Definition sumQ (xs : list Q) : Q := fold_left Qplus xs 0%Q.

(** [l[:n]] *)
Definition slice_to {A : Type} (l : list A) (n : Z) : list A :=
  if (0 <=? n)%Z then firstn (Z.to_nat n) l
  else firstn (Z.to_nat (Z.of_nat (length l) + n)) l.

(** ** Data classes *)

Record FoodItem : Type := mkFoodItem {
  name : string;
  calories : Z;
  protein : Q;
  fat : Q;
  carbs : Q;
  meal_times : gset string;
  tags : gset string
}.

Definition get_nutrient_value (self : FoodItem) (nutrient : string) : Q :=
  let nutrient_map :=
    [("calories", inject_Z (calories self));
     ("protein", protein self);
     ("fat", fat self);
     ("carbs", carbs self)] in
  dict_get_default nutrient_map nutrient 0%Q.

Record MealPlan : Type := mkMealPlan {
  breakfast : list FoodItem;
  lunch : list FoodItem;
  dinner : list FoodItem;
  snacks : list FoodItem
}.

Definition all_items (self : MealPlan) : list FoodItem :=
  breakfast self ++ lunch self ++ dinner self ++ snacks self.

Definition totals (self : MealPlan) : dict Q :=
  let items := all_items self in
  [("calories", inject_Z (sumZ (map calories items)));
   ("protein", sumQ (map protein items));
   ("fat", sumQ (map fat items));
   ("carbs", sumQ (map carbs items))].

(** ** Builder *)

Module MealPlanBuilder.

Record t : Type := mk {
  _breakfast : list FoodItem;
  _lunch : list FoodItem;
  _dinner : list FoodItem;
  _snacks : list FoodItem;
  _slot_caps : dict (Z * Z)
}.

Definition init : t :=
  {| _breakfast := [];
     _lunch := [];
     _dinner := [];
     _snacks := [];
     _slot_caps := [("breakfast", (1, 2)%Z);
                    ("lunch", (1, 3)%Z);
                    ("dinner", (1, 3)%Z);
                    ("snack", (0, 2)%Z)] |}.

Definition set_slot_limits (self : t) (slot : string) (min_items max_items : Z) : t :=
  {| _breakfast := _breakfast self;
     _lunch := _lunch self;
     _dinner := _dinner self;
     _snacks := _snacks self;
     _slot_caps := dict_set (_slot_caps self) slot (min_items, max_items) |}.

Definition add_to_slot (self : t) (slot : string) (item : FoodItem) : result t :=
  if negb (set_mem slot (meal_times item)) then Raise ValueError
  else if String.eqb slot "breakfast" then
    Ok {| _breakfast := _breakfast self ++ [item];
          _lunch := _lunch self;
          _dinner := _dinner self;
          _snacks := _snacks self;
          _slot_caps := _slot_caps self |}
  else if String.eqb slot "lunch" then
    Ok {| _breakfast := _breakfast self;
          _lunch := _lunch self ++ [item];
          _dinner := _dinner self;
          _snacks := _snacks self;
          _slot_caps := _slot_caps self |}
  else if String.eqb slot "dinner" then
    Ok {| _breakfast := _breakfast self;
          _lunch := _lunch self;
          _dinner := _dinner self ++ [item];
          _snacks := _snacks self;
          _slot_caps := _slot_caps self |}
  else if String.eqb slot "snack" then
    Ok {| _breakfast := _breakfast self;
          _lunch := _lunch self;
          _dinner := _dinner self;
          _snacks := _snacks self ++ [item];
          _slot_caps := _slot_caps self |}
  else Ok self.

Definition add_breakfast (self : t) (item : FoodItem) : result t :=
  add_to_slot self "breakfast" item.

Definition add_lunch (self : t) (item : FoodItem) : result t :=
  add_to_slot self "lunch" item.

Definition add_dinner (self : t) (item : FoodItem) : result t :=
  add_to_slot self "dinner" item.

Definition add_snack (self : t) (item : FoodItem) : result t :=
  add_to_slot self "snack" item.

Definition _get_slot_items (self : t) (slot : string) : list FoodItem :=
  if String.eqb slot "breakfast" then _breakfast self
  else if String.eqb slot "lunch" then _lunch self
  else if String.eqb slot "dinner" then _dinner self
  else if String.eqb slot "snack" then _snacks self
  else [].

(** The loop over [self._slot_caps.items()] of [build]. *)
Fixpoint check_slot_counts (self : t) (caps : dict (Z * Z)) : result unit :=
  match caps with
  | [] => Ok tt
  | (slot, (min_cap, max_cap)) :: rest =>
      let items := _get_slot_items self slot in
      if (Z.of_nat (length items) <? min_cap)%Z then Raise ValueError
      else if (Z.of_nat (length items) >? max_cap)%Z then Raise ValueError
      else check_slot_counts self rest
  end.

(** The loop over [limits.items()] of [build]. *)
Fixpoint check_total_limits (totals : dict Q) (limits : dict (option Q * option Q))
  : result unit :=
  match limits with
  | [] => Ok tt
  | (metric, (min_val, max_val)) :: rest =>
      let val := dict_get_default totals metric 0%Q in
      if below_min val min_val then Raise ValueError
      else if above_max val max_val then Raise ValueError
      else check_total_limits totals rest
  end.

(** Body of the [try] block of [build]. *)
Definition build_try (self : t)
    (targets : option (dict (option Q)))
    (limits : option (dict (option Q * option Q))) : result MealPlan :=
  let* _ := check_slot_counts self (_slot_caps self) in
  let plan := {| breakfast := _breakfast self;
                 lunch := _lunch self;
                 dinner := _dinner self;
                 snacks := _snacks self |} in
  let* _ :=
    if opt_dict_truthy targets || opt_dict_truthy limits then
      let totals := totals plan in
      match limits with
      | Some ((_ :: _) as limits') => check_total_limits totals limits'
      | _ => Ok tt
      end
    else Ok tt in
  Ok plan.

(** [except Exception as e: raise ValueError(...)] *)
Definition build (self : t)
    (targets : option (dict (option Q)))
    (limits : option (dict (option Q * option Q))) : result MealPlan :=
  match build_try self targets limits with
  | Ok plan => Ok plan
  | Raise _ => Raise ValueError
  end.

End MealPlanBuilder.

(** ** Functional filters *)

Definition Predicate : Type := FoodItem -> bool.

Definition filter_items (items : list FoodItem) (predicates : list Predicate)
  : list FoodItem :=
  let ok (item : FoodItem) : bool :=
    forallb (fun predicate : Predicate => predicate item) predicates in
  List.filter ok items.

Definition compose_predicates (predicates : list Predicate) : Predicate :=
  fun item => forallb (fun predicate : Predicate => predicate item) predicates.

Definition by_meal_time (meal_time : string) : Predicate :=
  fun item => set_mem meal_time (meal_times item).

Definition by_tag (tag : string) : Predicate :=
  fun item => set_mem tag (tags item).

Definition not_tag (tag : string) : Predicate :=
  fun item => negb (set_mem tag (tags item)).

Definition max_nutrient (nutrient : string) (value : Q) : Predicate :=
  fun item => Qle_bool (get_nutrient_value item nutrient) value.

Definition min_nutrient (nutrient : string) (value : Q) : Predicate :=
  fun item => Qle_bool value (get_nutrient_value item nutrient).

(** ** Optimizer *)

Module MealOptimizer.

Definition nutrients : list string := ["calories"; "protein"; "fat"; "carbs"].

(** [max(target_val, 1)] *)
Definition max_with_one (target_val : Q) : Q :=
  if Qgtb 1 target_val then 1%Q else target_val.

(** One pass of the inner [for nutrient in nutrients] loop of the scoring
    phase: the new value of [score]. *)
Definition score_step (food : FoodItem) (targets weights : dict Q)
    (score : Q) (nutrient : string) : Q :=
  match dict_get targets nutrient with
  | Some target_val =>
      if Qgtb target_val 0 then
        let nutrient_val := get_nutrient_value food nutrient in
        let weight := dict_get_default weights nutrient 1%Q in
        let ratio := (nutrient_val / max_with_one target_val)%Q in
        let contribution :=
          if Qgtb ratio (3 # 2) then (- weight * (ratio - 1))%Q
          else (weight * (1 - Qabs (1 - ratio)))%Q in
        (score + contribution)%Q
      else score
  | None => score
  end.

(** The score of one food: the accumulated contributions divided by
    [len(nutrients)]. *)
Definition score_food (food : FoodItem) (targets weights : dict Q) : Q :=
  (fold_left (score_step food targets weights) nutrients 0
     / inject_Z (Z.of_nat (length nutrients)))%Q.

(** [item_scores] before sorting *)
Definition score_items (foods : list FoodItem) (targets weights : dict Q)
  : list (Q * FoodItem) :=
  map (fun food => (score_food food targets weights, food)) foods.

(** [{nutrient: 0.0 for nutrient in nutrients}] *)
Definition zero_totals : dict Q := map (fun nutrient => (nutrient, 0%Q)) nutrients.

(** [for nutrient in nutrients: temp_totals[nutrient] += food.get_nutrient_value(nutrient)] *)
Fixpoint add_nutrients (temp_totals : dict Q) (food : FoodItem) (ns : list string)
  : result (dict Q) :=
  match ns with
  | [] => Ok temp_totals
  | nutrient :: rest =>
      let* old := dict_index temp_totals nutrient in
      add_nutrients
        (dict_set temp_totals nutrient (old + get_nutrient_value food nutrient)%Q)
        food rest
  end.

(** The loop over [limits.items()] of the selection phase: the final value
    of [within_limits]. *)
Fixpoint within_limits (temp_totals : dict Q) (limits : dict (option Q * option Q))
  : result bool :=
  match limits with
  | [] => Ok true
  | (nutrient, (min_val, max_val)) :: rest =>
      let* val := dict_index temp_totals nutrient in
      if below_min val min_val then within_limits temp_totals rest
      else if above_max val max_val then Ok false
      else within_limits temp_totals rest
  end.

(** The selection loop over the sorted [item_scores], with its state
    [selected] and [current_totals]. *)
Fixpoint select_loop (limits : dict (option Q * option Q)) (max_items : Z)
    (item_scores : list (Q * FoodItem))
    (selected : list FoodItem) (current_totals : dict Q)
  : result (list FoodItem) :=
  match item_scores with
  | [] => Ok selected
  | (_, food) :: rest =>
      if (Z.of_nat (length selected) >=? max_items)%Z then Ok selected
      else
        let* temp_totals := add_nutrients current_totals food nutrients in
        let* ok := within_limits temp_totals limits in
        if ok then select_loop limits max_items rest (selected ++ [food]) temp_totals
        else select_loop limits max_items rest selected current_totals
  end.

Definition slot_order : list string := ["breakfast"; "lunch"; "dinner"; "snack"].

(** First pass of [distribute_to_slots] for one food: [Some] of the updated
    distribution when the food was assigned, [None] when it was not. *)
Fixpoint assign_natural (food : FoodItem) (slot_caps : dict (Z * Z))
    (distribution : dict (list FoodItem)) (slots : list string)
  : result (option (dict (list FoodItem))) :=
  match slots with
  | [] => Ok None
  | slot :: rest =>
      if set_mem slot (meal_times food) then
        let* items := dict_index distribution slot in
        let* cap := dict_index slot_caps slot in
        let current_count := Z.of_nat (length items) in
        let max_count := snd cap in
        if String.eqb slot "breakfast" && set_mem "meat" (tags food)
        then assign_natural food slot_caps distribution rest
        else if (current_count <? max_count)%Z
        then Ok (Some (dict_set distribution slot (items ++ [food])))
        else assign_natural food slot_caps distribution rest
      else assign_natural food slot_caps distribution rest
  end.

(** Second pass (fallback): the first slot with free capacity, whatever the
    food's meal times; the food is dropped when there is none. *)
Fixpoint assign_fallback (food : FoodItem) (slot_caps : dict (Z * Z))
    (distribution : dict (list FoodItem)) (slots : list string)
  : result (dict (list FoodItem)) :=
  match slots with
  | [] => Ok distribution
  | slot :: rest =>
      let* items := dict_index distribution slot in
      let* cap := dict_index slot_caps slot in
      let current_count := Z.of_nat (length items) in
      let max_count := snd cap in
      if (current_count <? max_count)%Z
      then Ok (dict_set distribution slot (items ++ [food]))
      else assign_fallback food slot_caps distribution rest
  end.

(** One iteration of [for food in foods]. *)
Definition place_food (slot_caps : dict (Z * Z))
    (distribution : dict (list FoodItem)) (food : FoodItem)
  : result (dict (list FoodItem)) :=
  let* assigned := assign_natural food slot_caps distribution slot_order in
  match assigned with
  | Some distribution' => Ok distribution'
  | None => assign_fallback food slot_caps distribution slot_order
  end.

Fixpoint place_foods (slot_caps : dict (Z * Z))
    (distribution : dict (list FoodItem)) (foods : list FoodItem)
  : result (dict (list FoodItem)) :=
  match foods with
  | [] => Ok distribution
  | food :: rest =>
      let* distribution' := place_food slot_caps distribution food in
      place_foods slot_caps distribution' rest
  end.

(** [{slot: [] for slot in slot_caps.keys()}] *)
Definition empty_distribution (slot_caps : dict (Z * Z)) : dict (list FoodItem) :=
  fold_left (fun d slot => dict_set d slot []) (map fst slot_caps) [].

Definition distribute_to_slots (foods : list FoodItem) (slot_caps : dict (Z * Z))
  : result (dict (list FoodItem)) :=
  place_foods slot_caps (empty_distribution slot_caps) foods.

Section WithSort.

(** [list.sort(reverse=True, key=...)] is the interpreter's: it is a
    parameter of the selector. *)
Variable sort_by_score_desc : list (Q * FoodItem) -> list (Q * FoodItem).

Definition knapsack_optimize (foods : list FoodItem) (targets : dict Q)
    (limits : dict (option Q * option Q)) (weights : dict Q) (max_items : Z)
  : result (list FoodItem) :=
  if negb (dict_truthy targets) || match foods with [] => true | _ => false end
  then Ok []
  else
    let item_scores := sort_by_score_desc (score_items foods targets weights) in
    select_loop limits max_items item_scores [] zero_totals.

End WithSort.

End MealOptimizer.

(** ** Orchestration *)

Definition slot_distribution : dict Q :=
  [("breakfast", 25 # 100); ("lunch", 35 # 100); ("dinner", 30 # 100);
   ("snack", 10 # 100)]%Q.

(** [slot_foods], filled by the loop over [slot_caps.keys()] *)
Definition slot_foods_of (foods : list FoodItem) (slot_caps : dict (Z * Z))
  : dict (list FoodItem) :=
  fold_left
    (fun slot_foods slot =>
       dict_set slot_foods slot (filter_items foods [by_meal_time slot]))
    (map fst slot_caps) [].

(** [{k: v for k, v in targets.items() if v is not None}] *)
Definition daily_targets_of (targets : dict (option Q)) : dict Q :=
  fold_left
    (fun d kv => match snd kv with
                 | Some v => dict_set d (fst kv) v
                 | None => d
                 end)
    targets [].

(** [slot_targets], filled by the loop over [daily_targets.items()] *)
Definition slot_targets_of (daily_targets : dict Q) (percentage : Q) : dict Q :=
  fold_left
    (fun slot_targets kv => dict_set slot_targets (fst kv) (snd kv * percentage)%Q)
    daily_targets [].

(** Adding every food of one slot's list to the builder, in order. *)
Fixpoint add_all (add : MealPlanBuilder.t -> FoodItem -> result MealPlanBuilder.t)
    (builder : MealPlanBuilder.t) (foods : list FoodItem)
  : result MealPlanBuilder.t :=
  match foods with
  | [] => Ok builder
  | food :: rest =>
      let* builder' := add builder food in
      add_all add builder' rest
  end.

(** The builder after the [set_slot_limits] loop and the four [add_*] loops. *)
Definition populate (distribution : dict (list FoodItem)) (slot_caps : dict (Z * Z))
  : result MealPlanBuilder.t :=
  let builder :=
    fold_left
      (fun b cap =>
         MealPlanBuilder.set_slot_limits b (fst cap) (fst (snd cap)) (snd (snd cap)))
      slot_caps MealPlanBuilder.init in
  let* builder := add_all MealPlanBuilder.add_breakfast builder
                    (dict_get_default distribution "breakfast" []) in
  let* builder := add_all MealPlanBuilder.add_lunch builder
                    (dict_get_default distribution "lunch" []) in
  let* builder := add_all MealPlanBuilder.add_dinner builder
                    (dict_get_default distribution "dinner" []) in
  add_all MealPlanBuilder.add_snack builder
    (dict_get_default distribution "snack" []).

Section Orchestration.

Variable sort_by_score_desc : list (Q * FoodItem) -> list (Q * FoodItem).

(** The loop over [slot_distribution.items()] (some target is set). *)
Fixpoint select_with_targets (slot_foods : dict (list FoodItem))
    (daily_targets : dict Q) (limits : dict (option Q * option Q))
    (weights : dict Q) (slot_caps : dict (Z * Z))
    (shares : dict Q) (all_selected : list FoodItem)
  : result (list FoodItem) :=
  match shares with
  | [] => Ok all_selected
  | (slot, percentage) :: rest =>
      let* slot_items := dict_index slot_foods slot in
      match slot_items with
      | [] =>
          select_with_targets slot_foods daily_targets limits weights slot_caps
            rest all_selected
      | _ :: _ =>
          let slot_targets := slot_targets_of daily_targets percentage in
          let* cap := dict_index slot_caps slot in
          let* selected :=
            MealOptimizer.knapsack_optimize sort_by_score_desc
              slot_items slot_targets limits weights (snd cap) in
          select_with_targets slot_foods daily_targets limits weights slot_caps
            rest (all_selected ++ slice_to selected (snd cap))
      end
  end.

(** The loop over the four slots (no target is set). *)
Fixpoint select_without_targets (slot_foods : dict (list FoodItem))
    (slot_caps : dict (Z * Z)) (slots : list string) (all_selected : list FoodItem)
  : result (list FoodItem) :=
  match slots with
  | [] => Ok all_selected
  | slot :: rest =>
      let* slot_items := dict_index slot_foods slot in
      match slot_items with
      | [] => select_without_targets slot_foods slot_caps rest all_selected
      | _ :: _ =>
          let* cap := dict_index slot_caps slot in
          select_without_targets slot_foods slot_caps rest
            (all_selected ++ slice_to slot_items (snd cap))
      end
  end.

(** [all_selected] when the allocator is called. *)
Definition select_all (foods : list FoodItem) (targets : dict (option Q))
    (limits : dict (option Q * option Q)) (weights : dict Q)
    (slot_caps : dict (Z * Z)) : result (list FoodItem) :=
  let slot_foods := slot_foods_of foods slot_caps in
  let daily_targets := daily_targets_of targets in
  if dict_truthy daily_targets then
    select_with_targets slot_foods daily_targets limits weights slot_caps
      slot_distribution []
  else
    select_without_targets slot_foods slot_caps MealOptimizer.slot_order [].

(** Body of the [try] block of [find_optimal_plan]. *)
Definition find_optimal_plan_try (foods : list FoodItem) (targets : dict (option Q))
    (limits : dict (option Q * option Q)) (weights : dict Q)
    (slot_caps : dict (Z * Z)) : result MealPlan :=
  let* all_selected := select_all foods targets limits weights slot_caps in
  let* distribution := MealOptimizer.distribute_to_slots all_selected slot_caps in
  let* builder := populate distribution slot_caps in
  MealPlanBuilder.build builder (Some targets) (Some limits).

(** [except Exception: return None] *)
Definition find_optimal_plan (foods : list FoodItem) (targets : dict (option Q))
    (limits : dict (option Q * option Q)) (weights : dict Q)
    (slot_caps : dict (Z * Z)) : option MealPlan :=
  match find_optimal_plan_try foods targets limits weights slot_caps with
  | Ok plan => Some plan
  | Raise _ => None
  end.

End Orchestration.

(** ** The sort

    A stable sort, descending by score: the behaviour of
    [list.sort(reverse=True, key=lambda x: x[0])], here as an insertion sort.
    An element is moved only past elements of strictly greater score. *)

Fixpoint insert_desc (x : Q * FoodItem) (l : list (Q * FoodItem))
  : list (Q * FoodItem) :=
  match l with
  | [] => [x]
  | y :: l' => if Qltb (fst x) (fst y) then y :: insert_desc x l' else x :: l
  end.

Definition stable_sort_desc (l : list (Q * FoodItem)) : list (Q * FoodItem) :=
  fold_right insert_desc [] l.

(** The same order computed from the left: each item is put behind the
    items already placed whose score is at least its own. *)
Fixpoint insert_after (x : Q * FoodItem) (l : list (Q * FoodItem))
  : list (Q * FoodItem) :=
  match l with
  | [] => [x]
  | y :: l' => if Qltb (fst y) (fst x) then x :: l else y :: insert_after x l'
  end.

Definition stable_sort_desc_left (l : list (Q * FoodItem)) : list (Q * FoodItem) :=
  fold_left (fun placed x => insert_after x placed) l [].

(** What the selector may rely on from the sort: the output is a
    rearrangement of the input, in descending order of score, and items of
    equal score keep their relative input order. *)
Definition has_score (q : Q) (x : Q * FoodItem) : bool := Qeq_bool (fst x) q.

Definition score_ge (x y : Q * FoodItem) : Prop := (fst y <= fst x)%Q.

Record stable_desc_sort (sort : list (Q * FoodItem) -> list (Q * FoodItem)) : Prop := {
  sort_perm : forall l, Permutation l (sort l);
  sort_desc : forall l, StronglySorted score_ge (sort l);
  sort_stable : forall l q, List.filter (has_score q) (sort l) = List.filter (has_score q) l
}.

(** ** Catalog ingestion

    [csv.DictReader] is the interpreter's: ingestion is modelled from the rows
    it yields. A row maps a column name to its text, or to [None] for a column
    that a short line leaves out. *)

Definition csv_row : Type := dict (option string).

(** [str.strip] and [str.split] on ASCII text *)
Definition is_space (c : ascii) : bool :=
  let n := nat_of_ascii c in
  ((9 <=? n) && (n <=? 13) || (28 <=? n) && (n <=? 32))%nat.

Fixpoint str_lstrip (s : string) : string :=
  match s with
  | EmptyString => EmptyString
  | String c s' => if is_space c then str_lstrip s' else s
  end.

Fixpoint str_rev (s acc : string) : string :=
  match s with
  | EmptyString => acc
  | String c s' => str_rev s' (String c acc)
  end.

Definition str_strip (s : string) : string :=
  str_rev (str_lstrip (str_rev (str_lstrip s) EmptyString)) EmptyString.

Fixpoint str_split_acc (sep : ascii) (s : string) (cur : string) : list string :=
  match s with
  | EmptyString => [str_rev cur EmptyString]
  | String c s' =>
      if Ascii.eqb c sep then str_rev cur EmptyString :: str_split_acc sep s' EmptyString
      else str_split_acc sep s' (String c cur)
  end.

Definition str_split (sep : ascii) (s : string) : list string :=
  str_split_acc sep s EmptyString.

(** [int(x)] of a float: truncation toward zero *)
Definition int_of_float (x : Q) : Z := Z.quot (Qnum x) (Zpos (Qden x)).

(** The text of signed decimal literals such as [-12.5]: the part of what
    [float()] accepts that the concrete catalogs below use. *)
Definition digit_of (c : ascii) : option Z :=
  let n := nat_of_ascii c in
  if ((48 <=? n) && (n <=? 57))%nat then Some (Z.of_nat (n - 48)) else None.

Fixpoint read_digits (s : string) (acc : Z) (count : nat) : Z * nat * string :=
  match s with
  | EmptyString => (acc, count, EmptyString)
  | String c s' =>
      match digit_of c with
      | Some d => read_digits s' (10 * acc + d)%Z (S count)
      | None => (acc, count, s)
      end
  end.

Definition unsigned_decimal (s : string) : option Q :=
  let '(int_part, n1, rest) := read_digits s 0%Z 0%nat in
  match rest with
  | EmptyString => if (n1 =? 0)%nat then None else Some (inject_Z int_part)
  | String "."%char rest' =>
      let '(frac_part, n2, rest'') := read_digits rest' 0%Z 0%nat in
      match rest'' with
      | EmptyString =>
          if (n1 + n2 =? 0)%nat then None
          else Some (inject_Z int_part + (frac_part # Pos.pow 10 (Pos.of_nat n2)))%Q
      | String _ _ => None
      end
  | String _ _ => None
  end.

Definition float_of_decimal (s : string) : option Q :=
  match str_strip s with
  | String "-"%char s' => option_map Qopp (unsigned_decimal s')
  | String "+"%char s' => unsigned_decimal s'
  | s' => unsigned_decimal s'
  end.

Section Ingestion.

(** [float(s)] on a string is the interpreter's: [None] stands for its
    [ValueError]. *)
Variable py_float : string -> option Q.

Definition required_fields : list string :=
  ["name"; "calories"; "protein"; "fat"; "carbs"].

(** [for field in required_fields: if field not in row: raise ValueError] *)
Fixpoint check_required (row : csv_row) (fields : list string) : result unit :=
  match fields with
  | [] => Ok tt
  | field :: rest =>
      match dict_get row field with
      | None => Raise ValueError
      | Some _ => check_required row rest
      end
  end.

(** [row[k].strip()] *)
Definition strip_field (row : csv_row) (k : string) : result string :=
  let* v := dict_index row k in
  match v with
  | Some s => Ok (str_strip s)
  | None => Raise AttributeError
  end.

(** [float(row[k])] *)
Definition float_field (row : csv_row) (k : string) : result Q :=
  let* v := dict_index row k in
  match v with
  | Some s =>
      match py_float s with
      | Some x => Ok x
      | None => Raise ValueError
      end
  | None => Raise TypeError
  end.

(** The optional pipe-delimited columns [meal_times] and [tags]. *)
Definition set_field (row : csv_row) (k : string) (default : gset string)
  : result (gset string) :=
  match dict_get row k with
  | None => Ok default
  | Some None => Raise AttributeError
  | Some (Some s) =>
      match str_strip s with
      | EmptyString => Ok default
      | String _ _ => Ok (list_to_set (map str_strip (str_split "|"%char s)))
      end
  end.

(** Body of the inner [try] block: one row to one record. *)
Definition parse_row (row : csv_row) : result FoodItem :=
  let* _ := check_required row required_fields in
  let* name := strip_field row "name" in
  let* calories_f := float_field row "calories" in
  let calories := int_of_float calories_f in
  let* protein := float_field row "protein" in
  let* fat := float_field row "fat" in
  let* carbs := float_field row "carbs" in
  let* meal_times :=
    set_field row "meal_times" {["breakfast"; "lunch"; "dinner"; "snack"]} in
  let* tags := set_field row "tags" ∅ in
  Ok (mkFoodItem name calories protein fat carbs meal_times tags).

(** The loop over the rows: [ValueError] and [KeyError] skip the row, any
    other exception leaves the loop. *)
Fixpoint load_rows (rows : list csv_row) (foods : list FoodItem)
  : result (list FoodItem) :=
  match rows with
  | [] => Ok foods
  | row :: rest =>
      match parse_row row with
      | Ok food => load_rows rest (foods ++ [food])
      | Raise ValueError => load_rows rest foods
      | Raise KeyError => load_rows rest foods
      | Raise e => Raise e
      end
  end.

(** [load_foods]: [None] is a file that does not exist. *)
Definition load_foods (csv_file : option (list csv_row)) : list FoodItem :=
  match csv_file with
  | None => []
  | Some rows =>
      match load_rows rows [] with
      | Ok foods => foods
      | Raise _ => []
      end
  end.

End Ingestion.

(** ** Concrete catalogs and parameters used in the examples *)

Definition default_slot_caps : dict (Z * Z) :=
  [("breakfast", (1, 2)%Z); ("lunch", (1, 3)%Z); ("dinner", (1, 3)%Z);
   ("snack", (0, 2)%Z)].

Definition oats : FoodItem :=
  mkFoodItem "Oats" 300 10 5 50 {["breakfast"]} ∅.

Definition soup : FoodItem :=
  mkFoodItem "Soup" 200 8 4 20 {["lunch"]} ∅.

Definition stew : FoodItem :=
  mkFoodItem "Stew" 400 25 15 30 {["dinner"]} ∅.

Definition steak : FoodItem :=
  mkFoodItem "Steak" 500 40 30 0 {["breakfast"]} {["meat"]}.

Definition ham : FoodItem :=
  mkFoodItem "Ham" 250 20 18 1 {["breakfast"; "lunch"]} {["meat"]}.

Definition muesli : FoodItem :=
  mkFoodItem "Muesli" 300 9 6 48 {["breakfast"]} ∅.

Definition single_caps : dict (Z * Z) :=
  [("breakfast", (0, 1)%Z); ("lunch", (0, 1)%Z); ("dinner", (0, 1)%Z);
   ("snack", (0, 1)%Z)].

Definition brunch_bowl : FoodItem :=
  mkFoodItem "Bowl" 350 12 9 40 {["brunch"]} ∅.

Definition food_a : FoodItem :=
  mkFoodItem "FoodA" 300 20 10 30 {["breakfast"; "lunch"]} ∅.

Definition food_b : FoodItem :=
  mkFoodItem "FoodB" 200 15 5 25 {["lunch"; "dinner"]} ∅.

Definition test_food : FoodItem :=
  mkFoodItem "Testovaci jidlo" 100 20 5 10 {["breakfast"; "lunch"]} ∅.

Definition porridge_row : csv_row :=
  [("name", Some "Porridge"); ("calories", Some "310"); ("protein", Some "11.5");
   ("fat", Some "6"); ("carbs", Some "52"); ("meal_times", Some "breakfast|snack");
   ("tags", Some "")].

Definition tonic_row : csv_row :=
  [("name", Some "Tonic"); ("calories", Some "-100"); ("protein", Some "-1.5");
   ("fat", Some "0"); ("carbs", Some "3")].

(** ** Predicates used to state the properties *)

Module BuilderSpec.
Import MealPlanBuilder.

Definition plan_of (self : t) : MealPlan :=
  {| breakfast := _breakfast self;
     lunch := _lunch self;
     dinner := _dinner self;
     snacks := _snacks self |}.

Definition count_out_of_range (self : t) : Prop :=
  exists slot min_cap max_cap,
    In (slot, (min_cap, max_cap)) (_slot_caps self) /\
    (Z.of_nat (length (_get_slot_items self slot)) < min_cap \/
     Z.of_nat (length (_get_slot_items self slot)) > max_cap)%Z.

Definition bound_violated (self : t) (limits : option (dict (option Q * option Q)))
  : Prop :=
  exists bounds metric min_val max_val,
    limits = Some bounds /\
    In (metric, (min_val, max_val)) bounds /\
    let val := dict_get_default (totals (plan_of self)) metric 0%Q in
    ((exists m, min_val = Some m /\ (val < m)%Q) \/
     (exists m, max_val = Some m /\ (m < val)%Q)).

End BuilderSpec.

Module AllocatorSpec.
Import MealOptimizer.

(** The slot has room: its occupancy is below its configured maximum. *)
Definition free_capacity (slot_caps : dict (Z * Z))
    (distribution : dict (list FoodItem)) (slot : string) : Prop :=
  exists items cap,
    dict_get distribution slot = Some items /\
    dict_get slot_caps slot = Some cap /\
    (Z.of_nat (length items) < snd cap)%Z.

(** Processing [food] appended it to [slot]. *)
Definition placed_in (slot : string) (food : FoodItem)
    (before after : dict (list FoodItem)) : Prop :=
  exists items,
    dict_get before slot = Some items /\
    dict_get after slot = Some (items ++ [food]).

(** The rule as the specification words it: meat reaches breakfast only when
    every other slot is full at the time the food is processed. *)
Definition meat_only_when_others_full : Prop :=
  forall (slot_caps : dict (Z * Z)) (pre : list FoodItem) (food : FoodItem)
         (d d' : dict (list FoodItem)),
    distribute_to_slots pre slot_caps = Ok d ->
    place_food slot_caps d food = Ok d' ->
    "meat" ∈ tags food ->
    placed_in "breakfast" food d d' ->
    forall slot, In slot ["lunch"; "dinner"; "snack"] ->
                 ~ free_capacity slot_caps d slot.

(** Every list of the distribution is empty or within its slot's maximum. *)
Definition within_caps (slot_caps : dict (Z * Z)) (d : dict (list FoodItem)) : Prop :=
  forall slot items,
    dict_get d slot = Some items ->
    items = [] \/
    exists cap, dict_get slot_caps slot = Some cap /\
                (Z.of_nat (length items) <= snd cap)%Z.

(** A step of the allocator either leaves the distribution as it is or
    appends the food to a slot that had room. *)
Definition guarded_append (slot_caps : dict (Z * Z)) (food : FoodItem)
    (d d' : dict (list FoodItem)) : Prop :=
  d' = d \/
  exists slot items cap,
    dict_get d slot = Some items /\
    dict_get slot_caps slot = Some cap /\
    (Z.of_nat (length items) < snd cap)%Z /\
    d' = dict_set d slot (items ++ [food]).

(** The dict has an entry for each of the four slots. *)
Definition has_slots {V : Type} (d : dict V) : Prop :=
  forall slot, In slot slot_order -> exists v, dict_get d slot = Some v.

End AllocatorSpec.

Module SelectorSpec.
Import MealOptimizer.

(** The running total of one nutrient after accepting [selected] in order:
    [0.0 + v1 + v2 + ...]. *)
Definition running_total (selected : list FoodItem) (nutrient : string) : Q :=
  fold_left Qplus (map (fun food => get_nutrient_value food nutrient) selected) 0%Q.

(** The selector's guarantee as the specification words it: at most
    [max_items] records, and no accepted record pushes a nutrient with a
    configured maximum over that maximum at its acceptance. *)
Definition never_over_maximum : Prop :=
  forall (sort : list (Q * FoodItem) -> list (Q * FoodItem))
         (foods : list FoodItem) (targets : dict Q)
         (limits : dict (option Q * option Q)) (weights : dict Q)
         (max_items : Z) (selected : list FoodItem),
    knapsack_optimize sort foods targets limits weights max_items = Ok selected ->
    (Z.of_nat (length selected) <= max_items)%Z /\
    forall pre food post, selected = pre ++ food :: post ->
      forall nutrient min_val max_val,
        In (nutrient, (min_val, Some max_val)) limits ->
        (running_total (pre ++ [food]) nutrient <= max_val)%Q.

(** The dict of running totals after accepting [selected]. *)
Definition totals_of (selected : list FoodItem) : dict Q :=
  map (fun nutrient => (nutrient, running_total selected nutrient)) nutrients.

(** What the limit check established for every record accepted so far. *)
Definition accepted_ok (limits : dict (option Q * option Q))
    (selected : list FoodItem) : Prop :=
  forall pre food post, selected = pre ++ food :: post ->
    forall nutrient min_val max_val,
      In (nutrient, (min_val, Some max_val)) limits ->
      In nutrient nutrients /\
      ((exists m, min_val = Some m /\
                  (running_total (pre ++ [food]) nutrient < m)%Q) \/
       (running_total (pre ++ [food]) nutrient <= max_val)%Q).

End SelectorSpec.

Module ScorerSpec.

(** The Scorer as the specification words it. A nutrient is active when it
    is present in the target with a strictly positive goal. *)
Definition active (targets : dict Q) (nutrient : string) : Prop :=
  exists goal, dict_get targets nutrient = Some goal /\ (0 < goal)%Q.

(** [ratio = nutrient_value / max(target_value, 1)]; the nutrient
    contributes [-weight * (ratio - 1)] if [ratio > 1.5] and
    [weight * (1 - |1 - ratio|)] otherwise, the weight being 1 when
    unspecified; a nutrient that is not active contributes nothing. *)
Definition contribution (food : FoodItem) (targets weights : dict Q)
    (nutrient : string) : Q :=
  match dict_get targets nutrient with
  | Some goal =>
      if Qlt_le_dec 0 goal then
        let weight := match dict_get weights nutrient with
                      | Some w => w
                      | None => 1%Q
                      end in
        let ratio := (get_nutrient_value food nutrient / Qmax goal 1)%Q in
        if Qlt_le_dec (3 # 2) ratio then (- weight * (ratio - 1))%Q
        else (weight * (1 - Qabs (1 - ratio)))%Q
      else 0%Q
  | None => 0%Q
  end.

(** The sum of the contributions of the four tracked nutrients, divided
    by 4. *)
Definition score (food : FoodItem) (targets weights : dict Q) : Q :=
  ((contribution food targets weights "calories"
    + contribution food targets weights "protein"
    + contribution food targets weights "fat"
    + contribution food targets weights "carbs") / 4)%Q.

End ScorerSpec.

Module IngestionSpec.

Definition non_negative (r : FoodItem) : Prop :=
  (0 <= calories r)%Z /\ (0 <= protein r)%Q /\ (0 <= fat r)%Q /\ (0 <= carbs r)%Q.

(** The ingestion invariant as the specification words it: every record of
    the returned catalog has non-negative calories and macros. *)
Definition records_non_negative (py_float : string -> option Q) : Prop :=
  forall (csv_file : option (list csv_row)) (r : FoodItem),
    In r (load_foods py_float csv_file) -> non_negative r.

End IngestionSpec.

Module PlanSpec.

(** Every food of every slot list has the slot among its meal times. *)
Definition eligible_plan (plan : MealPlan) : Prop :=
  Forall (fun food => "breakfast" ∈ meal_times food) (breakfast plan) /\
  Forall (fun food => "lunch" ∈ meal_times food) (lunch plan) /\
  Forall (fun food => "dinner" ∈ meal_times food) (dinner plan) /\
  Forall (fun food => "snack" ∈ meal_times food) (snacks plan).

End PlanSpec.

(** ** Further definitions used by the properties of the remaining code *)

Module TotalsSpec.

(** One entry of [plan.totals()], 0 for a name that is not tracked. *)
Definition total (plan : MealPlan) (nutrient : string) : Q :=
  dict_get_default (totals plan) nutrient 0%Q.





End TotalsSpec.

From Stdlib Require Import Lqa.

Module SelectorMoreSpec.


(** The candidates in the order in which the selection loop visits them. *)
Definition ranked (sort : list (Q * FoodItem) -> list (Q * FoodItem))
    (foods : list FoodItem) (targets weights : dict Q) : list FoodItem :=
  map snd (sort (MealOptimizer.score_items foods targets weights)).

(** Scores do not increase along the list. *)
Definition scores_descend (targets weights : dict Q) (foods : list FoodItem) : Prop :=
  StronglySorted
    (fun a b => (MealOptimizer.score_food b targets weights
                 <= MealOptimizer.score_food a targets weights)%Q)
    foods.

End SelectorMoreSpec.

Module AllocatorMoreSpec.
Import MealOptimizer.

(** The items of one slot of a distribution, none for a missing slot. *)
Definition slot_items (d : dict (list FoodItem)) (slot : string) : list FoodItem :=
  dict_get_default d slot [].

(** Everything the distribution holds in the four slots. *)
Definition all_placed (d : dict (list FoodItem)) : list FoodItem :=
  slot_items d "breakfast" ++ slot_items d "lunch" ++ slot_items d "dinner"
  ++ slot_items d "snack".

(** The number of places of one slot: its maximum, 0 when that is negative. *)
Definition room (slot_caps : dict (Z * Z)) (slot : string) : Z :=
  Z.max 0 (snd (dict_get_default slot_caps slot (0, 0)%Z)).

Definition capacity (slot_caps : dict (Z * Z)) : Z :=
  (room slot_caps "breakfast" + room slot_caps "lunch" + room slot_caps "dinner"
   + room slot_caps "snack")%Z.

(** The number of items one slot holds. *)
Definition occupancy (d : dict (list FoodItem)) (slot : string) : Z :=
  Z.of_nat (length (slot_items d slot)).

(** A step either finds the four slots full and changes nothing, or appends
    the food to one of the four slots that had room. *)
Definition step_cases (slot_caps : dict (Z * Z)) (food : FoodItem)
    (slots : list string) (d d' : dict (list FoodItem)) : Prop :=
  (d' = d /\
   forall s, In s slots ->
     exists items cap,
       dict_get d s = Some items /\ dict_get slot_caps s = Some cap /\
       (snd cap <= Z.of_nat (length items))%Z) \/
  (exists slot items cap,
      In slot slots /\
      dict_get d slot = Some items /\ dict_get slot_caps slot = Some cap /\
      (Z.of_nat (length items) < snd cap)%Z /\
      d' = dict_set d slot (items ++ [food])).

End AllocatorMoreSpec.

Module PlanMoreSpec.

(** The slot list of a plan by slot name, empty for any other name. *)
Definition plan_slot (plan : MealPlan) (slot : string) : list FoodItem :=
  if String.eqb slot "breakfast" then breakfast plan
  else if String.eqb slot "lunch" then lunch plan
  else if String.eqb slot "dinner" then dinner plan
  else if String.eqb slot "snack" then snacks plan
  else [].

(** The plan's total of a nutrient lies within a bound. *)
Definition within_bound (plan : MealPlan) (nutrient : string)
    (min_val max_val : option Q) : Prop :=
  (forall m, min_val = Some m -> (m <= TotalsSpec.total plan nutrient)%Q) /\
  (forall m, max_val = Some m -> (TotalsSpec.total plan nutrient <= m)%Q).

End PlanMoreSpec.

Module IngestionMoreSpec.

Section WithFloat.

Variable py_float : string -> option Q.


(** The records of the rows that parse, in the order of the rows. *)
Definition parsed_records (rows : list csv_row) : list FoodItem :=
  flat_map (fun row => match parse_row py_float row with
                       | Ok food => [food]
                       | Raise _ => []
                       end) rows.

End WithFloat.

Definition all_slots : gset string := {["breakfast"; "lunch"; "dinner"; "snack"]}.

End IngestionMoreSpec.

(** ** The first planner, [meal_planner.py] *)

Module meal_planner.

(** [FoodItem]: the name is stored as read, the calories are an [int], the
    macronutrients are floats. *)
Record FoodItem : Type := mkFoodItem {
  name : option string;
  calories : Z;
  protein : Q;
  fat : Q;
  carbs : Q
}.

Record MealPlan : Type := mkMealPlan {
  items : list FoodItem
}.

Definition total_calories (plan : MealPlan) : Z :=
  sumZ (map calories (items plan)).

Definition total_macros (plan : MealPlan) : Q * Q * Q :=
  (sumQ (map protein (items plan)),
   sumQ (map fat (items plan)),
   sumQ (map carbs (items plan))).

Section WithParsers.

(** [int(s)] and [float(s)] on text: [None] stands for [ValueError]. *)
Variable py_int : string -> option Z.
Variable py_float : string -> option Q.

(** [int(v)] and [float(v)] on a field of a row, which is [None] where the
    line was short. *)
Definition int_field (v : option string) : result Z :=
  match v with
  | None => Raise TypeError
  | Some s => match py_int s with
              | Some z => Ok z
              | None => Raise ValueError
              end
  end.

Definition float_field (v : option string) : result Q :=
  match v with
  | None => Raise TypeError
  | Some s => match py_float s with
              | Some q => Ok q
              | None => Raise ValueError
              end
  end.

(** [FoodItem.__init__] *)
Definition new_food (name calories protein fat carbs : option string)
  : result FoodItem :=
  let* c := int_field calories in
  let* p := float_field protein in
  let* f := float_field fat in
  let* cb := float_field carbs in
  Ok (mkFoodItem name c p f cb).

(** The body of the loop of [load_data]: the five subscripts, then the
    constructor. *)
Definition read_row (row : csv_row) : result FoodItem :=
  let* n := dict_index row "name" in
  let* c := dict_index row "calories" in
  let* p := dict_index row "protein" in
  let* f := dict_index row "fat" in
  let* cb := dict_index row "carbs" in
  new_food n c p f cb.

(** The loop of [load_data] inside its [try]: the first exception ends the
    loop, and [self.food_items] keeps what was appended before it. *)
Fixpoint load_loop (rows : list csv_row) (food_items : list FoodItem)
  : list FoodItem :=
  match rows with
  | [] => food_items
  | row :: rest =>
      match read_row row with
      | Ok food => load_loop rest (food_items ++ [food])
      | Raise _ => food_items
      end
  end.

(** [MealPlanner.load_data]; the file is [None] when it cannot be opened. *)
Definition load_data (file : option (list csv_row)) (food_items : list FoodItem)
  : list FoodItem :=
  match file with
  | None => food_items
  | Some rows => load_loop rows food_items
  end.

(** [MealPlanner.__init__] *)
Definition init (file : option (list csv_row)) : list FoodItem :=
  load_data file [].

End WithParsers.

(** [itertools.combinations(l, r)]: the subsequences of length [r], in
    lexicographic order of their positions. *)
Fixpoint combinations {A : Type} (l : list A) (r : nat) {struct l}
  : list (list A) :=
  match r, l with
  | O, _ => [[]]
  | S _, [] => []
  | S r', x :: rest =>
      map (cons x) (combinations rest r') ++ combinations rest r
  end.

(** [best_diff]: [float('inf')] or a difference of integers *)
Inductive distance : Type :=
| Inf
| Fin (d : Z).

Definition lt_distance (d : Z) (best : distance) : bool :=
  match best with
  | Inf => true
  | Fin b => (d <? b)%Z
  end.

(** The body of the inner loop of [generate_plan] on the state
    [(best_plan, best_diff)]. *)
Definition consider (target_calories : Z)
    (state : option (list FoodItem) * distance) (combo : list FoodItem)
  : option (list FoodItem) * distance :=
  let total := sumZ (map calories combo) in
  let diff := Z.abs (target_calories - total) in
  if lt_distance diff (snd state) then (Some combo, Fin diff) else state.

(** [range(2, max_items + 1)] *)
Definition sizes (max_items : Z) : list nat :=
  seq 2 (Z.to_nat (max_items + 1) - 2).

(** [MealPlanner.generate_plan]; the menu passes the target as an [int]. *)
Definition generate_plan (food_items : list FoodItem) (target_calories : Z)
    (max_items : Z) : option MealPlan :=
  let final :=
    fold_left
      (fun state r =>
         fold_left (consider target_calories) (combinations food_items r) state)
      (sizes max_items) (None, Inf) in
  match fst final with
  | Some ((_ :: _) as best_plan) => Some (mkMealPlan best_plan)
  | _ => None
  end.

(** How far the calories of a combination are from the target. *)
Definition miss (target_calories : Z) (combo : list FoodItem) : Z :=
  Z.abs (target_calories - sumZ (map calories combo)).

(** The combinations the search ranges over: subsequences of the catalog
    with at least two and at most [max_items] items. *)
Definition candidate (food_items : list FoodItem) (max_items : Z)
    (combo : list FoodItem) : Prop :=
  sublist combo food_items /\
  (2 <= length combo)%nat /\ (Z.of_nat (length combo) <= max_items)%Z.

(** All combinations in the order the two loops visit them. *)
Definition visited (food_items : list FoodItem) (max_items : Z)
  : list (list FoodItem) :=
  flat_map (combinations food_items) (sizes max_items).

(** The state after visiting [seen]: nothing yet, or the first combination
    of [seen] with the least miss. *)
Definition first_best (target_calories : Z) (seen : list (list FoodItem))
    (state : option (list FoodItem) * distance) : Prop :=
  (seen = [] /\ state = (None, Inf)) \/
  (exists combo before after,
      state = (Some combo, Fin (miss target_calories combo)) /\
      seen = before ++ combo :: after /\
      (forall c, In c before -> (miss target_calories combo < miss target_calories c)%Z) /\
      (forall c, In c after -> (miss target_calories combo <= miss target_calories c)%Z)).

Definition bread : FoodItem := mkFoodItem (Some "Bread") 100 3 1 20.
Definition cheese : FoodItem := mkFoodItem (Some "Cheese") 200 12 16 1.
Definition pasta : FoodItem := mkFoodItem (Some "Pasta") 300 10 2 60.

End meal_planner.

(** * Properties *)

(** ** Basic facts *)

Lemma set_mem_true (x : string) (s : gset string) : set_mem x s = true <-> x ∈ s.
Proof. unfold set_mem. apply bool_decide_eq_true. Qed.

Lemma set_mem_false (x : string) (s : gset string) : set_mem x s = false <-> x ∉ s.
Proof. unfold set_mem. apply bool_decide_eq_false. Qed.

Lemma Qltb_true (x y : Q) : Qltb x y = true <-> (x < y)%Q.
Proof.
  unfold Qltb. rewrite negb_true_iff. split.
  - intros H. apply Qnot_le_lt. intros Hle.
    apply Qle_bool_iff in Hle. congruence.
  - intros H. destruct (Qle_bool y x) eqn:E; [|reflexivity].
    apply Qle_bool_iff in E. exfalso. exact (Qlt_not_le _ _ H E).
Qed.

Lemma Qltb_false (x y : Q) : Qltb x y = false <-> (y <= x)%Q.
Proof.
  unfold Qltb. rewrite negb_false_iff. apply Qle_bool_iff.
Qed.

Lemma Qgtb_true (x y : Q) : Qgtb x y = true <-> (y < x)%Q.
Proof. apply Qltb_true. Qed.

Lemma Qgtb_false (x y : Q) : Qgtb x y = false <-> (x <= y)%Q.
Proof. apply Qltb_false. Qed.

Lemma below_min_true (val : Q) (min_val : option Q) :
  below_min val min_val = true <-> exists m, min_val = Some m /\ (val < m)%Q.
Proof.
  destruct min_val as [m|]; simpl.
  - rewrite Qltb_true. split; [intros H; exists m; auto | intros (m' & Hm & H); congruence].
  - split; [discriminate | intros (m & Hm & _); discriminate].
Qed.

Lemma above_max_true (val : Q) (max_val : option Q) :
  above_max val max_val = true <-> exists m, max_val = Some m /\ (m < val)%Q.
Proof.
  destruct max_val as [m|]; simpl.
  - rewrite Qgtb_true. split; [intros H; exists m; auto | intros (m' & Hm & H); congruence].
  - split; [discriminate | intros (m & Hm & _); discriminate].
Qed.

Lemma above_max_false (val : Q) (max_val : option Q) :
  above_max val max_val = false <-> forall m, max_val = Some m -> (val <= m)%Q.
Proof.
  destruct max_val as [m|]; simpl.
  - rewrite Qgtb_false. split; [intros H m' Hm; congruence | intros H; apply H; reflexivity].
  - split; [intros _ m Hm; discriminate | reflexivity].
Qed.

Lemma dict_get_set {V : Type} (d : dict V) (k k' : string) (v : V) :
  dict_get (dict_set d k v) k' = if String.eqb k k' then Some v else dict_get d k'.
Proof.
  induction d as [|[k0 v0] d IH]; simpl.
  - reflexivity.
  - destruct (String.eqb k0 k) eqn:E0; simpl.
    + apply String.eqb_eq in E0. subst k0.
      destruct (String.eqb k k'); reflexivity.
    + destruct (String.eqb k0 k') eqn:E1.
      * apply String.eqb_eq in E1. subst k0. rewrite String.eqb_sym, E0. reflexivity.
      * exact IH.
Qed.

Lemma dict_get_set_eq {V : Type} (d : dict V) (k : string) (v : V) :
  dict_get (dict_set d k v) k = Some v.
Proof. rewrite dict_get_set, String.eqb_refl. reflexivity. Qed.

Lemma dict_get_set_ne {V : Type} (d : dict V) (k k' : string) (v : V) :
  k <> k' -> dict_get (dict_set d k v) k' = dict_get d k'.
Proof.
  intros H. rewrite dict_get_set. apply String.eqb_neq in H. rewrite H. reflexivity.
Qed.

Lemma dict_index_ok {V : Type} (d : dict V) (k : string) (v : V) :
  dict_index d k = Ok v <-> dict_get d k = Some v.
Proof.
  unfold dict_index. destruct (dict_get d k); split; intros H; congruence.
Qed.

Lemma bind_ok {A B : Type} (m : result A) (k : A -> result B) (b : B) :
  bind m k = Ok b -> exists a, m = Ok a /\ k a = Ok b.
Proof. destruct m; simpl; intros H; [eauto | discriminate]. Qed.

(** ** The builder *)

Module BuilderFacts.
Import MealPlanBuilder BuilderSpec.

Lemma check_slot_counts_cases (self : t) (caps : dict (Z * Z)) :
  (check_slot_counts self caps = Ok tt /\
   forall slot min_cap max_cap, In (slot, (min_cap, max_cap)) caps ->
     (min_cap <= Z.of_nat (length (_get_slot_items self slot)) <= max_cap)%Z) \/
  (check_slot_counts self caps = Raise ValueError /\
   exists slot min_cap max_cap, In (slot, (min_cap, max_cap)) caps /\
     (Z.of_nat (length (_get_slot_items self slot)) < min_cap \/
      Z.of_nat (length (_get_slot_items self slot)) > max_cap)%Z).
Proof.
  induction caps as [|[slot [min_cap max_cap]] rest IH]; simpl.
  - left. split; [reflexivity | intros ? ? ? []].
  - destruct (Z.ltb_spec (Z.of_nat (length (_get_slot_items self slot))) min_cap) as [Hlt|Hge].
    + right. split; [reflexivity|]. exists slot, min_cap, max_cap. split; [left; reflexivity | lia].
    + destruct (Z.gtb_spec (Z.of_nat (length (_get_slot_items self slot))) max_cap) as [Hgt|Hle].
      * right. split; [reflexivity|]. exists slot, min_cap, max_cap.
        split; [left; reflexivity | lia].
      * destruct IH as [[Hok Hall] | [Hraise (s & mn & mx & Hin & Hbad)]].
        -- left. split; [exact Hok|]. intros s mn mx [Heq | Hin].
           ++ injection Heq as -> -> ->. lia.
           ++ exact (Hall s mn mx Hin).
        -- right. split; [exact Hraise|]. exists s, mn, mx. split; [right; exact Hin | exact Hbad].
Qed.

Lemma check_total_limits_cases (tot : dict Q) (limits : dict (option Q * option Q)) :
  (check_total_limits tot limits = Ok tt /\
   forall metric min_val max_val, In (metric, (min_val, max_val)) limits ->
     below_min (dict_get_default tot metric 0%Q) min_val = false /\
     above_max (dict_get_default tot metric 0%Q) max_val = false) \/
  (check_total_limits tot limits = Raise ValueError /\
   exists metric min_val max_val, In (metric, (min_val, max_val)) limits /\
     (below_min (dict_get_default tot metric 0%Q) min_val = true \/
      above_max (dict_get_default tot metric 0%Q) max_val = true)).
Proof.
  induction limits as [|[metric [min_val max_val]] rest IH]; simpl.
  - left. split; [reflexivity | intros ? ? ? []].
  - destruct (below_min (dict_get_default tot metric 0%Q) min_val) eqn:Emin.
    { right. split; [reflexivity|]. exists metric, min_val, max_val.
      split; [left; reflexivity | left; exact Emin]. }
    destruct (above_max (dict_get_default tot metric 0%Q) max_val) eqn:Emax.
    { right. split; [reflexivity|]. exists metric, min_val, max_val.
      split; [left; reflexivity | right; exact Emax]. }
    destruct IH as [[Hok Hall] | [Hraise (k & a & b & Hin & Hbad)]].
    + left. split; [exact Hok|]. intros k a b [Heq | Hin].
      * injection Heq as <- <- <-. split; assumption.
      * exact (Hall k a b Hin).
    + right. split; [exact Hraise|]. exists k, a, b.
      split; [right; exact Hin | exact Hbad].
Qed.

Lemma build_cases (self : t) (targets : option (dict (option Q)))
    (limits : option (dict (option Q * option Q))) :
  (build self targets limits = Ok (plan_of self) /\
   ~ count_out_of_range self /\ ~ bound_violated self limits) \/
  (build self targets limits = Raise ValueError /\
   (count_out_of_range self \/ bound_violated self limits)).
Proof.
  unfold build, build_try.
  destruct (check_slot_counts_cases self (_slot_caps self))
    as [[Hok Hall] | [Hraise (slot & mn & mx & Hin & Hbad)]].
  2: { right. rewrite Hraise. simpl. split; [reflexivity|].
       left. exists slot, mn, mx. split; assumption. }
  rewrite Hok. cbn [bind]. fold (plan_of self).
  assert (Hcount : ~ count_out_of_range self).
  { intros (slot & mn & mx & Hin & Hbad). specialize (Hall slot mn mx Hin). lia. }
  destruct limits as [[|entry bounds]|].
  - left. split; [destruct (opt_dict_truthy targets); reflexivity|].
    split; [exact Hcount|].
    intros (bs & k & a & b & Heq & Hin & _). injection Heq as <-. destruct Hin.
  - assert (Hcond : forall A (x y : A),
               (if opt_dict_truthy targets
                   || opt_dict_truthy (Some (entry :: bounds)) then x else y) = x).
    { intros A x y. destruct (opt_dict_truthy targets); reflexivity. }
    rewrite Hcond.
    destruct (check_total_limits_cases (totals (plan_of self)) (entry :: bounds))
      as [[Hok' Hall'] | [Hraise (k & a & b & Hin & Hbad)]].
    + left. rewrite Hok'. cbn [bind]. split; [reflexivity|]. split; [exact Hcount|].
      intros (bs & k & a & b & Heq & Hin & Hbad). injection Heq as <-.
      destruct (Hall' k a b Hin) as [Hmin Hmax]. cbv zeta in Hbad.
      destruct Hbad as [Hb | Hb].
      * apply below_min_true in Hb. congruence.
      * apply above_max_true in Hb. congruence.
    + right. rewrite Hraise. cbn [bind]. split; [reflexivity|]. right.
      exists (entry :: bounds), k, a, b. split; [reflexivity|]. split; [exact Hin|].
      cbv zeta. destruct Hbad as [Hb | Hb].
      * left. apply below_min_true. exact Hb.
      * right. apply above_max_true. exact Hb.
  - left. split; [destruct (opt_dict_truthy targets); reflexivity|].
    split; [exact Hcount|].
    intros (bs & k & a & b & Heq & _). discriminate.
Qed.

End BuilderFacts.

(** C5. [MealPlanBuilder.build] raises (a [ValueError]) if and only if the
    item count of some configured slot lies outside its [min_count, max_count]
    range or a supplied aggregate bound is violated by the totals of the
    plan (a bounded nutrient's total below its minimum or above its
    maximum); otherwise it returns the plan whose four slot lists are the
    accumulated slot contents. In particular, with breakfast capacity (1, 2)
    and no breakfast item, [build] fails. *)
Theorem build_fails_iff_violation :
  forall (self : MealPlanBuilder.t) (targets : option (dict (option Q)))
         (limits : option (dict (option Q * option Q))),
    ((exists e, MealPlanBuilder.build self targets limits = Raise e) <->
     BuilderSpec.count_out_of_range self \/ BuilderSpec.bound_violated self limits) /\
    (forall e, MealPlanBuilder.build self targets limits = Raise e -> e = ValueError) /\
    (~ (BuilderSpec.count_out_of_range self \/ BuilderSpec.bound_violated self limits) ->
     MealPlanBuilder.build self targets limits = Ok (BuilderSpec.plan_of self)) /\
    (In ("breakfast", (1, 2)%Z) (MealPlanBuilder._slot_caps self) ->
     MealPlanBuilder._breakfast self = [] ->
     MealPlanBuilder.build self targets limits = Raise ValueError).
Proof.
  intros self targets limits.
  destruct (BuilderFacts.build_cases self targets limits)
    as [(Hok & Hc & Hb) | (Hraise & Hbad)].
  - repeat split.
    + intros [e He]. congruence.
    + intros [H | H]; contradiction.
    + intros e He. congruence.
    + intros _. exact Hok.
    + intros Hin Hempty. exfalso. apply Hc.
      exists "breakfast", 1%Z, 2%Z. split; [exact Hin|].
      left. unfold MealPlanBuilder._get_slot_items. simpl. rewrite Hempty. simpl. lia.
  - repeat split.
    + intros _. exact Hbad.
    + intros _. exists ValueError. exact Hraise.
    + intros e He. congruence.
    + intros Hno. contradiction.
    + intros _ _. exact Hraise.
Qed.

(** With the default capacities and nothing added, [build] fails: the
    breakfast slot holds 0 items and needs at least 1. With one item in each
    of breakfast, lunch and dinner it returns the plan of these lists. *)
Lemma build_fails_iff_violation_witness :
  MealPlanBuilder.build MealPlanBuilder.init None None = Raise ValueError /\
  MealPlanBuilder.build
    (MealPlanBuilder.mk [oats] [soup] [stew] [] default_slot_caps) None None
  = Ok (mkMealPlan [oats] [soup] [stew] []).
Proof.
  split.
  - apply (proj2 (proj2 (proj2
             (build_fails_iff_violation MealPlanBuilder.init None None)))).
    + simpl. left. reflexivity.
    + reflexivity.
  - apply (proj1 (proj2 (proj2
             (build_fails_iff_violation
                (MealPlanBuilder.mk [oats] [soup] [stew] [] default_slot_caps)
                None None)))).
    intros [(slot & mn & mx & Hin & Hbad) | (bounds & k & a & b & Heq & _)].
    + simpl in Hin.
      destruct Hin as [H | [H | [H | [H | []]]]]; injection H as <- <- <-;
        vm_compute in Hbad; destruct Hbad; discriminate.
    + discriminate.
Defined.

(** C10. [add_to_slot] raises if and only if the slot name is not in the
    item's [meal_times]; called with a slot name outside the four known slots
    that is in the item's [meal_times], it raises nothing and returns the
    builder unchanged: the item is added nowhere and the four slot lists are
    as before. *)
Theorem add_to_slot_raises_iff_not_eligible :
  forall (self : MealPlanBuilder.t) (slot : string) (item : FoodItem),
    ((exists e, MealPlanBuilder.add_to_slot self slot item = Raise e) <->
     slot ∉ meal_times item) /\
    (slot ∈ meal_times item ->
     slot <> "breakfast" -> slot <> "lunch" -> slot <> "dinner" -> slot <> "snack" ->
     MealPlanBuilder.add_to_slot self slot item = Ok self).
Proof.
  intros self slot item. unfold MealPlanBuilder.add_to_slot.
  destruct (set_mem slot (meal_times item)) eqn:Emem; simpl.
  - apply set_mem_true in Emem. split.
    + split.
      * intros [e He].
        repeat match type of He with
               | (if ?b then _ else _) = _ => destruct b
               end; discriminate.
      * intros Hnot. contradiction.
    + intros _ Hb Hl Hd Hs.
      apply String.eqb_neq in Hb, Hl, Hd, Hs.
      rewrite Hb, Hl, Hd, Hs. reflexivity.
  - apply set_mem_false in Emem. split.
    + split; [intros _; exact Emem | intros _; exists ValueError; reflexivity].
    + intros Hin. contradiction.
Qed.

(** A food whose only meal time is "brunch" is accepted for "brunch" and the
    builder stays as it was; the oats, a breakfast food, are refused for
    "dinner". *)
Lemma add_to_slot_raises_iff_not_eligible_witness :
  MealPlanBuilder.add_to_slot MealPlanBuilder.init "brunch" brunch_bowl
  = Ok MealPlanBuilder.init /\
  exists e, MealPlanBuilder.add_to_slot MealPlanBuilder.init "dinner" oats = Raise e.
Proof.
  split.
  - apply (proj2 (add_to_slot_raises_iff_not_eligible
                    MealPlanBuilder.init "brunch" brunch_bowl)).
    + apply set_mem_true. vm_compute. reflexivity.
    + discriminate.
    + discriminate.
    + discriminate.
    + discriminate.
  - apply (proj2 (proj1 (add_to_slot_raises_iff_not_eligible
                           MealPlanBuilder.init "dinner" oats))).
    apply set_mem_false. vm_compute. reflexivity.
Defined.

(** ** The slot allocator *)

Module AllocatorFacts.
Import MealOptimizer AllocatorSpec.

Lemma all_empty_fold (keys : list string) (d : dict (list FoodItem)) :
  (forall slot items, dict_get d slot = Some items -> items = []) ->
  forall slot items,
    dict_get (fold_left (fun d slot => dict_set d slot []) keys d) slot = Some items ->
    items = [].
Proof.
  revert d. induction keys as [|k keys IH]; intros d Hd slot items; simpl.
  - apply Hd.
  - apply IH. intros s its. rewrite dict_get_set.
    destruct (String.eqb k s); [congruence | apply Hd].
Qed.

Lemma empty_distribution_within (slot_caps : dict (Z * Z)) :
  within_caps slot_caps (empty_distribution slot_caps).
Proof.
  intros slot items H. left. unfold empty_distribution in H.
  eapply all_empty_fold; [|exact H]. intros s its Hs. discriminate.
Qed.

Lemma assign_natural_some (food : FoodItem) (slot_caps : dict (Z * Z))
    (d d' : dict (list FoodItem)) (slots : list string) :
  assign_natural food slot_caps d slots = Ok (Some d') ->
  exists slot items cap,
    In slot slots /\ slot ∈ meal_times food /\
    ~ (slot = "breakfast" /\ "meat" ∈ tags food) /\
    dict_get d slot = Some items /\
    dict_get slot_caps slot = Some cap /\
    (Z.of_nat (length items) < snd cap)%Z /\
    d' = dict_set d slot (items ++ [food]).
Proof.
  induction slots as [|slot rest IH]; simpl; [discriminate|].
  assert (Hrest : assign_natural food slot_caps d rest = Ok (Some d') ->
                  exists slot0 items cap,
                    (slot = slot0 \/ In slot0 rest) /\ slot0 ∈ meal_times food /\
                    ~ (slot0 = "breakfast" /\ "meat" ∈ tags food) /\
                    dict_get d slot0 = Some items /\
                    dict_get slot_caps slot0 = Some cap /\
                    (Z.of_nat (length items) < snd cap)%Z /\
                    d' = dict_set d slot0 (items ++ [food])).
  { intros H. destruct (IH H) as (s & its & cap & Hin & Hrest).
    exists s, its, cap. split; [right; exact Hin | exact Hrest]. }
  destruct (set_mem slot (meal_times food)) eqn:Emem; [|exact Hrest].
  intros H.
  apply bind_ok in H as (items & Hitems & H).
  apply bind_ok in H as (cap & Hcap & H).
  apply dict_index_ok in Hitems, Hcap.
  destruct (String.eqb slot "breakfast" && set_mem "meat" (tags food)) eqn:Emeat;
    [exact (Hrest H)|].
  destruct (Z.ltb_spec (Z.of_nat (length items)) (snd cap)) as [Hlt|Hge];
    [|exact (Hrest H)].
  injection H as <-.
  exists slot, items, cap. split; [left; reflexivity|].
  split; [apply set_mem_true; exact Emem|].
  split.
  - intros [Hb Hm]. apply andb_false_iff in Emeat as [E|E].
    + apply String.eqb_neq in E. contradiction.
    + apply set_mem_false in E. contradiction.
  - repeat split; assumption.
Qed.

Lemma assign_natural_none (food : FoodItem) (slot_caps : dict (Z * Z))
    (d : dict (list FoodItem)) (slots : list string) :
  assign_natural food slot_caps d slots = Ok None ->
  forall slot, In slot slots -> slot ∈ meal_times food ->
    (slot = "breakfast" /\ "meat" ∈ tags food) \/
    exists items cap,
      dict_get d slot = Some items /\
      dict_get slot_caps slot = Some cap /\
      (snd cap <= Z.of_nat (length items))%Z.
Proof.
  induction slots as [|slot rest IH]; simpl; [intros _ ? []|].
  intros H s [<- | Hin] Hs.
  - apply set_mem_true in Hs. rewrite Hs in H.
    apply bind_ok in H as (items & Hitems & H).
    apply bind_ok in H as (cap & Hcap & H).
    apply dict_index_ok in Hitems, Hcap.
    destruct (String.eqb slot "breakfast" && set_mem "meat" (tags food)) eqn:Emeat.
    + left. apply andb_true_iff in Emeat as [Eb Em].
      split; [apply String.eqb_eq; exact Eb | apply set_mem_true; exact Em].
    + right. destruct (Z.ltb_spec (Z.of_nat (length items)) (snd cap)) as [Hlt|Hge];
        [discriminate|].
      exists items, cap. repeat split; assumption.
  - apply IH; [|exact Hin|exact Hs].
    destruct (set_mem slot (meal_times food)); [|exact H].
    apply bind_ok in H as (items & Hitems & H).
    apply bind_ok in H as (cap & Hcap & H).
    destruct (String.eqb slot "breakfast" && set_mem "meat" (tags food)); [exact H|].
    destruct (Z.of_nat (length items) <? snd cap)%Z; [discriminate | exact H].
Qed.

Lemma assign_fallback_guarded (food : FoodItem) (slot_caps : dict (Z * Z))
    (d d' : dict (list FoodItem)) (slots : list string) :
  assign_fallback food slot_caps d slots = Ok d' ->
  guarded_append slot_caps food d d'.
Proof.
  induction slots as [|slot rest IH]; simpl.
  - intros H. injection H as <-. left. reflexivity.
  - intros H.
    apply bind_ok in H as (items & Hitems & H).
    apply bind_ok in H as (cap & Hcap & H).
    apply dict_index_ok in Hitems, Hcap.
    destruct (Z.ltb_spec (Z.of_nat (length items)) (snd cap)) as [Hlt|Hge];
      [|exact (IH H)].
    injection H as <-. right. exists slot, items, cap. repeat split; assumption.
Qed.

Lemma place_food_guarded (slot_caps : dict (Z * Z)) (d d' : dict (list FoodItem))
    (food : FoodItem) :
  place_food slot_caps d food = Ok d' -> guarded_append slot_caps food d d'.
Proof.
  unfold place_food. intros H.
  apply bind_ok in H as ([d1|] & Hnat & H).
  - injection H as <-.
    apply assign_natural_some in Hnat
      as (slot & items & cap & _ & _ & _ & Hitems & Hcap & Hlt & ->).
    right. exists slot, items, cap. repeat split; assumption.
  - eapply assign_fallback_guarded. exact H.
Qed.

Lemma guarded_append_within (slot_caps : dict (Z * Z)) (food : FoodItem)
    (d d' : dict (list FoodItem)) :
  guarded_append slot_caps food d d' ->
  within_caps slot_caps d -> within_caps slot_caps d'.
Proof.
  intros [-> | (slot & items & cap & Hitems & Hcap & Hlt & ->)] Hd; [exact Hd|].
  intros s its. rewrite dict_get_set.
  destruct (String.eqb slot s) eqn:E.
  - apply String.eqb_eq in E. subst s. intros H. injection H as <-.
    right. exists cap. split; [exact Hcap|].
    rewrite length_app. simpl. lia.
  - apply Hd.
Qed.

Lemma place_foods_within (slot_caps : dict (Z * Z)) (foods : list FoodItem) :
  forall d d', place_foods slot_caps d foods = Ok d' ->
               within_caps slot_caps d -> within_caps slot_caps d'.
Proof.
  induction foods as [|food rest IH]; simpl; intros d d' H Hd.
  - injection H as <-. exact Hd.
  - apply bind_ok in H as (d1 & Hstep & H).
    apply (IH d1 d' H).
    eapply guarded_append_within; [|exact Hd].
    eapply place_food_guarded. exact Hstep.
Qed.

Lemma fold_set_keeps_keys (keys : list string) :
  forall (d : dict (list FoodItem)) (slot : string),
    In slot keys \/ (exists v, dict_get d slot = Some v) ->
    exists v, dict_get (fold_left (fun d slot => dict_set d slot []) keys d) slot
              = Some v.
Proof.
  induction keys as [|k keys IH]; intros d slot H; simpl.
  - destruct H as [[] | H]. exact H.
  - apply IH. destruct H as [[<- | Hin] | (v & Hv)].
    + right. exists []. apply dict_get_set_eq.
    + left. exact Hin.
    + right. rewrite dict_get_set. destruct (String.eqb k slot); eauto.
Qed.

Lemma dict_get_in_keys {V : Type} (d : dict V) (k : string) (v : V) :
  dict_get d k = Some v -> In k (map fst d).
Proof.
  induction d as [|[k0 v0] d IH]; simpl; [discriminate|].
  destruct (String.eqb_spec k0 k) as [->|_]; [left; reflexivity|].
  intros H. right. exact (IH H).
Qed.

Lemma empty_distribution_has_slots (slot_caps : dict (Z * Z)) :
  has_slots slot_caps -> has_slots (empty_distribution slot_caps).
Proof.
  intros Hcaps slot Hslot. destruct (Hcaps slot Hslot) as (cap & Hcap).
  unfold empty_distribution. apply fold_set_keeps_keys. left.
  eapply dict_get_in_keys. exact Hcap.
Qed.

Lemma guarded_append_has_slots (slot_caps : dict (Z * Z)) (food : FoodItem)
    (d d' : dict (list FoodItem)) :
  guarded_append slot_caps food d d' -> has_slots d -> has_slots d'.
Proof.
  intros [-> | (slot & items & cap & _ & _ & _ & ->)] Hd; [exact Hd|].
  intros s Hs. rewrite dict_get_set.
  destruct (String.eqb slot s); [eauto | exact (Hd s Hs)].
Qed.

Lemma assign_natural_total (food : FoodItem) (slot_caps : dict (Z * Z))
    (d : dict (list FoodItem)) (slots : list string) :
  has_slots slot_caps -> has_slots d ->
  (forall slot, In slot slots -> In slot slot_order) ->
  exists assigned, assign_natural food slot_caps d slots = Ok assigned.
Proof.
  intros Hcaps Hd. induction slots as [|slot rest IH]; intros Hsub; simpl.
  - exists None. reflexivity.
  - assert (Hrest : exists assigned,
               assign_natural food slot_caps d rest = Ok assigned).
    { apply IH. intros s Hs. apply Hsub. right. exact Hs. }
    destruct (set_mem slot (meal_times food)); [|exact Hrest].
    destruct (Hd slot (Hsub slot (or_introl eq_refl))) as (items & Hitems).
    destruct (Hcaps slot (Hsub slot (or_introl eq_refl))) as (cap & Hcap).
    unfold dict_index. rewrite Hitems, Hcap. cbn [bind].
    destruct (String.eqb slot "breakfast" && set_mem "meat" (tags food));
      [exact Hrest|].
    destruct (Z.of_nat (length items) <? snd cap)%Z; [eauto | exact Hrest].
Qed.

Lemma assign_fallback_total (food : FoodItem) (slot_caps : dict (Z * Z))
    (d : dict (list FoodItem)) (slots : list string) :
  has_slots slot_caps -> has_slots d ->
  (forall slot, In slot slots -> In slot slot_order) ->
  exists d', assign_fallback food slot_caps d slots = Ok d'.
Proof.
  intros Hcaps Hd. induction slots as [|slot rest IH]; intros Hsub; simpl.
  - exists d. reflexivity.
  - destruct (Hd slot (Hsub slot (or_introl eq_refl))) as (items & Hitems).
    destruct (Hcaps slot (Hsub slot (or_introl eq_refl))) as (cap & Hcap).
    unfold dict_index. rewrite Hitems, Hcap. cbn [bind].
    destruct (Z.of_nat (length items) <? snd cap)%Z; [eauto|].
    apply IH. intros s Hs. apply Hsub. right. exact Hs.
Qed.

Lemma place_food_total (slot_caps : dict (Z * Z)) (d : dict (list FoodItem))
    (food : FoodItem) :
  has_slots slot_caps -> has_slots d ->
  exists d', place_food slot_caps d food = Ok d'.
Proof.
  intros Hcaps Hd. unfold place_food.
  destruct (assign_natural_total food slot_caps d slot_order Hcaps Hd)
    as ([d1|] & Hnat); [auto | | ]; rewrite Hnat; cbn [bind].
  - exists d1. reflexivity.
  - apply assign_fallback_total; auto.
Qed.

(** The allocator raises nothing when the four slots are configured. *)
Lemma place_foods_total (slot_caps : dict (Z * Z)) (foods : list FoodItem) :
  has_slots slot_caps ->
  forall d, has_slots d -> exists d', place_foods slot_caps d foods = Ok d'.
Proof.
  intros Hcaps. induction foods as [|food rest IH]; intros d Hd; simpl.
  - exists d. reflexivity.
  - destruct (place_food_total slot_caps d food Hcaps Hd) as (d1 & Hstep).
    rewrite Hstep. cbn [bind]. apply IH.
    eapply guarded_append_has_slots; [|exact Hd].
    eapply place_food_guarded. exact Hstep.
Qed.

End AllocatorFacts.

(** C7. [distribute_to_slots] never assigns more items to a slot than the
    slot's configured maximum count, whether the items came through the
    eligibility pass or through the fallback pass: every slot list of the
    result has at most [max_count] items, and a slot whose configured
    maximum is negative receives nothing. The allocator returns, raising
    nothing, whenever the capacity map configures the four slots. *)
Theorem distribute_respects_max :
  forall (foods : list FoodItem) (slot_caps : dict (Z * Z)),
    (AllocatorSpec.has_slots slot_caps ->
     exists distribution,
       MealOptimizer.distribute_to_slots foods slot_caps = Ok distribution) /\
    forall (distribution : dict (list FoodItem)),
      MealOptimizer.distribute_to_slots foods slot_caps = Ok distribution ->
      forall (slot : string) (items : list FoodItem) (min_count max_count : Z),
        dict_get distribution slot = Some items ->
        dict_get slot_caps slot = Some (min_count, max_count) ->
        (Z.of_nat (length items) <= Z.max 0 max_count)%Z.
Proof.
  intros foods slot_caps. unfold MealOptimizer.distribute_to_slots. split.
  - intros Hcaps. apply AllocatorFacts.place_foods_total; [exact Hcaps|].
    apply AllocatorFacts.empty_distribution_has_slots. exact Hcaps.
  - intros distribution Hrun slot items min_count max_count Hitems Hcap.
    pose proof (AllocatorFacts.place_foods_within slot_caps foods _ _ Hrun
                  (AllocatorFacts.empty_distribution_within slot_caps)) as Hwithin.
    destruct (Hwithin slot items Hitems) as [-> | (cap & Hcap' & Hle)].
    + simpl. lia.
    + rewrite Hcap in Hcap'. injection Hcap' as <-. simpl in Hle. lia.
Qed.

(** Four soups against a lunch maximum of three: lunch ends with three. *)
Lemma distribute_respects_max_witness :
  (exists distribution,
      MealOptimizer.distribute_to_slots [soup; soup; soup; soup] default_slot_caps
      = Ok distribution) /\
  (Z.of_nat (length [soup; soup; soup]) <= Z.max 0 3)%Z.
Proof.
  destruct (distribute_respects_max [soup; soup; soup; soup] default_slot_caps)
    as [Htotal Hmax].
  split.
  - apply Htotal. intros slot Hslot. simpl in Hslot.
    destruct Hslot as [<- | [<- | [<- | [<- | []]]]]; eexists; reflexivity.
  - eapply (Hmax _ ltac:(vm_compute; reflexivity) "lunch" [soup; soup; soup] 1%Z 3%Z).
    + vm_compute. reflexivity.
    + reflexivity.
Defined.

(** C2 (as amended). A food tagged "meat" is appended to "breakfast" only by
    the fallback pass, which is reached only when, at the time the food is
    processed, no slot other than breakfast that the food is eligible for
    has free capacity. Slots the food is not eligible for are not looked at
    by the first pass and may still have room. *)
Theorem meat_reaches_breakfast_only_by_fallback :
  forall (slot_caps : dict (Z * Z)) (pre : list FoodItem) (food : FoodItem)
         (d d' : dict (list FoodItem)),
    MealOptimizer.distribute_to_slots pre slot_caps = Ok d ->
    MealOptimizer.place_food slot_caps d food = Ok d' ->
    "meat" ∈ tags food ->
    AllocatorSpec.placed_in "breakfast" food d d' ->
    MealOptimizer.assign_natural food slot_caps d MealOptimizer.slot_order = Ok None /\
    MealOptimizer.assign_fallback food slot_caps d MealOptimizer.slot_order = Ok d' /\
    forall slot, In slot ["lunch"; "dinner"; "snack"] ->
                 slot ∈ meal_times food ->
                 ~ AllocatorSpec.free_capacity slot_caps d slot.
Proof.
  intros slot_caps pre food d d' _ Hstep Hmeat (items & Hbefore & Hafter).
  unfold MealOptimizer.place_food in Hstep.
  apply bind_ok in Hstep as ([d1|] & Hnat & Hstep).
  - exfalso. injection Hstep as <-.
    apply AllocatorFacts.assign_natural_some in Hnat
      as (slot & its & cap & _ & _ & Hnot & Hits & _ & _ & ->).
    rewrite dict_get_set in Hafter.
    destruct (String.eqb slot "breakfast") eqn:E.
    + apply String.eqb_eq in E. apply Hnot. split; assumption.
    + rewrite Hbefore in Hafter. injection Hafter as Hafter.
      apply (f_equal (@length FoodItem)) in Hafter.
      rewrite length_app in Hafter. simpl in Hafter. lia.
  - split; [exact Hnat|]. split; [exact Hstep|].
    intros slot Hslot Helig (its & cap & Hits & Hcap & Hlt).
    destruct (AllocatorFacts.assign_natural_none food slot_caps d _ Hnat slot)
      as [[Hb _] | (its' & cap' & Hits' & Hcap' & Hge)].
    + simpl in Hslot |- *. intuition.
    + exact Helig.
    + subst slot. simpl in Hslot. intuition discriminate.
    + rewrite Hits in Hits'. rewrite Hcap in Hcap'.
      injection Hits' as <-. injection Hcap' as <-. lia.
Qed.

(** Ham (breakfast or lunch, meat) after three soups: lunch is full, so the
    fallback pass puts it in breakfast. *)
Lemma meat_reaches_breakfast_only_by_fallback_witness :
  ~ AllocatorSpec.free_capacity default_slot_caps
      [("breakfast", []); ("lunch", [soup; soup; soup]); ("dinner", []);
       ("snack", [])] "lunch".
Proof.
  refine (proj2 (proj2
    (meat_reaches_breakfast_only_by_fallback default_slot_caps
       [soup; soup; soup] ham
       [("breakfast", []); ("lunch", [soup; soup; soup]); ("dinner", []);
        ("snack", [])]
       [("breakfast", [ham]); ("lunch", [soup; soup; soup]); ("dinner", []);
        ("snack", [])]
       _ _ _ _)) "lunch" _ _).
  - vm_compute. reflexivity.
  - vm_compute. reflexivity.
  - apply set_mem_true. vm_compute. reflexivity.
  - exists []. split; reflexivity.
  - simpl. left. reflexivity.
  - apply set_mem_true. vm_compute. reflexivity.
Defined.

(** C2 (as stated) fails: a steak whose only meal time is breakfast is
    placed in breakfast by the fallback pass of an empty distribution, while
    lunch, dinner and snack are all empty. *)
Lemma meat_only_when_others_full_fails :
  MealOptimizer.distribute_to_slots [steak] default_slot_caps
  = Ok [("breakfast", [steak]); ("lunch", []); ("dinner", []); ("snack", [])] /\
  AllocatorSpec.free_capacity default_slot_caps
    [("breakfast", []); ("lunch", []); ("dinner", []); ("snack", [])] "lunch" /\
  ~ AllocatorSpec.meat_only_when_others_full.
Proof.
  assert (Hfree : AllocatorSpec.free_capacity default_slot_caps
                    [("breakfast", []); ("lunch", []); ("dinner", []); ("snack", [])]
                    "lunch").
  { exists [], (1, 3)%Z. repeat split. }
  split; [vm_compute; reflexivity|]. split; [exact Hfree|].
  intros H.
  apply (H default_slot_caps [] steak
           [("breakfast", []); ("lunch", []); ("dinner", []); ("snack", [])]
           [("breakfast", [steak]); ("lunch", []); ("dinner", []); ("snack", [])]
           ltac:(vm_compute; reflexivity) ltac:(vm_compute; reflexivity)
           ltac:(apply set_mem_true; vm_compute; reflexivity)
           ltac:(exists []; split; reflexivity)
           "lunch" ltac:(simpl; left; reflexivity)).
  exact Hfree.
Qed.

(** ** The greedy selector *)

Module SelectorFacts.
Import MealOptimizer SelectorSpec.

Lemma running_total_snoc (selected : list FoodItem) (food : FoodItem) (nutrient : string) :
  running_total (selected ++ [food]) nutrient
  = (running_total selected nutrient + get_nutrient_value food nutrient)%Q.
Proof.
  unfold running_total. rewrite map_app, fold_left_app. reflexivity.
Qed.

Lemma add_nutrients_four (a b c e : Q) (food : FoodItem) :
  add_nutrients [("calories", a); ("protein", b); ("fat", c); ("carbs", e)]
    food nutrients
  = Ok [("calories", (a + get_nutrient_value food "calories")%Q);
        ("protein", (b + get_nutrient_value food "protein")%Q);
        ("fat", (c + get_nutrient_value food "fat")%Q);
        ("carbs", (e + get_nutrient_value food "carbs")%Q)].
Proof. reflexivity. Qed.

Lemma add_nutrients_totals (selected : list FoodItem) (food : FoodItem) :
  add_nutrients (totals_of selected) food nutrients = Ok (totals_of (selected ++ [food])).
Proof.
  unfold totals_of. unfold nutrients at 1 3. cbn [map].
  rewrite !running_total_snoc. apply add_nutrients_four.
Qed.

Lemma totals_of_get (selected : list FoodItem) (nutrient : string) (val : Q) :
  dict_get (totals_of selected) nutrient = Some val ->
  In nutrient nutrients /\ val = running_total selected nutrient.
Proof.
  unfold totals_of, nutrients. cbn [map dict_get In].
  repeat match goal with
         | |- context [String.eqb ?k nutrient] =>
             destruct (String.eqb_spec k nutrient) as [<-|_];
             [intros H; injection H as <-; split; [tauto | reflexivity]|]
         end.
  discriminate.
Qed.

Lemma within_limits_true (temp_totals : dict Q) (limits : dict (option Q * option Q)) :
  within_limits temp_totals limits = Ok true ->
  forall nutrient min_val max_val, In (nutrient, (min_val, max_val)) limits ->
    exists val, dict_get temp_totals nutrient = Some val /\
                (below_min val min_val = true \/ above_max val max_val = false).
Proof.
  induction limits as [|[k [mn mx]] rest IH]; simpl; [intros _ ? ? ? []|].
  intros H nutrient min_val max_val Hin.
  apply bind_ok in H as (val & Hval & H). apply dict_index_ok in Hval.
  destruct (below_min val mn) eqn:Emin.
  - destruct Hin as [Heq | Hin]; [|exact (IH H _ _ _ Hin)].
    injection Heq as <- <- <-. exists val. split; [exact Hval | left; exact Emin].
  - destruct (above_max val mx) eqn:Emax; [discriminate|].
    destruct Hin as [Heq | Hin]; [|exact (IH H _ _ _ Hin)].
    injection Heq as <- <- <-. exists val. split; [exact Hval | right; exact Emax].
Qed.

Lemma accepted_ok_nil (limits : dict (option Q * option Q)) : accepted_ok limits [].
Proof. intros pre food post H. destruct pre; discriminate. Qed.

Lemma accepted_ok_snoc (limits : dict (option Q * option Q))
    (selected : list FoodItem) (food : FoodItem) :
  accepted_ok limits selected ->
  within_limits (totals_of (selected ++ [food])) limits = Ok true ->
  accepted_ok limits (selected ++ [food]).
Proof.
  intros Hsel Hcheck pre f post Hsplit nutrient min_val max_val Hin.
  destruct post as [|x post' _] using rev_ind.
  - apply app_inj_tail in Hsplit as [-> ->].
    destruct (within_limits_true _ _ Hcheck _ _ _ Hin) as (val & Hval & Hchecked).
    apply totals_of_get in Hval as [Hn ->]. split; [exact Hn|].
    destruct Hchecked as [Hb | Ha].
    + left. apply below_min_true. exact Hb.
    + right. exact (proj1 (above_max_false _ _) Ha max_val eq_refl).
  - change (pre ++ f :: post' ++ [x]) with (pre ++ (f :: post') ++ [x]) in Hsplit.
    rewrite app_assoc in Hsplit.
    apply app_inj_tail in Hsplit as [-> _].
    exact (Hsel pre f post' eq_refl nutrient min_val max_val Hin).
Qed.

Lemma select_loop_spec (limits : dict (option Q * option Q)) (max_items : Z)
    (item_scores : list (Q * FoodItem)) :
  forall selected result,
    select_loop limits max_items item_scores selected (totals_of selected) = Ok result ->
    accepted_ok limits selected ->
    (Z.of_nat (length selected) <= Z.max 0 max_items)%Z ->
    accepted_ok limits result /\
    (Z.of_nat (length result) <= Z.max 0 max_items)%Z.
Proof.
  induction item_scores as [|[score food] rest IH];
    intros selected result H Hsel Hlen; cbn [select_loop] in H.
  - injection H as <-. split; assumption.
  - rewrite Z.geb_leb in H.
    destruct (Z.leb_spec max_items (Z.of_nat (length selected))) as [Hfull|Hroom].
    + injection H as <-. split; assumption.
    + rewrite add_nutrients_totals in H. cbn [bind] in H.
      apply bind_ok in H as ([|] & Hcheck & H).
      * apply (IH _ _ H).
        -- apply accepted_ok_snoc; assumption.
        -- rewrite length_app. simpl. lia.
      * apply (IH _ _ H); assumption.
Qed.

Lemma totals_of_known (selected : list FoodItem) (nutrient : string) :
  In nutrient nutrients ->
  dict_get (totals_of selected) nutrient = Some (running_total selected nutrient).
Proof.
  unfold nutrients. simpl.
  intros [<- | [<- | [<- | [<- | []]]]]; reflexivity.
Qed.

Lemma within_limits_total (selected : list FoodItem)
    (limits : dict (option Q * option Q)) :
  (forall nutrient bound, In (nutrient, bound) limits -> In nutrient nutrients) ->
  exists ok, within_limits (totals_of selected) limits = Ok ok.
Proof.
  induction limits as [|[k [mn mx]] rest IH]; intros Hkeys; cbn [within_limits].
  - exists true. reflexivity.
  - unfold dict_index. rewrite (totals_of_known selected k).
    2: { apply (Hkeys k (mn, mx)). left. reflexivity. }
    cbn [bind].
    assert (Hrest : exists ok, within_limits (totals_of selected) rest = Ok ok).
    { apply IH. intros n b Hin. apply (Hkeys n b). right. exact Hin. }
    destruct (below_min (running_total selected k) mn); [exact Hrest|].
    destruct (above_max (running_total selected k) mx); [|exact Hrest].
    exists false. reflexivity.
Qed.

Lemma select_loop_total (limits : dict (option Q * option Q)) (max_items : Z)
    (item_scores : list (Q * FoodItem)) :
  (forall nutrient bound, In (nutrient, bound) limits -> In nutrient nutrients) ->
  forall selected,
    exists result,
      select_loop limits max_items item_scores selected (totals_of selected)
      = Ok result.
Proof.
  intros Hkeys.
  induction item_scores as [|[score food] rest IH]; intros selected;
    cbn [select_loop].
  - exists selected. reflexivity.
  - destruct (Z.of_nat (length selected) >=? max_items)%Z.
    + exists selected. reflexivity.
    + rewrite add_nutrients_totals. cbn [bind].
      destruct (within_limits_total (selected ++ [food]) limits Hkeys) as [ok Hok].
      rewrite Hok. cbn [bind]. destruct ok; apply IH.
Qed.

End SelectorFacts.

(** C1 (as amended). [knapsack_optimize] returns, raising nothing, whenever
    every nutrient named in the bound map is one of the four tracked
    nutrients. What it returns has at most [max_items] records (none when
    [max_items] is not positive), and for every record it accepts and every
    nutrient with a configured maximum, the running total that includes the
    record is, at the moment of acceptance, either below that nutrient's
    configured minimum or not above its maximum. So a bounded nutrient goes
    over its maximum only through a bound whose minimum is larger than its
    maximum. *)
Theorem knapsack_cap_and_maxima :
  forall (sort : list (Q * FoodItem) -> list (Q * FoodItem))
         (foods : list FoodItem) (targets : dict Q)
         (limits : dict (option Q * option Q)) (weights : dict Q)
         (max_items : Z),
    ((forall nutrient bound,
         In (nutrient, bound) limits -> In nutrient MealOptimizer.nutrients) ->
     exists selected,
       MealOptimizer.knapsack_optimize sort foods targets limits weights max_items
       = Ok selected) /\
    forall selected,
      MealOptimizer.knapsack_optimize sort foods targets limits weights max_items
      = Ok selected ->
      (Z.of_nat (length selected) <= Z.max 0 max_items)%Z /\
      forall pre food post, selected = pre ++ food :: post ->
        forall nutrient min_val max_val,
          In (nutrient, (min_val, Some max_val)) limits ->
          In nutrient MealOptimizer.nutrients /\
          ((exists m, min_val = Some m /\
                      (SelectorSpec.running_total (pre ++ [food]) nutrient < m)%Q) \/
           (SelectorSpec.running_total (pre ++ [food]) nutrient <= max_val)%Q).
Proof.
  intros sort foods targets limits weights max_items.
  unfold MealOptimizer.knapsack_optimize.
  change MealOptimizer.zero_totals with (SelectorSpec.totals_of []).
  split.
  - intros Hkeys.
    destruct (negb (dict_truthy targets) || match foods with [] => true | _ => false end).
    + exists []. reflexivity.
    + apply SelectorFacts.select_loop_total. exact Hkeys.
  - intros selected H.
    destruct (negb (dict_truthy targets) || match foods with [] => true | _ => false end).
    + injection H as <-. split; [simpl; lia|].
      apply SelectorFacts.accepted_ok_nil.
    + destruct (SelectorFacts.select_loop_spec _ _ _ _ _ H
                  (SelectorFacts.accepted_ok_nil limits)) as [Hok Hlen].
      * simpl. lia.
      * split; [exact Hlen | exact Hok].
Qed.

(** Three foods, a calorie bound of (100, 600) and a cap of two: the stew
    (400) is taken, the oats (700 in total) are rejected, the soup (600 in
    total) is taken. *)
Lemma knapsack_cap_and_maxima_witness :
  (exists selected,
      MealOptimizer.knapsack_optimize stable_sort_desc [oats; soup; stew]
        [("calories", 400%Q)] [("calories", (Some 100%Q, Some 600%Q))] [] 2%Z
      = Ok selected) /\
  (Z.of_nat (length [stew; soup]) <= Z.max 0 2)%Z /\
  (In "calories" MealOptimizer.nutrients /\
   ((exists m, Some 100%Q = Some m /\
               (SelectorSpec.running_total ([stew] ++ [soup]) "calories" < m)%Q) \/
    (SelectorSpec.running_total ([stew] ++ [soup]) "calories" <= 600)%Q)).
Proof.
  destruct (knapsack_cap_and_maxima stable_sort_desc [oats; soup; stew]
              [("calories", 400%Q)] [("calories", (Some 100%Q, Some 600%Q))] []
              2%Z) as [Htotal Hspec].
  split.
  - apply Htotal. intros nutrient bound [Heq | []].
    injection Heq as <- _. simpl. left. reflexivity.
  - destruct (Hspec [stew; soup] ltac:(vm_compute; reflexivity)) as [Hlen Hmax].
    split; [exact Hlen|].
    exact (Hmax [stew] soup [] eq_refl "calories" (Some 100%Q) 600%Q
             (or_introl eq_refl)).
Defined.

(** C1 (as stated) fails: with the calorie bound (1000, 100) the stew is
    accepted although it brings the calorie total to 400, over the
    maximum 100; the total is below the minimum 1000, which ends the check
    of that nutrient. *)
Lemma never_over_maximum_fails :
  MealOptimizer.knapsack_optimize stable_sort_desc [stew] [("calories", 400%Q)]
    [("calories", (Some 1000%Q, Some 100%Q))] [] 10%Z
  = Ok [stew] /\
  (100 < SelectorSpec.running_total [stew] "calories")%Q /\
  ~ SelectorSpec.never_over_maximum.
Proof.
  split; [vm_compute; reflexivity|]. split; [reflexivity|].
  intros H.
  destruct (H stable_sort_desc [stew] [("calories", 400%Q)]
              [("calories", (Some 1000%Q, Some 100%Q))] [] 10%Z [stew]
              ltac:(vm_compute; reflexivity)) as [_ Hmax].
  specialize (Hmax [] stew [] eq_refl "calories" (Some 1000%Q) 100%Q
                (or_introl eq_refl)).
  vm_compute in Hmax. apply Hmax. reflexivity.
Qed.

(** ** The scorer *)

Module ScorerFacts.
Import MealOptimizer.

Lemma max_with_one_Qmax (target_val : Q) : max_with_one target_val = Qmax target_val 1.
Proof.
  unfold max_with_one, Qmax, GenericMinMax.gmax.
  destruct (Qgtb 1 target_val) eqn:E.
  - apply Qgtb_true in E.
    pose proof (proj1 (Qlt_alt target_val 1) E) as C.
    rewrite C. reflexivity.
  - apply Qgtb_false in E.
    destruct (Qcompare target_val 1) eqn:C; try reflexivity.
    pose proof (proj2 (Qlt_alt target_val 1) C) as Hlt.
    exfalso. exact (Qlt_not_le _ _ Hlt E).
Qed.

Lemma score_step_contribution (food : FoodItem) (targets weights : dict Q)
    (score : Q) (nutrient : string) :
  (score_step food targets weights score nutrient
   == score + ScorerSpec.contribution food targets weights nutrient)%Q.
Proof.
  unfold score_step, ScorerSpec.contribution, dict_get_default.
  destruct (dict_get targets nutrient) as [goal|]; [|ring].
  destruct (Qgtb goal 0) eqn:Egoal; destruct (Qlt_le_dec 0 goal) as [Hpos|Hnp].
  - rewrite max_with_one_Qmax. cbv zeta.
    set (ratio := (get_nutrient_value food nutrient / Qmax goal 1)%Q).
    destruct (Qgtb ratio (3 # 2)) eqn:Eratio;
      destruct (Qlt_le_dec (3 # 2) ratio) as [Hhigh|Hlow]; try reflexivity.
    + apply Qgtb_true in Eratio. exfalso. exact (Qlt_not_le _ _ Eratio Hlow).
    + apply Qgtb_false in Eratio. exfalso. exact (Qlt_not_le _ _ Hhigh Eratio).
  - apply Qgtb_true in Egoal. exfalso. exact (Qlt_not_le _ _ Egoal Hnp).
  - apply Qgtb_false in Egoal. exfalso. exact (Qlt_not_le _ _ Hpos Egoal).
  - ring.
Qed.

Lemma contribution_inactive (food : FoodItem) (targets weights : dict Q)
    (nutrient : string) :
  ~ ScorerSpec.active targets nutrient ->
  ScorerSpec.contribution food targets weights nutrient = 0%Q.
Proof.
  intros Hno. unfold ScorerSpec.contribution.
  destruct (dict_get targets nutrient) as [goal|] eqn:E; [|reflexivity].
  destruct (Qlt_le_dec 0 goal) as [Hpos|_]; [|reflexivity].
  exfalso. apply Hno. exists goal. split; [exact E | exact Hpos].
Qed.

End ScorerFacts.

(** C4. The score of a food is the sum, over the four tracked nutrients that
    are present in the target with a strictly positive goal, of
    [-weight * (ratio - 1)] when [ratio > 1.5] and
    [weight * (1 - |1 - ratio|)] otherwise, with
    [ratio = nutrient_value / max(target_value, 1)] and a weight of 1 when
    unspecified, divided by 4 however many nutrients were scored; a food
    with no active target scores 0. *)
Theorem score_food_matches_formula :
  forall (food : FoodItem) (targets weights : dict Q),
    (MealOptimizer.score_food food targets weights
     == ScorerSpec.score food targets weights)%Q /\
    ((forall nutrient, In nutrient MealOptimizer.nutrients ->
                       ~ ScorerSpec.active targets nutrient) ->
     (MealOptimizer.score_food food targets weights == 0)%Q).
Proof.
  intros food targets weights.
  assert (Heq : (MealOptimizer.score_food food targets weights
                 == ScorerSpec.score food targets weights)%Q).
  { unfold MealOptimizer.score_food, ScorerSpec.score, MealOptimizer.nutrients.
    cbn [fold_left length].
    change (inject_Z (Z.of_nat 4)) with 4%Q.
    apply Qmult_comp; [|reflexivity].
    rewrite !ScorerFacts.score_step_contribution. ring. }
  split; [exact Heq|].
  intros Hnone. rewrite Heq. unfold ScorerSpec.score.
  rewrite !ScorerFacts.contribution_inactive
    by (apply Hnone; unfold MealOptimizer.nutrients; simpl; tauto).
  reflexivity.
Qed.

(** A target on a nutrient that is not tracked leaves every food at 0. *)
Lemma score_food_matches_formula_witness :
  (MealOptimizer.score_food oats [("fibre", 30%Q)] [] == 0)%Q.
Proof.
  apply (proj2 (score_food_matches_formula oats [("fibre", 30%Q)] [])).
  intros nutrient Hin (goal & Hget & _).
  simpl in Hin.
  destruct Hin as [<- | [<- | [<- | [<- | []]]]]; vm_compute in Hget; discriminate.
Defined.

(** ** Catalog ingestion *)

Module IngestionFacts.

Section WithFloat.

Variable py_float : string -> option Q.

Lemma parse_row_ok (row : csv_row) (r : FoodItem) :
  parse_row py_float row = Ok r ->
  exists c p f cb,
    float_field py_float row "calories" = Ok c /\
    float_field py_float row "protein" = Ok p /\
    float_field py_float row "fat" = Ok f /\
    float_field py_float row "carbs" = Ok cb /\
    calories r = int_of_float c /\ protein r = p /\ fat r = f /\ carbs r = cb.
Proof.
  unfold parse_row. intros H.
  apply bind_ok in H as (_ & _ & H).
  apply bind_ok in H as (nm & _ & H).
  apply bind_ok in H as (c & Hc & H).
  apply bind_ok in H as (p & Hp & H).
  apply bind_ok in H as (f & Hf & H).
  apply bind_ok in H as (cb & Hcb & H).
  apply bind_ok in H as (mt & _ & H).
  apply bind_ok in H as (tg & _ & H).
  injection H as <-. exists c, p, f, cb. simpl. repeat split; assumption.
Qed.

Lemma load_rows_origin (rows : list csv_row) :
  forall foods result,
    load_rows py_float rows foods = Ok result ->
    forall r, In r result ->
      In r foods \/ exists row, In row rows /\ parse_row py_float row = Ok r.
Proof.
  induction rows as [|row rest IH]; simpl; intros foods result H r Hr.
  - injection H as <-. left. exact Hr.
  - destruct (parse_row py_float row) as [food|e] eqn:Erow.
    + destruct (IH _ _ H r Hr) as [Hin | (row' & Hin & Hrow)].
      * apply in_app_or in Hin as [Hin | [<- | []]].
        -- left. exact Hin.
        -- right. exists row. split; [left; reflexivity | exact Erow].
      * right. exists row'. split; [right; exact Hin | exact Hrow].
    + assert (Hskip : load_rows py_float rest foods = Ok result ->
                      In r foods \/
                      exists row', (row = row' \/ In row' rest) /\
                                   parse_row py_float row' = Ok r).
      { intros H'. destruct (IH _ _ H' r Hr) as [Hin | (row' & Hin & Hrow)].
        - left. exact Hin.
        - right. exists row'. split; [right; exact Hin | exact Hrow]. }
      destruct e; try discriminate; exact (Hskip H).
Qed.

End WithFloat.

Lemma int_of_float_nonneg (x : Q) : (0 <= x)%Q -> (0 <= int_of_float x)%Z.
Proof.
  unfold Qle, int_of_float. simpl. intros H.
  apply Z.quot_pos; lia.
Qed.

End IngestionFacts.

(** C3 (as amended). Every record of the catalog returned by [load_foods]
    carries, unchanged, the numbers parsed from one of the rows: its calories
    are [int(float(.))] of the row's calories text (truncation toward zero)
    and its protein, fat and carbs are [float(.)] of the row's texts. It has
    calories >= 0 and protein, fat, carbs >= 0 whenever the parsed numbers of
    its row are non-negative; [load_foods] has no check of the sign. *)
Theorem load_foods_keeps_parsed_numbers :
  forall (py_float : string -> option Q) (csv_file : option (list csv_row))
         (r : FoodItem),
    In r (load_foods py_float csv_file) ->
    exists rows row c p f cb,
      csv_file = Some rows /\ In row rows /\
      float_field py_float row "calories" = Ok c /\
      float_field py_float row "protein" = Ok p /\
      float_field py_float row "fat" = Ok f /\
      float_field py_float row "carbs" = Ok cb /\
      calories r = int_of_float c /\ protein r = p /\ fat r = f /\ carbs r = cb /\
      ((0 <= c)%Q -> (0 <= p)%Q -> (0 <= f)%Q -> (0 <= cb)%Q ->
       IngestionSpec.non_negative r).
Proof.
  intros py_float csv_file r Hr. unfold load_foods in Hr.
  destruct csv_file as [rows|]; [|destruct Hr].
  destruct (load_rows py_float rows []) as [foods|e] eqn:Eload; [|destruct Hr].
  destruct (IngestionFacts.load_rows_origin py_float rows _ _ Eload r Hr)
    as [[] | (row & Hin & Hrow)].
  apply IngestionFacts.parse_row_ok in Hrow
    as (c & p & f & cb & Hc & Hp & Hf & Hcb & Ec & Ep & Ef & Ecb).
  exists rows, row, c, p, f, cb.
  split; [reflexivity|].
  repeat (split; [assumption|]).
  intros H0c H0p H0f H0cb. unfold IngestionSpec.non_negative.
  rewrite Ec, Ep, Ef, Ecb.
  repeat split; try assumption. apply IngestionFacts.int_of_float_nonneg. exact H0c.
Qed.

(** The porridge row (310, 11.5, 6, 52) yields a record with non-negative
    numbers. *)
Lemma load_foods_keeps_parsed_numbers_witness :
  Forall IngestionSpec.non_negative
    (load_foods float_of_decimal (Some [porridge_row])).
Proof.
  apply List.Forall_forall. intros r Hr.
  destruct (load_foods_keeps_parsed_numbers float_of_decimal
              (Some [porridge_row]) r Hr)
    as (rows & row & c & p & f & cb & Hfile & Hin & Hc & Hp & Hf & Hcb & _ & _ & _ & _ & Hnn).
  injection Hfile as <-. destruct Hin as [<- | []].
  vm_compute in Hc, Hp, Hf, Hcb.
  injection Hc as <-. injection Hp as <-. injection Hf as <-. injection Hcb as <-.
  apply Hnn; vm_compute; discriminate.
Defined.

(** C3 (as stated) fails: the tonic row, with calories -100 and protein
    -1.5, is turned into a record with calories -100 and protein -1.5. *)
Lemma records_non_negative_fails :
  map calories (load_foods float_of_decimal (Some [tonic_row])) = [(-100)%Z] /\
  Forall (fun r => (protein r < 0)%Q)
    (load_foods float_of_decimal (Some [tonic_row])) /\
  ~ IngestionSpec.records_non_negative float_of_decimal.
Proof.
  split; [vm_compute; reflexivity|]. split.
  - vm_compute. constructor; [reflexivity | constructor].
  - intros H.
    pose proof (H (Some [tonic_row])) as H1.
    vm_compute in H1.
    destruct (H1 _ (or_introl eq_refl)) as [Hcal _].
    apply Hcal. reflexivity.
Qed.

(** ** Orchestration *)

Module OrchestrationFacts.
Import MealPlanBuilder MealOptimizer.

Lemma add_to_slot_ok (self self' : t) (slot : string) (item : FoodItem) :
  add_to_slot self slot item = Ok self' ->
  slot ∈ meal_times item /\
  forall s, In s slot_order ->
    _get_slot_items self' s
    = if String.eqb slot s then _get_slot_items self s ++ [item]
      else _get_slot_items self s.
Proof.
  unfold add_to_slot.
  destruct (set_mem slot (meal_times item)) eqn:Emem; simpl; [|discriminate].
  apply set_mem_true in Emem. intros H. split; [exact Emem|].
  intros s Hs. simpl in Hs.
  destruct (String.eqb_spec slot "breakfast") as [->|Hb].
  { injection H as <-.
    destruct Hs as [<- | [<- | [<- | [<- | []]]]]; reflexivity. }
  destruct (String.eqb_spec slot "lunch") as [->|Hl].
  { injection H as <-.
    destruct Hs as [<- | [<- | [<- | [<- | []]]]]; reflexivity. }
  destruct (String.eqb_spec slot "dinner") as [->|Hd].
  { injection H as <-.
    destruct Hs as [<- | [<- | [<- | [<- | []]]]]; reflexivity. }
  destruct (String.eqb_spec slot "snack") as [->|Hs'].
  { injection H as <-.
    destruct Hs as [<- | [<- | [<- | [<- | []]]]]; reflexivity. }
  injection H as <-.
  destruct Hs as [<- | [<- | [<- | [<- | []]]]];
    match goal with
    | |- context [String.eqb slot ?k] =>
        destruct (String.eqb_spec slot k); [contradiction | reflexivity]
    end.
Qed.

Lemma add_to_slot_raise (self : t) (slot : string) (item : FoodItem) (e : exn) :
  add_to_slot self slot item = Raise e -> e = ValueError.
Proof.
  unfold add_to_slot.
  repeat match goal with
         | |- (if ?b then _ else _) = _ -> _ => destruct b
         end; intros H; congruence.
Qed.

Lemma add_all_ok (slot : string) (foods : list FoodItem) :
  forall self self',
    add_all (fun b food => add_to_slot b slot food) self foods = Ok self' ->
    Forall (fun food => slot ∈ meal_times food) foods /\
    forall s, In s slot_order ->
      _get_slot_items self' s
      = if String.eqb slot s then _get_slot_items self s ++ foods
        else _get_slot_items self s.
Proof.
  induction foods as [|food rest IH]; simpl; intros self self' H.
  - injection H as <-. split; [constructor|].
    intros s _. destruct (String.eqb slot s); [rewrite app_nil_r|]; reflexivity.
  - apply bind_ok in H as (self1 & Hadd & H).
    apply add_to_slot_ok in Hadd as [Helig Hstep].
    destruct (IH _ _ H) as [Hall Hrest].
    split; [constructor; assumption|].
    intros s Hs. rewrite (Hrest s Hs), (Hstep s Hs).
    destruct (String.eqb slot s); [rewrite <- app_assoc|]; reflexivity.
Qed.

Lemma add_all_raise (slot : string) (foods : list FoodItem) :
  forall self e,
    add_all (fun b food => add_to_slot b slot food) self foods = Raise e ->
    e = ValueError.
Proof.
  induction foods as [|food rest IH]; simpl; intros self e H; [discriminate|].
  destruct (add_to_slot self slot food) as [self1|e1] eqn:Eadd; simpl in H.
  - exact (IH _ _ H).
  - apply add_to_slot_raise in Eadd. congruence.
Qed.

Lemma set_slot_limits_fold_items (caps : dict (Z * Z)) :
  forall self s,
    _get_slot_items
      (fold_left (fun b cap => set_slot_limits b (fst cap) (fst (snd cap)) (snd (snd cap)))
         caps self) s
    = _get_slot_items self s.
Proof.
  induction caps as [|cap rest IH]; simpl; intros self s; [reflexivity|].
  rewrite IH. reflexivity.
Qed.

(** The builder filled from a distribution holds, slot by slot, the lists of
    the distribution, and every food in them is eligible for its slot. *)
Lemma populate_ok (distribution : dict (list FoodItem)) (slot_caps : dict (Z * Z))
    (builder : t) :
  populate distribution slot_caps = Ok builder ->
  forall s, In s slot_order ->
    _get_slot_items builder s = dict_get_default distribution s [] /\
    Forall (fun food => s ∈ meal_times food) (dict_get_default distribution s []).
Proof.
  unfold populate. intros H.
  apply bind_ok in H as (b1 & H1 & H).
  apply bind_ok in H as (b2 & H2 & H).
  apply bind_ok in H as (b3 & H3 & H).
  apply (add_all_ok "breakfast") in H1 as [F1 G1].
  apply (add_all_ok "lunch") in H2 as [F2 G2].
  apply (add_all_ok "dinner") in H3 as [F3 G3].
  apply (add_all_ok "snack") in H as [F4 G4].
  intros s Hs.
  rewrite (G4 s Hs), (G3 s Hs), (G2 s Hs), (G1 s Hs), set_slot_limits_fold_items.
  simpl in Hs.
  destruct Hs as [<- | [<- | [<- | [<- | []]]]]; (split; [reflexivity | assumption]).
Qed.

Lemma populate_raise (distribution : dict (list FoodItem)) (slot_caps : dict (Z * Z))
    (e : exn) :
  populate distribution slot_caps = Raise e -> e = ValueError.
Proof.
  unfold populate. intros H.
  repeat match type of H with
         | bind ?m _ = Raise _ =>
             let E := fresh "E" in
             destruct m eqn:E; cbn [bind] in H;
             [|injection H as <-; eapply add_all_raise; exact E]
         end.
  eapply add_all_raise. exact H.
Qed.

Section SortIndependence.

Variables sort1 sort2 : list (Q * FoodItem) -> list (Q * FoodItem).
Hypothesis sort_agree : forall l, sort1 l = sort2 l.

Lemma knapsack_optimize_ext foods targets limits weights max_items :
  knapsack_optimize sort1 foods targets limits weights max_items
  = knapsack_optimize sort2 foods targets limits weights max_items.
Proof. unfold knapsack_optimize. rewrite sort_agree. reflexivity. Qed.

Lemma select_with_targets_ext slot_foods daily_targets limits weights slot_caps shares :
  forall all_selected,
    select_with_targets sort1 slot_foods daily_targets limits weights slot_caps
      shares all_selected
    = select_with_targets sort2 slot_foods daily_targets limits weights slot_caps
        shares all_selected.
Proof.
  induction shares as [|[slot percentage] rest IH]; intros all_selected; simpl;
    [reflexivity|].
  destruct (dict_index slot_foods slot) as [[|food items]|e]; simpl;
    [apply IH | | reflexivity].
  destruct (dict_index slot_caps slot) as [cap|e]; simpl; [|reflexivity].
  rewrite knapsack_optimize_ext.
  destruct (knapsack_optimize sort2 (food :: items)
              (slot_targets_of daily_targets percentage) limits weights (snd cap));
    simpl; [apply IH | reflexivity].
Qed.

Lemma find_optimal_plan_ext foods targets limits weights slot_caps :
  find_optimal_plan sort1 foods targets limits weights slot_caps
  = find_optimal_plan sort2 foods targets limits weights slot_caps.
Proof.
  unfold find_optimal_plan, find_optimal_plan_try, select_all.
  rewrite select_with_targets_ext. reflexivity.
Qed.

End SortIndependence.

End OrchestrationFacts.

(** C6. [find_optimal_plan] never lets an exception reach its caller: it
    always returns, either the plan its body produced or [None], and every
    failure of the pipeline, in the selection, while the builder is filled,
    or in the validation of [build], gives [None]. *)
Theorem find_optimal_plan_never_raises :
  forall (sort : list (Q * FoodItem) -> list (Q * FoodItem))
         (foods : list FoodItem) (targets : dict (option Q))
         (limits : dict (option Q * option Q)) (weights : dict Q)
         (slot_caps : dict (Z * Z)),
    (forall e,
        find_optimal_plan_try sort foods targets limits weights slot_caps = Raise e ->
        find_optimal_plan sort foods targets limits weights slot_caps = None) /\
    (forall plan,
        find_optimal_plan_try sort foods targets limits weights slot_caps = Ok plan ->
        find_optimal_plan sort foods targets limits weights slot_caps = Some plan) /\
    (forall e,
        select_all sort foods targets limits weights slot_caps = Raise e ->
        find_optimal_plan sort foods targets limits weights slot_caps = None) /\
    (forall all_selected distribution e,
        select_all sort foods targets limits weights slot_caps = Ok all_selected ->
        MealOptimizer.distribute_to_slots all_selected slot_caps = Ok distribution ->
        populate distribution slot_caps = Raise e ->
        find_optimal_plan sort foods targets limits weights slot_caps = None) /\
    (forall all_selected distribution builder e,
        select_all sort foods targets limits weights slot_caps = Ok all_selected ->
        MealOptimizer.distribute_to_slots all_selected slot_caps = Ok distribution ->
        populate distribution slot_caps = Ok builder ->
        MealPlanBuilder.build builder (Some targets) (Some limits) = Raise e ->
        find_optimal_plan sort foods targets limits weights slot_caps = None).
Proof.
  intros sort foods targets limits weights slot_caps.
  unfold find_optimal_plan, find_optimal_plan_try.
  repeat split.
  - intros e H. rewrite H. reflexivity.
  - intros plan H. rewrite H. reflexivity.
  - intros e H. rewrite H. reflexivity.
  - intros all_selected distribution e H1 H2 H3.
    rewrite H1. cbn [bind]. rewrite H2. cbn [bind]. rewrite H3. reflexivity.
  - intros all_selected distribution builder e H1 H2 H3 H4.
    rewrite H1. cbn [bind]. rewrite H2. cbn [bind]. rewrite H3. cbn [bind].
    rewrite H4. reflexivity.
Qed.

(** One input for each way through the handler. Oats, soup and stew give a
    plan. Capacities naming breakfast only end the selection with a
    [KeyError]. With one place per slot, the ham takes the lunch place, the
    soup falls back to breakfast and the builder raises when it is filled.
    With the oats alone, lunch stays empty and [build] raises. *)
Lemma find_optimal_plan_never_raises_witness :
  find_optimal_plan stable_sort_desc [oats; soup; stew] [] [] [] default_slot_caps
  = Some (mkMealPlan [oats] [soup] [stew] []) /\
  find_optimal_plan stable_sort_desc [oats] [] [] [] [("breakfast", (1, 2)%Z)]
  = None /\
  find_optimal_plan stable_sort_desc [soup; ham] [] [] [] single_caps = None /\
  find_optimal_plan stable_sort_desc [oats] [] [] [] default_slot_caps = None /\
  find_optimal_plan stable_sort_desc [oats]
    [("calories", Some 300%Q)] [("fibre", (None, Some 30%Q))] [] default_slot_caps
  = None.
Proof.
  split; [|split; [|split; [|split]]].
  - apply (proj1 (proj2
             (find_optimal_plan_never_raises stable_sort_desc [oats; soup; stew]
                [] [] [] default_slot_caps))).
    vm_compute. reflexivity.
  - eapply (proj1 (proj2 (proj2
              (find_optimal_plan_never_raises stable_sort_desc [oats] [] [] []
                 [("breakfast", (1, 2)%Z)])))).
    vm_compute. reflexivity.
  - eapply (proj1 (proj2 (proj2 (proj2
              (find_optimal_plan_never_raises stable_sort_desc [soup; ham] [] [] []
                 single_caps))))).
    + vm_compute. reflexivity.
    + vm_compute. reflexivity.
    + vm_compute. reflexivity.
  - eapply (proj2 (proj2 (proj2 (proj2
              (find_optimal_plan_never_raises stable_sort_desc [oats] [] [] []
                 default_slot_caps))))).
    + vm_compute. reflexivity.
    + vm_compute. reflexivity.
    + vm_compute. reflexivity.
    + vm_compute. reflexivity.
  - eapply (proj1 (find_optimal_plan_never_raises stable_sort_desc [oats]
                     [("calories", Some 300%Q)] [("fibre", (None, Some 30%Q))] []
                     default_slot_caps)).
    vm_compute. reflexivity.
Defined.

(** C9. In every plan that [find_optimal_plan] returns, each food of each
    slot list is eligible for that slot. Whenever the allocator has put a
    food into one of the four slots that the food is not eligible for, the
    builder raises while it is filled and [find_optimal_plan] returns
    [None]. *)
Theorem returned_plan_is_eligible :
  forall (sort : list (Q * FoodItem) -> list (Q * FoodItem))
         (foods : list FoodItem) (targets : dict (option Q))
         (limits : dict (option Q * option Q)) (weights : dict Q)
         (slot_caps : dict (Z * Z)),
    (forall plan,
        find_optimal_plan sort foods targets limits weights slot_caps = Some plan ->
        PlanSpec.eligible_plan plan) /\
    (forall all_selected distribution slot food,
        select_all sort foods targets limits weights slot_caps = Ok all_selected ->
        MealOptimizer.distribute_to_slots all_selected slot_caps = Ok distribution ->
        In slot MealOptimizer.slot_order ->
        In food (dict_get_default distribution slot []) ->
        slot ∉ meal_times food ->
        populate distribution slot_caps = Raise ValueError /\
        find_optimal_plan sort foods targets limits weights slot_caps = None).
Proof.
  intros sort foods targets limits weights slot_caps. split.
  - intros plan H. unfold find_optimal_plan in H.
    destruct (find_optimal_plan_try sort foods targets limits weights slot_caps)
      as [plan'|e] eqn:Etry; [|discriminate].
    injection H as <-. unfold find_optimal_plan_try in Etry.
    apply bind_ok in Etry as (all_selected & _ & Etry).
    apply bind_ok in Etry as (distribution & _ & Etry).
    apply bind_ok in Etry as (builder & Hpop & Hbuild).
    destruct (BuilderFacts.build_cases builder (Some targets) (Some limits))
      as [(Hok & _) | (Hraise & _)]; [|congruence].
    rewrite Hok in Hbuild. injection Hbuild as <-.
    pose proof (OrchestrationFacts.populate_ok _ _ _ Hpop) as Hslots.
    unfold PlanSpec.eligible_plan, BuilderSpec.plan_of. cbn [breakfast lunch dinner snacks].
    repeat split.
    + destruct (Hslots "breakfast") as [Heq Hall]; [simpl; tauto|].
      change (MealPlanBuilder._get_slot_items builder "breakfast")
        with (MealPlanBuilder._breakfast builder) in Heq.
      rewrite Heq. exact Hall.
    + destruct (Hslots "lunch") as [Heq Hall]; [simpl; tauto|].
      change (MealPlanBuilder._get_slot_items builder "lunch")
        with (MealPlanBuilder._lunch builder) in Heq.
      rewrite Heq. exact Hall.
    + destruct (Hslots "dinner") as [Heq Hall]; [simpl; tauto|].
      change (MealPlanBuilder._get_slot_items builder "dinner")
        with (MealPlanBuilder._dinner builder) in Heq.
      rewrite Heq. exact Hall.
    + destruct (Hslots "snack") as [Heq Hall]; [simpl; tauto|].
      change (MealPlanBuilder._get_slot_items builder "snack")
        with (MealPlanBuilder._snacks builder) in Heq.
      rewrite Heq. exact Hall.
  - intros all_selected distribution slot food Hsel Hdist Hslot Hfood Hnot.
    assert (Hpop : populate distribution slot_caps = Raise ValueError).
    { destruct (populate distribution slot_caps) as [builder|e] eqn:Epop.
      - exfalso.
        destruct (OrchestrationFacts.populate_ok _ _ _ Epop slot Hslot) as [_ Hall].
        apply Hnot. exact (proj1 (List.Forall_forall _ _) Hall food Hfood).
      - apply OrchestrationFacts.populate_raise in Epop. congruence. }
    split; [exact Hpop|].
    unfold find_optimal_plan, find_optimal_plan_try.
    rewrite Hsel. cbn [bind]. rewrite Hdist. cbn [bind]. rewrite Hpop. reflexivity.
Qed.

(** Oats, soup and stew give the plan breakfast = oats, lunch = soup,
    dinner = stew, each eligible. With one place per slot, the ham (meat)
    selected for breakfast goes to lunch, the soup then falls back to
    breakfast, for which it is not eligible: no plan is returned. *)
Lemma returned_plan_is_eligible_witness :
  PlanSpec.eligible_plan (mkMealPlan [oats] [soup] [stew] []) /\
  find_optimal_plan stable_sort_desc [soup; ham] [] [] [] single_caps = None.
Proof.
  split.
  - apply (proj1 (returned_plan_is_eligible stable_sort_desc [oats; soup; stew]
                    [] [] [] default_slot_caps)).
    vm_compute. reflexivity.
  - eapply (proj2 (returned_plan_is_eligible stable_sort_desc [soup; ham]
                     [] [] [] single_caps) _ _ "breakfast" soup).
    + vm_compute. reflexivity.
    + vm_compute. reflexivity.
    + simpl. left. reflexivity.
    + vm_compute. left. reflexivity.
    + apply set_mem_false. vm_compute. reflexivity.
Defined.

(** ** The sort *)

Module SortFacts.

Lemma has_score_refl (x : Q * FoodItem) : has_score (fst x) x = true.
Proof. apply Qeq_bool_refl. Qed.

Lemma has_score_both (q : Q) (x y : Q * FoodItem) :
  has_score q x = true -> has_score q y = true -> (fst x == fst y)%Q.
Proof.
  unfold has_score. intros Hx Hy.
  apply Qeq_bool_eq in Hx, Hy. rewrite Hx, Hy. reflexivity.
Qed.

Lemma insert_desc_perm (x : Q * FoodItem) (l : list (Q * FoodItem)) :
  Permutation (x :: l) (insert_desc x l).
Proof.
  induction l as [|y l IH]; simpl; [reflexivity|].
  destruct (Qltb (fst x) (fst y)); [|reflexivity].
  rewrite perm_swap. apply perm_skip. exact IH.
Qed.

Lemma insert_desc_sorted (x : Q * FoodItem) (l : list (Q * FoodItem)) :
  StronglySorted score_ge l -> StronglySorted score_ge (insert_desc x l).
Proof.
  induction l as [|y l IH]; simpl; intros Hl.
  - constructor; constructor.
  - apply StronglySorted_inv in Hl as [Hl Hy].
    destruct (Qltb (fst x) (fst y)) eqn:E.
    + apply Qltb_true in E. constructor; [exact (IH Hl)|].
      apply (Permutation_Forall (insert_desc_perm x l)).
      constructor; [apply Qlt_le_weak; exact E | exact Hy].
    + apply Qltb_false in E. constructor; [constructor; assumption|].
      constructor; [exact E|].
      eapply List.Forall_impl; [|exact Hy].
      intros z Hz. unfold score_ge in *. eapply Qle_trans; eassumption.
Qed.

Lemma insert_desc_filter (q : Q) (x : Q * FoodItem) (l : list (Q * FoodItem)) :
  List.filter (has_score q) (insert_desc x l) = List.filter (has_score q) (x :: l).
Proof.
  induction l as [|y l IH]; [reflexivity|].
  cbn [insert_desc]. destruct (Qltb (fst x) (fst y)) eqn:E; [|reflexivity].
  apply Qltb_true in E.
  cbn [List.filter] in *. rewrite IH.
  destruct (has_score q x) eqn:Ex; destruct (has_score q y) eqn:Ey; try reflexivity.
  exfalso. pose proof (has_score_both q x y Ex Ey) as Heq.
  rewrite Heq in E. exact (Qlt_irrefl _ E).
Qed.

(** The insertion sort is a stable descending sort. *)
Lemma stable_sort_desc_contract : stable_desc_sort stable_sort_desc.
Proof.
  split.
  - induction l as [|x l IH]; simpl; [constructor|].
    rewrite <- insert_desc_perm. apply perm_skip. exact IH.
  - induction l as [|x l IH]; simpl; [constructor|].
    apply insert_desc_sorted. exact IH.
  - intros l q. induction l as [|x l IH]; simpl; [reflexivity|].
    rewrite insert_desc_filter. cbn [List.filter]. rewrite IH. reflexivity.
Qed.

Lemma insert_after_perm (x : Q * FoodItem) (l : list (Q * FoodItem)) :
  Permutation (x :: l) (insert_after x l).
Proof.
  induction l as [|y l IH]; simpl; [reflexivity|].
  destruct (Qltb (fst y) (fst x)); [reflexivity|].
  rewrite perm_swap. apply perm_skip. exact IH.
Qed.

Lemma insert_after_sorted (x : Q * FoodItem) (l : list (Q * FoodItem)) :
  StronglySorted score_ge l -> StronglySorted score_ge (insert_after x l).
Proof.
  induction l as [|y l IH]; simpl; intros Hl.
  - constructor; constructor.
  - pose proof Hl as Hyl. apply StronglySorted_inv in Hl as [Hl Hy].
    destruct (Qltb (fst y) (fst x)) eqn:E.
    + apply Qltb_true in E. constructor; [exact Hyl|].
      constructor; [apply Qlt_le_weak; exact E|].
      eapply List.Forall_impl; [|exact Hy].
      intros z Hz. unfold score_ge in *.
      eapply Qle_trans; [exact Hz | apply Qlt_le_weak; exact E].
    + apply Qltb_false in E. constructor; [exact (IH Hl)|].
      apply (Permutation_Forall (insert_after_perm x l)).
      constructor; [exact E | exact Hy].
Qed.

Lemma filter_none (q : Q) (l : list (Q * FoodItem)) :
  Forall (fun z => has_score q z = false) l -> List.filter (has_score q) l = [].
Proof.
  induction 1 as [|z l Hz _ IH]; simpl; [reflexivity|].
  rewrite Hz. exact IH.
Qed.

Lemma insert_after_filter (q : Q) (x : Q * FoodItem) (l : list (Q * FoodItem)) :
  StronglySorted score_ge l ->
  List.filter (has_score q) (insert_after x l)
  = List.filter (has_score q) l ++ List.filter (has_score q) [x].
Proof.
  induction l as [|y l IH]; intros Hl; [reflexivity|].
  cbn [insert_after]. destruct (Qltb (fst y) (fst x)) eqn:E.
  - apply Qltb_true in E.
    destruct (has_score q x) eqn:Ex.
    + assert (Hnone : Forall (fun z => has_score q z = false) (y :: l)).
      { apply StronglySorted_inv in Hl as [_ Hy].
        assert (Hy' : Forall (score_ge y) (y :: l))
          by (constructor; [apply Qle_refl | exact Hy]).
        eapply List.Forall_impl; [|exact Hy'].
        intros z Hz. unfold score_ge in Hz.
        destruct (has_score q z) eqn:Ez; [|reflexivity].
        exfalso. pose proof (has_score_both q x z Ex Ez) as Heq.
        rewrite Heq in E. exact (Qlt_not_le _ _ E Hz). }
      change (List.filter (has_score q) (x :: y :: l))
        with (if has_score q x then x :: List.filter (has_score q) (y :: l)
              else List.filter (has_score q) (y :: l)).
      cbn [List.filter]. rewrite Ex.
      change (if has_score q y then y :: List.filter (has_score q) l
              else List.filter (has_score q) l)
        with (List.filter (has_score q) (y :: l)).
      rewrite (filter_none q (y :: l) Hnone). reflexivity.
    + change (List.filter (has_score q) (x :: y :: l))
        with (if has_score q x then x :: List.filter (has_score q) (y :: l)
              else List.filter (has_score q) (y :: l)).
      cbn [List.filter]. rewrite Ex. rewrite app_nil_r. reflexivity.
  - apply StronglySorted_inv in Hl as [Hl _].
    cbn [List.filter]. rewrite (IH Hl).
    destruct (has_score q y); reflexivity.
Qed.

Lemma sort_left_invariant (l : list (Q * FoodItem)) :
  forall placed,
    StronglySorted score_ge placed ->
    let result := fold_left (fun placed x => insert_after x placed) l placed in
    Permutation (placed ++ l) result /\
    StronglySorted score_ge result /\
    forall q, List.filter (has_score q) result
              = List.filter (has_score q) placed ++ List.filter (has_score q) l.
Proof.
  induction l as [|x l IH]; intros placed Hplaced; cbn [fold_left].
  - cbv zeta. rewrite app_nil_r. repeat split; [reflexivity | exact Hplaced |].
    intros q. cbn [List.filter]. rewrite app_nil_r. reflexivity.
  - destruct (IH (insert_after x placed) (insert_after_sorted x placed Hplaced))
      as (Hperm & Hsorted & Hfilter).
    cbv zeta. repeat split.
    + rewrite <- Hperm, <- insert_after_perm. symmetry.
      change ((x :: placed) ++ l) with (x :: placed ++ l).
      apply Permutation_middle.
    + exact Hsorted.
    + intros q. rewrite Hfilter, (insert_after_filter q x placed Hplaced).
      rewrite <- app_assoc. cbn [List.filter].
      destruct (has_score q x); reflexivity.
Qed.

(** The left-to-right insertion sort is a stable descending sort as well. *)
Lemma stable_sort_desc_left_contract : stable_desc_sort stable_sort_desc_left.
Proof.
  split; intros l; unfold stable_sort_desc_left;
    destruct (sort_left_invariant l [] (SSorted_nil _)) as (Hperm & Hsorted & Hfilter).
  - exact Hperm.
  - exact Hsorted.
  - intros q. exact (Hfilter q).
Qed.

(** Two descending lists with the same items of every score, in the same
    order, are the same list. *)
Lemma stable_sorted_unique (s1 : list (Q * FoodItem)) :
  forall s2,
    StronglySorted score_ge s1 -> StronglySorted score_ge s2 ->
    (forall q, List.filter (has_score q) s1 = List.filter (has_score q) s2) ->
    s1 = s2.
Proof.
  induction s1 as [|x s1 IH]; intros [|y s2] H1 H2 Hfilter.
  - reflexivity.
  - specialize (Hfilter (fst y)). cbn [List.filter] in Hfilter.
    rewrite has_score_refl in Hfilter. discriminate.
  - specialize (Hfilter (fst x)). cbn [List.filter] in Hfilter.
    rewrite has_score_refl in Hfilter. discriminate.
  - apply StronglySorted_inv in H1 as [H1 Hx].
    apply StronglySorted_inv in H2 as [H2 Hy].
    assert (Hhead : x = y).
    { pose proof (Hfilter (fst x)) as Fx. cbn [List.filter] in Fx.
      rewrite has_score_refl in Fx.
      destruct (has_score (fst x) y) eqn:Exy; [congruence|].
      exfalso.
      assert (Hxin : In x s2).
      { eapply proj1. apply filter_In. rewrite <- Fx. left. reflexivity. }
      pose proof (Hfilter (fst y)) as Fy. cbn [List.filter] in Fy.
      rewrite has_score_refl in Fy.
      assert (Eyx : has_score (fst y) x = false).
      { unfold has_score in *. rewrite Qeq_bool_comm. exact Exy. }
      rewrite Eyx in Fy.
      assert (Hyin : In y s1).
      { eapply proj1. apply filter_In. rewrite Fy. left. reflexivity. }
      pose proof (proj1 (List.Forall_forall _ _) Hy x Hxin) as Hle1.
      pose proof (proj1 (List.Forall_forall _ _) Hx y Hyin) as Hle2.
      unfold score_ge in Hle1, Hle2.
      apply Qeq_bool_neq in Exy. apply Exy.
      apply Qle_antisym; assumption. }
    subst y. f_equal. apply IH; [exact H1 | exact H2 |].
    intros q. specialize (Hfilter q). cbn [List.filter] in Hfilter.
    destruct (has_score q x); congruence.
Qed.

Lemma stable_desc_sort_unique
    (sort1 sort2 : list (Q * FoodItem) -> list (Q * FoodItem)) :
  stable_desc_sort sort1 -> stable_desc_sort sort2 ->
  forall l, sort1 l = sort2 l.
Proof.
  intros C1 C2 l. apply stable_sorted_unique.
  - apply (sort_desc _ C1).
  - apply (sort_desc _ C2).
  - intros q. rewrite (sort_stable _ C1), (sort_stable _ C2). reflexivity.
Qed.

Lemma filter_score_items (q : Q) (foods : list FoodItem) (targets weights : dict Q) :
  map snd (List.filter (has_score q) (MealOptimizer.score_items foods targets weights))
  = List.filter (fun food => Qeq_bool (MealOptimizer.score_food food targets weights) q)
      foods.
Proof.
  unfold MealOptimizer.score_items.
  induction foods as [|food rest IH]; simpl; [reflexivity|].
  unfold has_score at 1. simpl.
  destruct (Qeq_bool (MealOptimizer.score_food food targets weights) q); simpl;
    rewrite IH; reflexivity.
Qed.

End SortFacts.

(** C8. [find_optimal_plan] is deterministic. Its result is a function of
    the catalog (records in order), the targets, the limits, the weights and
    the slot capacities, and it does not depend on how the sort is carried
    out: any two stable descending sorts give the same plan, or [None] in
    both runs. Ties in score are resolved by the stable sort: the foods of
    any one score stand in the sorted list in their catalog order. *)
Theorem find_optimal_plan_deterministic :
  forall (sort1 sort2 : list (Q * FoodItem) -> list (Q * FoodItem)),
    stable_desc_sort sort1 -> stable_desc_sort sort2 ->
    forall (foods : list FoodItem) (targets : dict (option Q))
           (limits : dict (option Q * option Q)) (weights : dict Q)
           (slot_caps : dict (Z * Z)),
      find_optimal_plan sort1 foods targets limits weights slot_caps
      = find_optimal_plan sort2 foods targets limits weights slot_caps /\
      forall (slot_targets : dict Q) (q : Q),
        map snd (List.filter (has_score q)
                   (sort1 (MealOptimizer.score_items foods slot_targets weights)))
        = List.filter
            (fun food =>
               Qeq_bool (MealOptimizer.score_food food slot_targets weights) q)
            foods.
Proof.
  intros sort1 sort2 C1 C2 foods targets limits weights slot_caps. split.
  - apply OrchestrationFacts.find_optimal_plan_ext.
    apply SortFacts.stable_desc_sort_unique; assumption.
  - intros slot_targets q. rewrite (sort_stable _ C1).
    apply SortFacts.filter_score_items.
Qed.

(** Two different sorts, one plan. Oats and muesli tie (300 kcal each
    against a goal of 400) behind the stew: in the sorted list they stand in
    catalog order, oats first. *)
Lemma find_optimal_plan_deterministic_witness :
  find_optimal_plan stable_sort_desc [oats; stew; muesli; soup]
    [("calories", Some 400%Q)] [] [] default_slot_caps
  = find_optimal_plan stable_sort_desc_left [oats; stew; muesli; soup]
      [("calories", Some 400%Q)] [] [] default_slot_caps /\
  map snd (List.filter (has_score (3 # 16))
             (stable_sort_desc
                (MealOptimizer.score_items [oats; stew; muesli; soup]
                   [("calories", 400%Q)] [])))
  = [oats; muesli].
Proof.
  destruct (find_optimal_plan_deterministic stable_sort_desc stable_sort_desc_left
              SortFacts.stable_sort_desc_contract
              SortFacts.stable_sort_desc_left_contract
              [oats; stew; muesli; soup] [("calories", Some 400%Q)] [] []
              default_slot_caps) as [Hsame Hties].
  split; [exact Hsame|].
  rewrite (Hties [("calories", 400%Q)] (3 # 16)%Q).
  vm_compute. reflexivity.
Defined.

(** ** Scenarios *)

(** Totals are the sums over the four slot lists: breakfast = FoodA and
    lunch = FoodB give 500 kcal, 35 g protein, 15 g fat and 55 g carbs. *)
Example totals_of_two_foods :
  totals (mkMealPlan [food_a] [food_b] [] [])
  = [("calories", 500%Q); ("protein", 35%Q); ("fat", 15%Q); ("carbs", 55%Q)].
Proof. vm_compute. reflexivity. Qed.

(** A builder with the default capacities and one breakfast item: lunch
    holds 0 items and needs 1, so [build] raises. *)
Example build_with_breakfast_only :
  (let* builder := MealPlanBuilder.add_breakfast MealPlanBuilder.init test_food in
   MealPlanBuilder.build builder None None)
  = Raise ValueError.
Proof. vm_compute. reflexivity. Qed.

(** A calorie target of 2000 within (1800, 2200) and a catalog without any
    dinner food: no plan. *)
Example no_dinner_food_no_plan :
  find_optimal_plan stable_sort_desc [oats; soup; muesli]
    [("calories", Some 2000%Q)] [("calories", (Some 1800%Q, Some 2200%Q))] []
    default_slot_caps
  = None.
Proof. vm_compute. reflexivity. Qed.

(** Capacities that leave out a slot end in a [KeyError], hence no plan. *)
Example missing_slot_no_plan :
  select_all stable_sort_desc [oats] [] [] [] [("breakfast", (1, 2)%Z)]
  = Raise KeyError /\
  find_optimal_plan stable_sort_desc [oats] [] [] [] [("breakfast", (1, 2)%Z)]
  = None.
Proof. split; vm_compute; reflexivity. Qed.

(** A bound on a nutrient that is not tracked stops the selector with a
    [KeyError] at the first candidate. *)
Example untracked_bound_raises :
  MealOptimizer.knapsack_optimize stable_sort_desc [oats]
    [("calories", 400%Q)] [("fibre", (None, Some 30%Q))] [] 10%Z
  = Raise KeyError.
Proof. vm_compute. reflexivity. Qed.

(** A row with a column left out by a short line ends the whole load with an
    empty catalog; a row whose number does not parse is skipped alone. *)
Example short_row_empties_catalog :
  load_foods float_of_decimal
    (Some [porridge_row;
           [("name", Some "Cut"); ("calories", Some "10"); ("protein", None);
            ("fat", None); ("carbs", None)]])
  = [] /\
  map name
    (load_foods float_of_decimal
       (Some [[("name", Some "Bad"); ("calories", Some "ten"); ("protein", Some "1");
               ("fat", Some "1"); ("carbs", Some "1")];
              porridge_row]))
  = ["Porridge"].
Proof. split; vm_compute; reflexivity. Qed.

(** * Properties of the remaining code *)

(** ** Plan totals *)

Module TotalsFacts.
Import TotalsSpec.









End TotalsFacts.



(** ** Functional filters *)

Module FilterFacts.

Lemma filter_sublist {A : Type} (f : A -> bool) (l : list A) :
  sublist (List.filter f l) l.
Proof.
  induction l as [|x l IH]; simpl; [constructor|].
  destruct (f x); [apply sublist_skip | apply sublist_cons]; exact IH.
Qed.

Lemma filter_filter {A : Type} (f g : A -> bool) (l : list A) :
  List.filter g (List.filter f l) = List.filter (fun x => f x && g x) l.
Proof.
  induction l as [|x l IH]; simpl; [reflexivity|].
  destruct (f x); simpl; [destruct (g x)|]; rewrite IH; reflexivity.
Qed.

Lemma filter_all_false {A : Type} (f : A -> bool) (l : list A) :
  (forall x, f x = false) -> List.filter f l = [].
Proof.
  intros H. induction l as [|x l IH]; simpl; [reflexivity|].
  rewrite H. exact IH.
Qed.

Lemma filter_split_perm {A : Type} (f : A -> bool) (l : list A) :
  Permutation l (List.filter f l ++ List.filter (fun x => negb (f x)) l).
Proof.
  induction l as [|x l IH]; simpl; [reflexivity|].
  destruct (f x); simpl.
  - apply perm_skip. exact IH.
  - rewrite <- Permutation_middle. apply perm_skip. exact IH.
Qed.

End FilterFacts.

(** X2. [filter_items] returns exactly the items that satisfy every
    predicate, in their input order; with no predicate it returns the input
    unchanged. *)
Theorem filter_items_selects :
  forall (items : list FoodItem) (predicates : list Predicate),
    sublist (filter_items items predicates) items /\
    (forall item,
        In item (filter_items items predicates) <->
        In item items /\ forall p, In p predicates -> p item = true) /\
    filter_items items [] = items.
Proof.
  intros items predicates. unfold filter_items. split; [|split].
  - apply FilterFacts.filter_sublist.
  - intros item. rewrite filter_In, forallb_forall. reflexivity.
  - induction items as [|x items IH]; simpl; [reflexivity|].
    simpl in IH. rewrite IH. reflexivity.
Qed.

(** X3. Filtering in two passes is filtering once with all the predicates,
    in either order of the passes, and a composed predicate filters like the
    list of its components. *)
Theorem filter_items_compose :
  forall (items : list FoodItem) (ps qs : list Predicate),
    filter_items (filter_items items ps) qs = filter_items items (ps ++ qs) /\
    filter_items (filter_items items ps) qs = filter_items (filter_items items qs) ps /\
    filter_items items [compose_predicates ps] = filter_items items ps.
Proof.
  intros items ps qs. unfold filter_items, compose_predicates.
  rewrite !FilterFacts.filter_filter. split; [|split].
  - apply filter_ext. intros x. rewrite forallb_app. reflexivity.
  - apply filter_ext. intros x. apply andb_comm.
  - apply filter_ext. intros x. simpl. apply andb_true_r.
Qed.

(** X4. Predicates that exclude each other select nothing: a tag together
    with its absence, and an upper threshold below the lower threshold on
    the same nutrient. A tag and its absence split the input. *)
Theorem contradictory_filters_select_nothing :
  forall (items : list FoodItem) (tag nutrient : string) (v w : Q),
    filter_items items [by_tag tag; not_tag tag] = [] /\
    ((v < w)%Q ->
     filter_items items [max_nutrient nutrient v; min_nutrient nutrient w] = []) /\
    Permutation items
      (filter_items items [by_tag tag] ++ filter_items items [not_tag tag]).
Proof.
  intros items tag nutrient v w. unfold filter_items. split; [|split].
  - apply FilterFacts.filter_all_false. intros x. unfold by_tag, not_tag. simpl.
    destruct (set_mem tag (tags x)); reflexivity.
  - intros Hvw. apply FilterFacts.filter_all_false. intros x.
    unfold max_nutrient, min_nutrient. simpl.
    destruct (Qle_bool (get_nutrient_value x nutrient) v) eqn:E1; [|reflexivity].
    destruct (Qle_bool w (get_nutrient_value x nutrient)) eqn:E2; [|reflexivity].
    apply Qle_bool_iff in E1, E2. exfalso.
    apply (Qlt_not_le _ _ Hvw). eapply Qle_trans; eassumption.
  - rewrite (FilterFacts.filter_split_perm (by_tag tag) items) at 1.
    apply Permutation_app.
    + erewrite filter_ext; [reflexivity|]. intros x. simpl.
      rewrite andb_true_r. reflexivity.
    + erewrite filter_ext; [reflexivity|]. intros x. unfold not_tag, by_tag. simpl.
      rewrite andb_true_r. reflexivity.
Qed.

(** No food has at most 100 kcal and at least 300 kcal. *)
Lemma contradictory_filters_select_nothing_witness :
  filter_items [oats; soup; stew]
    [max_nutrient "calories" 100%Q; min_nutrient "calories" 300%Q] = [].
Proof.
  apply (proj1 (proj2 (contradictory_filters_select_nothing
                         [oats; soup; stew] "meat" "calories" 100%Q 300%Q))).
  reflexivity.
Defined.

(** ** The builder, continued *)

Module BuilderMoreFacts.
Import MealPlanBuilder.

Lemma dict_set_set {V : Type} (d : dict V) (k : string) (v v' : V) :
  dict_set (dict_set d k v) k v' = dict_set d k v'.
Proof.
  induction d as [|[k0 v0] d IH]; simpl.
  - rewrite String.eqb_refl. reflexivity.
  - destruct (String.eqb k0 k) eqn:E; simpl; rewrite E; [reflexivity|].
    rewrite IH. reflexivity.
Qed.

Lemma dict_set_keys_present {V : Type} (d : dict V) (k : string) (v v0 : V) :
  dict_get d k = Some v0 -> map fst (dict_set d k v) = map fst d.
Proof.
  induction d as [|[k1 v1] d IH]; simpl; [discriminate|].
  destruct (String.eqb k1 k); simpl; [reflexivity|].
  intros H. rewrite (IH H). reflexivity.
Qed.

Lemma add_to_slot_caps (self self' : t) (slot : string) (item : FoodItem) :
  add_to_slot self slot item = Ok self' -> _slot_caps self' = _slot_caps self.
Proof.
  unfold add_to_slot.
  repeat match goal with
         | |- (if ?b then _ else _) = _ -> _ => destruct b
         end; intros H; try discriminate; injection H as <-; reflexivity.
Qed.

End BuilderMoreFacts.

(** X5. A successful [add_to_slot] appends the item at the end of the named
    slot's list and changes nothing else: the other three lists and the slot
    capacities stay as they were. Additions to two different slots give the
    same builder, or the same failure, in either order. *)
Theorem add_to_slot_appends_and_commutes :
  forall (self : MealPlanBuilder.t) (slot slot' : string) (item item' : FoodItem),
    (forall self',
        MealPlanBuilder.add_to_slot self slot item = Ok self' ->
        MealPlanBuilder._slot_caps self' = MealPlanBuilder._slot_caps self /\
        forall s, In s MealOptimizer.slot_order ->
          MealPlanBuilder._get_slot_items self' s
          = if String.eqb slot s
            then MealPlanBuilder._get_slot_items self s ++ [item]
            else MealPlanBuilder._get_slot_items self s) /\
    (slot <> slot' ->
     (let* b := MealPlanBuilder.add_to_slot self slot item in
      MealPlanBuilder.add_to_slot b slot' item')
     = (let* b := MealPlanBuilder.add_to_slot self slot' item' in
        MealPlanBuilder.add_to_slot b slot item)).
Proof.
  intros self slot slot' item item'. split.
  - intros self' H. split.
    + eapply BuilderMoreFacts.add_to_slot_caps. exact H.
    + exact (proj2 (OrchestrationFacts.add_to_slot_ok _ _ _ _ H)).
  - intros Hne. unfold MealPlanBuilder.add_to_slot.
    destruct (set_mem slot (meal_times item));
      destruct (set_mem slot' (meal_times item')); cbn [negb bind];
      repeat match goal with
             | |- context [String.eqb slot ?k] =>
                 destruct (String.eqb_spec slot k); try subst slot
             | |- context [String.eqb slot' ?k] =>
                 destruct (String.eqb_spec slot' k); try subst slot'
             end;
      cbn [negb bind MealPlanBuilder._breakfast MealPlanBuilder._lunch
             MealPlanBuilder._dinner MealPlanBuilder._snacks
             MealPlanBuilder._slot_caps];
      try reflexivity; try contradiction; try discriminate;
      try (destruct self; reflexivity).
Qed.

(** Oats for breakfast then soup for lunch, or the other way round. *)
Lemma add_to_slot_appends_and_commutes_witness :
  (let* b := MealPlanBuilder.add_to_slot MealPlanBuilder.init "breakfast" oats in
   MealPlanBuilder.add_to_slot b "lunch" soup)
  = (let* b := MealPlanBuilder.add_to_slot MealPlanBuilder.init "lunch" soup in
     MealPlanBuilder.add_to_slot b "breakfast" oats) /\
  MealPlanBuilder._slot_caps
    (MealPlanBuilder.mk [oats] [] [] [] default_slot_caps)
  = MealPlanBuilder._slot_caps MealPlanBuilder.init.
Proof.
  destruct (add_to_slot_appends_and_commutes MealPlanBuilder.init
              "breakfast" "lunch" oats soup) as [Happend Hcomm].
  split.
  - apply Hcomm. discriminate.
  - apply (Happend (MealPlanBuilder.mk [oats] [] [] [] default_slot_caps)).
    vm_compute. reflexivity.
Defined.

(** X6. [build] never looks at the values of [targets]: whatever is passed
    as targets, the result, plan or failure, is the same. Only the slot
    counts and the limits are validated. *)
Theorem build_ignores_targets :
  forall (self : MealPlanBuilder.t) (targets targets' : option (dict (option Q)))
         (limits : option (dict (option Q * option Q))),
    MealPlanBuilder.build self targets limits
    = MealPlanBuilder.build self targets' limits.
Proof.
  intros self targets targets' limits.
  unfold MealPlanBuilder.build, MealPlanBuilder.build_try.
  destruct (MealPlanBuilder.check_slot_counts self (MealPlanBuilder._slot_caps self));
    cbn [bind]; [|reflexivity].
  destruct limits as [[|entry bounds]|].
  - destruct (opt_dict_truthy targets), (opt_dict_truthy targets'); reflexivity.
  - destruct (opt_dict_truthy targets), (opt_dict_truthy targets'); reflexivity.
  - destruct (opt_dict_truthy targets), (opt_dict_truthy targets'); reflexivity.
Qed.

(** X7. [set_slot_limits] overrides the capacity of the named slot and of no
    other, leaves the slot lists alone, and the last call for a slot wins;
    overriding a slot that is already configured keeps the order in which
    the slots are checked. *)
Theorem set_slot_limits_overrides :
  forall (self : MealPlanBuilder.t) (slot : string) (min_items max_items : Z),
    let self' := MealPlanBuilder.set_slot_limits self slot min_items max_items in
    dict_get (MealPlanBuilder._slot_caps self') slot = Some (min_items, max_items) /\
    (forall s, s <> slot ->
       dict_get (MealPlanBuilder._slot_caps self') s
       = dict_get (MealPlanBuilder._slot_caps self) s) /\
    (forall s, MealPlanBuilder._get_slot_items self' s
               = MealPlanBuilder._get_slot_items self s) /\
    (forall min_items' max_items',
        MealPlanBuilder.set_slot_limits self' slot min_items' max_items'
        = MealPlanBuilder.set_slot_limits self slot min_items' max_items') /\
    (forall old, dict_get (MealPlanBuilder._slot_caps self) slot = Some old ->
       map fst (MealPlanBuilder._slot_caps self')
       = map fst (MealPlanBuilder._slot_caps self)).
Proof.
  intros self slot min_items max_items self'. subst self'.
  unfold MealPlanBuilder.set_slot_limits. cbn [MealPlanBuilder._slot_caps].
  split; [|split; [|split; [|split]]].
  - apply dict_get_set_eq.
  - intros s Hs. apply dict_get_set_ne. congruence.
  - intros s. reflexivity.
  - intros min_items' max_items'. cbn [MealPlanBuilder._breakfast
      MealPlanBuilder._lunch MealPlanBuilder._dinner MealPlanBuilder._snacks
      MealPlanBuilder._slot_caps].
    rewrite BuilderMoreFacts.dict_set_set. reflexivity.
  - intros old Hold. eapply BuilderMoreFacts.dict_set_keys_present. exact Hold.
Qed.

(** Raising the snack capacity of a fresh builder keeps the four slots in
    their order. *)
Lemma set_slot_limits_overrides_witness :
  map fst (MealPlanBuilder._slot_caps
             (MealPlanBuilder.set_slot_limits MealPlanBuilder.init "snack" 1 4))
  = map fst (MealPlanBuilder._slot_caps MealPlanBuilder.init).
Proof.
  apply (proj2 (proj2 (proj2 (proj2
           (set_slot_limits_overrides MealPlanBuilder.init "snack" 1 4))))
           (0, 2)%Z).
  reflexivity.
Defined.

(** ** The greedy selector, continued *)

Module SelectorMoreFacts.
Import MealOptimizer SelectorSpec SelectorMoreSpec.

Lemma within_limits_no_maximum (selected : list FoodItem)
    (limits : dict (option Q * option Q)) :
  (forall nutrient min_val max_val,
      In (nutrient, (min_val, max_val)) limits ->
      max_val = None /\ In nutrient nutrients) ->
  within_limits (totals_of selected) limits = Ok true.
Proof.
  induction limits as [|[k [mn mx]] rest IH]; intros H; cbn [within_limits];
    [reflexivity|].
  destruct (H k mn mx (or_introl eq_refl)) as [-> Hk].
  unfold dict_index. rewrite (SelectorFacts.totals_of_known selected k Hk).
  cbn [bind above_max].
  assert (Hrest : within_limits (totals_of selected) rest = Ok true).
  { apply IH. intros n a b Hin. apply (H n a b). right. exact Hin. }
  destruct (below_min (running_total selected k) mn); exact Hrest.
Qed.

Lemma select_loop_takes_all (limits : dict (option Q * option Q)) (max_items : Z)
    (item_scores : list (Q * FoodItem)) :
  (forall nutrient min_val max_val,
      In (nutrient, (min_val, max_val)) limits ->
      max_val = None /\ In nutrient nutrients) ->
  forall selected,
    select_loop limits max_items item_scores selected (totals_of selected)
    = Ok (selected
          ++ firstn (Z.to_nat (max_items - Z.of_nat (length selected)))
               (map snd item_scores)).
Proof.
  intros Hlimits.
  induction item_scores as [|[score food] rest IH]; intros selected;
    cbn [select_loop map].
  - rewrite firstn_nil, app_nil_r. reflexivity.
  - rewrite Z.geb_leb.
    destruct (Z.leb_spec max_items (Z.of_nat (length selected))) as [Hfull|Hroom].
    + replace (Z.to_nat (max_items - Z.of_nat (length selected))) with 0%nat by lia.
      cbn [firstn]. rewrite app_nil_r. reflexivity.
    + rewrite SelectorFacts.add_nutrients_totals. cbn [bind].
      rewrite (within_limits_no_maximum _ _ Hlimits). cbn [bind].
      rewrite IH, length_app. cbn [length].
      replace (Z.to_nat (max_items - Z.of_nat (length selected)))
        with (S (Z.to_nat (max_items - Z.of_nat (length selected + 1)))) by lia.
      cbn [firstn]. rewrite <- app_assoc. reflexivity.
Qed.

Lemma select_loop_sublist (limits : dict (option Q * option Q)) (max_items : Z)
    (item_scores : list (Q * FoodItem)) :
  forall selected current_totals result,
    select_loop limits max_items item_scores selected current_totals = Ok result ->
    exists accepted,
      result = selected ++ accepted /\ sublist accepted (map snd item_scores).
Proof.
  induction item_scores as [|[score food] rest IH];
    intros selected current_totals result H; cbn [select_loop map] in *.
  - injection H as <-. exists []. rewrite app_nil_r. split; constructor.
  - destruct (Z.of_nat (length selected) >=? max_items)%Z.
    + injection H as <-. exists []. rewrite app_nil_r.
      split; [reflexivity | apply sublist_nil_l].
    + apply bind_ok in H as (temp & _ & H).
      apply bind_ok in H as ([|] & _ & H).
      * destruct (IH _ _ _ H) as (accepted & -> & Hsub).
        exists (food :: accepted). rewrite <- app_assoc.
        split; [reflexivity | apply sublist_skip; exact Hsub].
      * destruct (IH _ _ _ H) as (accepted & -> & Hsub).
        exists accepted. split; [reflexivity | apply sublist_cons; exact Hsub].
Qed.

Lemma score_items_foods (foods : list FoodItem) (targets weights : dict Q) :
  map snd (score_items foods targets weights) = foods.
Proof.
  unfold score_items. rewrite map_map. simpl. apply map_id.
Qed.

Lemma score_items_scored (foods : list FoodItem) (targets weights : dict Q)
    (p : Q * FoodItem) :
  In p (score_items foods targets weights) ->
  fst p = score_food (snd p) targets weights.
Proof.
  unfold score_items. intros H. apply in_map_iff in H as (food & <- & _).
  reflexivity.
Qed.

Lemma sorted_pairs_descend (targets weights : dict Q) (l : list (Q * FoodItem)) :
  (forall p, In p l -> fst p = score_food (snd p) targets weights) ->
  StronglySorted score_ge l ->
  scores_descend targets weights (map snd l).
Proof.
  intros Hscored Hsorted. unfold scores_descend.
  induction Hsorted as [|p l _ IH Hp]; cbn [map]; [constructor|].
  constructor.
  - apply IH. intros q Hq. apply Hscored. right. exact Hq.
  - apply List.Forall_forall. intros food Hfood.
    apply in_map_iff in Hfood as (q & <- & Hq).
    pose proof (proj1 (List.Forall_forall _ _) Hp q Hq) as Hle.
    unfold score_ge in Hle.
    rewrite <- (Hscored p (or_introl eq_refl)), <- (Hscored q (or_intror Hq)).
    exact Hle.
Qed.

Lemma sublist_In {A : Type} (l1 l2 : list A) (x : A) :
  sublist l1 l2 -> In x l1 -> In x l2.
Proof.
  induction 1 as [|y l1 l2 _ IH|y l1 l2 _ IH]; simpl; intros H.
  - exact H.
  - destruct H as [H | H]; [left; exact H | right; exact (IH H)].
  - right. exact (IH H).
Qed.

Lemma sublist_strongly_sorted {A : Type} (R : A -> A -> Prop) (l1 l2 : list A) :
  sublist l1 l2 -> StronglySorted R l2 -> StronglySorted R l1.
Proof.
  induction 1 as [|x l1 l2 Hsub IH|x l1 l2 Hsub IH]; intros Hsorted.
  - constructor.
  - apply StronglySorted_inv in Hsorted as [Hs Hx].
    constructor; [exact (IH Hs)|].
    apply List.Forall_forall. intros y Hy.
    apply (proj1 (List.Forall_forall _ _) Hx).
    eapply sublist_In; eassumption.
  - apply StronglySorted_inv in Hsorted as [Hs _]. exact (IH Hs).
Qed.

End SelectorMoreFacts.

(** X8. When no bound has a maximum (and every bounded nutrient is tracked),
    nothing is rejected: [knapsack_optimize] returns the first [max_items]
    candidates of the ranking, all of them when there are fewer. A minimum
    alone never keeps a food out. *)
Theorem knapsack_without_maxima_takes_the_top :
  forall (sort : list (Q * FoodItem) -> list (Q * FoodItem))
         (foods : list FoodItem) (targets : dict Q)
         (limits : dict (option Q * option Q)) (weights : dict Q)
         (max_items : Z),
    targets <> [] -> foods <> [] ->
    (forall nutrient min_val max_val,
        In (nutrient, (min_val, max_val)) limits ->
        max_val = None /\ In nutrient MealOptimizer.nutrients) ->
    MealOptimizer.knapsack_optimize sort foods targets limits weights max_items
    = Ok (firstn (Z.to_nat max_items)
            (SelectorMoreSpec.ranked sort foods targets weights)).
Proof.
  intros sort foods targets limits weights max_items Htargets Hfoods Hlimits.
  unfold MealOptimizer.knapsack_optimize.
  destruct targets as [|t targets]; [contradiction|].
  destruct foods as [|f foods]; [contradiction|].
  cbn [dict_truthy negb orb].
  change MealOptimizer.zero_totals with (SelectorSpec.totals_of []).
  rewrite (SelectorMoreFacts.select_loop_takes_all limits max_items _ Hlimits []).
  cbn [app length]. rewrite Z.sub_0_r. reflexivity.
Qed.

(** A calorie minimum of 5000 and a cap of two: the two best ranked foods
    are returned. *)
Lemma knapsack_without_maxima_takes_the_top_witness :
  MealOptimizer.knapsack_optimize stable_sort_desc [oats; soup; stew]
    [("calories", 400%Q)] [("calories", (Some 5000%Q, None))] [] 2%Z
  = Ok [stew; oats].
Proof.
  rewrite (knapsack_without_maxima_takes_the_top stable_sort_desc
             [oats; soup; stew] [("calories", 400%Q)]
             [("calories", (Some 5000%Q, None))] [] 2%Z).
  - vm_compute. reflexivity.
  - discriminate.
  - discriminate.
  - intros nutrient min_val max_val [H | []]. injection H as <- _ <-.
    split; [reflexivity | simpl; left; reflexivity].
Defined.

(** X9. What [knapsack_optimize] returns is picked out of the ranking without
    reordering it. With a stable descending sort, the scores therefore do not
    increase along the result, and no record of the catalog is returned more
    often than it occurs in the catalog. *)
Theorem knapsack_selects_from_the_ranking :
  forall (sort : list (Q * FoodItem) -> list (Q * FoodItem))
         (foods : list FoodItem) (targets : dict Q)
         (limits : dict (option Q * option Q)) (weights : dict Q)
         (max_items : Z) (selected : list FoodItem),
    MealOptimizer.knapsack_optimize sort foods targets limits weights max_items
    = Ok selected ->
    sublist selected (SelectorMoreSpec.ranked sort foods targets weights) /\
    (stable_desc_sort sort ->
     submseteq selected foods /\
     SelectorMoreSpec.scores_descend targets weights selected).
Proof.
  intros sort foods targets limits weights max_items selected H.
  assert (Hsub : sublist selected (SelectorMoreSpec.ranked sort foods targets weights)).
  { unfold MealOptimizer.knapsack_optimize in H.
    destruct (negb (dict_truthy targets) || match foods with [] => true | _ => false end).
    - injection H as <-. apply sublist_nil_l.
    - apply SelectorMoreFacts.select_loop_sublist in H as (accepted & -> & Hacc).
      exact Hacc. }
  split; [exact Hsub|].
  intros Hsort. split.
  - apply sublist_submseteq in Hsub.
    etransitivity; [exact Hsub|].
    unfold SelectorMoreSpec.ranked.
    rewrite <- (sort_perm _ Hsort), SelectorMoreFacts.score_items_foods.
    reflexivity.
  - eapply SelectorMoreFacts.sublist_strongly_sorted; [exact Hsub|].
    apply SelectorMoreFacts.sorted_pairs_descend; [|apply (sort_desc _ Hsort)].
    intros p Hp. apply SelectorMoreFacts.score_items_scored with (foods := foods).
    eapply Permutation_in; [symmetry; apply (sort_perm _ Hsort)|exact Hp].
Qed.

(** With the calorie bound (100, 600) the oats are passed over: the stew
    and the soup that remain still stand in the order of their scores. *)
Lemma knapsack_selects_from_the_ranking_witness :
  sublist [stew; soup]
    (SelectorMoreSpec.ranked stable_sort_desc [oats; soup; stew]
       [("calories", 400%Q)] []) /\
  submseteq [stew; soup] [oats; soup; stew] /\
  SelectorMoreSpec.scores_descend [("calories", 400%Q)] [] [stew; soup].
Proof.
  destruct (knapsack_selects_from_the_ranking stable_sort_desc [oats; soup; stew]
              [("calories", 400%Q)] [("calories", (Some 100%Q, Some 600%Q))] []
              2%Z [stew; soup] ltac:(vm_compute; reflexivity)) as [Hsub Hrest].
  split; [exact Hsub|].
  exact (Hrest SortFacts.stable_sort_desc_contract).
Defined.

(** X10. [knapsack_optimize] returns the empty list, raising nothing
    whatever the bound map holds, when the target map is empty, when there
    are no foods, or when [max_items] is not positive. *)
Theorem knapsack_returns_nothing :
  forall (sort : list (Q * FoodItem) -> list (Q * FoodItem))
         (foods : list FoodItem) (targets : dict Q)
         (limits : dict (option Q * option Q)) (weights : dict Q)
         (max_items : Z),
    targets = [] \/ foods = [] \/ (max_items <= 0)%Z ->
    MealOptimizer.knapsack_optimize sort foods targets limits weights max_items
    = Ok [].
Proof.
  intros sort foods targets limits weights max_items H.
  unfold MealOptimizer.knapsack_optimize.
  destruct H as [-> | [-> | Hmax]].
  - reflexivity.
  - rewrite orb_true_r. reflexivity.
  - destruct (negb (dict_truthy targets) || match foods with [] => true | _ => false end);
      [reflexivity|].
    destruct (sort (MealOptimizer.score_items foods targets weights)) as [|[s f] rest];
      cbn [MealOptimizer.select_loop]; [reflexivity|].
    cbn [length]. rewrite Z.geb_leb.
    destruct (Z.leb_spec max_items (Z.of_nat 0)); [reflexivity | simpl in *; lia].
Qed.

(** A cap of zero, even with a bound on a nutrient that is not tracked. *)
Lemma knapsack_returns_nothing_witness :
  MealOptimizer.knapsack_optimize stable_sort_desc [oats; soup]
    [("calories", 400%Q)] [("fibre", (None, Some 30%Q))] [] 0%Z
  = Ok [].
Proof.
  apply knapsack_returns_nothing. right. right. lia.
Defined.

(** ** The scorer, continued *)

Module ScorerMoreFacts.
Import MealOptimizer SelectorMoreSpec.





End ScorerMoreFacts.



(** ** The slot allocator, continued *)

Module AllocatorMoreFacts.
Import MealOptimizer AllocatorSpec AllocatorMoreSpec.

Lemma assign_fallback_cases (food : FoodItem) (slot_caps : dict (Z * Z))
    (d d' : dict (list FoodItem)) (slots : list string) :
  assign_fallback food slot_caps d slots = Ok d' ->
  step_cases slot_caps food slots d d'.
Proof.
  induction slots as [|slot rest IH]; simpl.
  - intros H. injection H as <-. left. split; [reflexivity | intros s []].
  - intros H.
    apply bind_ok in H as (items & Hitems & H).
    apply bind_ok in H as (cap & Hcap & H).
    apply dict_index_ok in Hitems, Hcap.
    destruct (Z.ltb_spec (Z.of_nat (length items)) (snd cap)) as [Hlt|Hge].
    + injection H as <-. right. exists slot, items, cap.
      split; [left; reflexivity|]. repeat split; assumption.
    + destruct (IH H) as [[-> Hfull] | (s & its & c & Hin & Hrest)].
      * left. split; [reflexivity|]. intros s [<- | Hin]; [|exact (Hfull s Hin)].
        exists items, cap. repeat split; assumption.
      * right. exists s, its, c. split; [right; exact Hin | exact Hrest].
Qed.

Lemma place_food_cases (slot_caps : dict (Z * Z)) (d d' : dict (list FoodItem))
    (food : FoodItem) :
  place_food slot_caps d food = Ok d' ->
  step_cases slot_caps food slot_order d d'.
Proof.
  unfold place_food. intros H.
  apply bind_ok in H as ([d1|] & Hnat & H).
  - injection H as <-.
    apply AllocatorFacts.assign_natural_some in Hnat
      as (slot & items & cap & Hin & _ & _ & Hitems & Hcap & Hlt & ->).
    right. exists slot, items, cap. repeat split; assumption.
  - apply assign_fallback_cases. exact H.
Qed.

Lemma slot_items_set (d : dict (list FoodItem)) (slot s : string)
    (items : list FoodItem) :
  slot_items (dict_set d slot items) s
  = if String.eqb slot s then items else slot_items d s.
Proof.
  unfold slot_items, dict_get_default. rewrite dict_get_set.
  destruct (String.eqb slot s); reflexivity.
Qed.

Lemma slot_items_get (d : dict (list FoodItem)) (slot : string)
    (items : list FoodItem) :
  dict_get d slot = Some items -> slot_items d slot = items.
Proof. unfold slot_items, dict_get_default. intros ->. reflexivity. Qed.

Lemma perm_insert_2 {A : Type} (a b c : list A) (x : A) :
  Permutation (x :: a ++ b ++ c) (a ++ (b ++ [x]) ++ c).
Proof.
  rewrite <- (app_assoc b [x] c). cbn [app].
  rewrite (app_assoc a b (x :: c)), (app_assoc a b c).
  apply Permutation_middle.
Qed.

(** Appending to one of the four slots adds one item to what is placed. *)
Lemma all_placed_append (d : dict (list FoodItem)) (slot : string)
    (items : list FoodItem) (food : FoodItem) :
  In slot slot_order ->
  dict_get d slot = Some items ->
  Permutation (food :: all_placed d)
    (all_placed (dict_set d slot (items ++ [food]))).
Proof.
  intros Hslot Hitems. apply slot_items_get in Hitems. subst items.
  unfold all_placed. rewrite !slot_items_set. simpl in Hslot.
  set (B := slot_items d "breakfast"). set (L := slot_items d "lunch").
  set (D := slot_items d "dinner"). set (S := slot_items d "snack").
  destruct Hslot as [<- | [<- | [<- | [<- | []]]]]; cbn [String.eqb Ascii.eqb Bool.eqb].
  - fold B. exact (perm_insert_2 [] B (L ++ D ++ S) food).
  - fold L. exact (perm_insert_2 B L (D ++ S) food).
  - fold D. rewrite (app_assoc B L ((D ++ [food]) ++ S)), (app_assoc B L (D ++ S)).
    exact (perm_insert_2 (B ++ L) D S food).
  - fold S. rewrite !app_assoc. apply Permutation_cons_append.
Qed.

(** Each list of the result is the list it was, followed by foods taken in
    order from the processed input. *)
Lemma place_foods_extends (slot_caps : dict (Z * Z)) (foods : list FoodItem) :
  forall d d',
    place_foods slot_caps d foods = Ok d' ->
    forall slot items',
      dict_get d' slot = Some items' ->
      exists items added,
        dict_get d slot = Some items /\ items' = items ++ added /\
        sublist added foods.
Proof.
  induction foods as [|food rest IH]; simpl; intros d d' H slot items' Hget.
  - injection H as <-. exists items', []. rewrite app_nil_r.
    repeat split; [exact Hget | constructor].
  - apply bind_ok in H as (d1 & Hstep & H).
    destruct (IH _ _ H slot items' Hget) as (items1 & added & Hget1 & -> & Hsub).
    apply AllocatorFacts.place_food_guarded in Hstep
      as [-> | (s & its & cap & Hits & _ & _ & ->)].
    + exists items1, added. repeat split; [exact Hget1 | apply sublist_cons; exact Hsub].
    + rewrite dict_get_set in Hget1.
      destruct (String.eqb_spec s slot) as [->|Hne].
      * injection Hget1 as <-. exists its, (food :: added).
        rewrite <- app_assoc. repeat split; [exact Hits | apply sublist_skip; exact Hsub].
      * exists items1, added.
        repeat split; [exact Hget1 | apply sublist_cons; exact Hsub].
Qed.

Lemma place_foods_placed (slot_caps : dict (Z * Z)) (foods : list FoodItem) :
  forall d d',
    place_foods slot_caps d foods = Ok d' ->
    exists placed, Permutation (placed ++ all_placed d) (all_placed d') /\
                   submseteq placed foods.
Proof.
  induction foods as [|food rest IH]; simpl; intros d d' H.
  - injection H as <-. exists []. split; [reflexivity | constructor].
  - apply bind_ok in H as (d1 & Hstep & H).
    destruct (IH _ _ H) as (placed & Hperm & Hsub).
    apply place_food_cases in Hstep
      as [[-> _] | (s & its & cap & Hin & Hits & _ & _ & ->)].
    + exists placed. split; [exact Hperm|].
      apply submseteq_cons. exact Hsub.
    + exists (food :: placed). split.
      * rewrite <- Hperm, <- (all_placed_append d s its food Hin Hits).
        cbn [app]. rewrite <- Permutation_middle. reflexivity.
      * apply submseteq_skip. exact Hsub.
Qed.

Lemma all_placed_empty (slot_caps : dict (Z * Z)) :
  all_placed (empty_distribution slot_caps) = [].
Proof.
  assert (H : forall s, slot_items (empty_distribution slot_caps) s = []).
  { intros s. unfold slot_items, dict_get_default.
    destruct (dict_get (empty_distribution slot_caps) s) as [items|] eqn:E;
      [|reflexivity].
    destruct (AllocatorFacts.empty_distribution_within slot_caps s items E)
      as [-> | (cap & _ & Hle)]; [reflexivity|].
    unfold empty_distribution in E.
    eapply AllocatorFacts.all_empty_fold; [|exact E]. intros ? ? Hs. discriminate. }
  unfold all_placed. rewrite !H. reflexivity.
Qed.

End AllocatorMoreFacts.

(** X12. [distribute_to_slots] invents and duplicates nothing: every slot
    list of the result holds foods of the input in their input order, and
    the four slot lists together hold no food more often than the input
    does. *)
Theorem distribute_keeps_order_and_multiplicity :
  forall (foods : list FoodItem) (slot_caps : dict (Z * Z))
         (distribution : dict (list FoodItem)),
    MealOptimizer.distribute_to_slots foods slot_caps = Ok distribution ->
    (forall slot items,
        dict_get distribution slot = Some items -> sublist items foods) /\
    submseteq (AllocatorMoreSpec.all_placed distribution) foods.
Proof.
  intros foods slot_caps distribution H.
  unfold MealOptimizer.distribute_to_slots in H. split.
  - intros slot items Hget.
    destruct (AllocatorMoreFacts.place_foods_extends _ _ _ _ H slot items Hget)
      as (items0 & added & Hget0 & -> & Hsub).
    destruct (AllocatorFacts.empty_distribution_within slot_caps slot items0 Hget0)
      as [-> | (cap & _ & _)]; [exact Hsub|].
    unfold MealOptimizer.empty_distribution in Hget0.
    assert (items0 = []) as ->; [|exact Hsub].
    eapply AllocatorFacts.all_empty_fold; [|exact Hget0]. intros ? ? Hs. discriminate.
  - destruct (AllocatorMoreFacts.place_foods_placed _ _ _ _ H)
      as (placed & Hperm & Hsub).
    rewrite AllocatorMoreFacts.all_placed_empty, app_nil_r in Hperm.
    rewrite <- Hperm. exact Hsub.
Qed.

(** Oats, ham and soup with one place per slot: breakfast gets the oats,
    lunch the ham, and the soup falls back to dinner. *)
Lemma distribute_keeps_order_and_multiplicity_witness :
  submseteq [oats; ham; soup] [oats; ham; soup] /\
  sublist [ham] [oats; ham; soup].
Proof.
  destruct (distribute_keeps_order_and_multiplicity [oats; ham; soup] single_caps
              [("breakfast", [oats]); ("lunch", [ham]); ("dinner", [soup]);
               ("snack", [])]
              ltac:(vm_compute; reflexivity)) as [Hsub Hall].
  split.
  - exact Hall.
  - apply (Hsub "lunch" [ham]). reflexivity.
Defined.

Module AllocatorCountFacts.
Import MealOptimizer AllocatorSpec AllocatorMoreSpec.

Lemma placed_count (d : dict (list FoodItem)) :
  Z.of_nat (length (all_placed d))
  = (occupancy d "breakfast" + occupancy d "lunch" + occupancy d "dinner"
     + occupancy d "snack")%Z.
Proof. unfold all_placed, occupancy. rewrite !length_app. lia. Qed.

Lemma occupancy_le_room (slot_caps : dict (Z * Z)) (d : dict (list FoodItem))
    (slot : string) :
  within_caps slot_caps d -> (occupancy d slot <= room slot_caps slot)%Z.
Proof.
  intros Hd. unfold occupancy, room, slot_items, dict_get_default.
  destruct (dict_get d slot) as [items|] eqn:E; [|simpl; lia].
  destruct (Hd slot items E) as [-> | (cap & -> & Hle)]; [simpl; lia | lia].
Qed.

Lemma occupancy_full (slot_caps : dict (Z * Z)) (d : dict (list FoodItem))
    (slot : string) (items : list FoodItem) (cap : Z * Z) :
  within_caps slot_caps d ->
  dict_get d slot = Some items -> dict_get slot_caps slot = Some cap ->
  (snd cap <= Z.of_nat (length items))%Z ->
  occupancy d slot = room slot_caps slot.
Proof.
  intros Hd Hitems Hcap Hfull.
  pose proof (occupancy_le_room slot_caps d slot Hd) as Hle.
  unfold occupancy, room, slot_items, dict_get_default in *.
  rewrite Hitems, Hcap in *. lia.
Qed.

Lemma occupancy_room_lt (slot_caps : dict (Z * Z)) (d : dict (list FoodItem))
    (slot : string) (items : list FoodItem) (cap : Z * Z) :
  dict_get d slot = Some items -> dict_get slot_caps slot = Some cap ->
  (Z.of_nat (length items) < snd cap)%Z ->
  (occupancy d slot < room slot_caps slot)%Z.
Proof.
  intros Hitems Hcap Hlt.
  unfold occupancy, room, slot_items, dict_get_default.
  rewrite Hitems, Hcap. lia.
Qed.

(** While foods are placed, the number placed is the number processed,
    capped by the capacity. *)
Lemma place_foods_count (slot_caps : dict (Z * Z)) (foods : list FoodItem) :
  forall d d' (n : Z),
    place_foods slot_caps d foods = Ok d' ->
    within_caps slot_caps d ->
    Z.of_nat (length (all_placed d)) = Z.min n (capacity slot_caps) ->
    Z.of_nat (length (all_placed d'))
    = Z.min (n + Z.of_nat (length foods)) (capacity slot_caps).
Proof.
  induction foods as [|food rest IH]; simpl length; intros d d' n H Hd Hcount.
  - simpl in H. injection H as <-. rewrite Z.add_0_r. exact Hcount.
  - simpl in H. apply bind_ok in H as (d1 & Hstep & H).
    replace (n + Z.of_nat (S (length rest)))%Z
      with ((n + 1) + Z.of_nat (length rest))%Z by lia.
    apply (IH d1 d' (n + 1)%Z H).
    { eapply AllocatorFacts.guarded_append_within; [|exact Hd].
      eapply AllocatorFacts.place_food_guarded. exact Hstep. }
    pose proof (occupancy_le_room slot_caps d "breakfast" Hd) as Hb.
    pose proof (occupancy_le_room slot_caps d "lunch" Hd) as Hl.
    pose proof (occupancy_le_room slot_caps d "dinner" Hd) as Hdn.
    pose proof (occupancy_le_room slot_caps d "snack" Hd) as Hs.
    apply AllocatorMoreFacts.place_food_cases in Hstep
      as [[-> Hfull] | (s & its & cap & Hin & Hits & Hcap & Hlt & ->)].
    + assert (Heq : forall s, In s slot_order -> occupancy d s = room slot_caps s).
      { intros s Hs'. destruct (Hfull s Hs') as (its & cap & Hits & Hcap & Hge).
        eapply occupancy_full; eassumption. }
      rewrite placed_count in *. unfold capacity in *.
      rewrite (Heq "breakfast"), (Heq "lunch"), (Heq "dinner"), (Heq "snack") in *;
        try (unfold slot_order; simpl; tauto).
      lia.
    + pose proof (occupancy_room_lt slot_caps d s its cap Hits Hcap Hlt) as Hroom.
      rewrite <- (Permutation_length
                    (AllocatorMoreFacts.all_placed_append d s its food Hin Hits)).
      cbn [length]. rewrite Nat2Z.inj_succ.
      rewrite placed_count in *. unfold capacity in *.
      simpl in Hin.
      destruct Hin as [<- | [<- | [<- | [<- | []]]]]; lia.
Qed.

End AllocatorCountFacts.

(** X13. A food is dropped only when all four slots are full: in what
    [distribute_to_slots] returns, the number of foods placed is the number
    of input foods, capped by the sum of the four maxima (a negative maximum
    counting as 0). *)
Theorem distribute_places_all_that_fit :
  forall (foods : list FoodItem) (slot_caps : dict (Z * Z))
         (distribution : dict (list FoodItem)),
    MealOptimizer.distribute_to_slots foods slot_caps = Ok distribution ->
    Z.of_nat (length (AllocatorMoreSpec.all_placed distribution))
    = Z.min (Z.of_nat (length foods)) (AllocatorMoreSpec.capacity slot_caps).
Proof.
  intros foods slot_caps distribution H.
  unfold MealOptimizer.distribute_to_slots in H.
  rewrite (AllocatorCountFacts.place_foods_count slot_caps foods _ _ 0%Z H).
  - rewrite Z.add_0_l. reflexivity.
  - apply AllocatorFacts.empty_distribution_within.
  - rewrite AllocatorMoreFacts.all_placed_empty. simpl.
    unfold AllocatorMoreSpec.capacity, AllocatorMoreSpec.room. lia.
Qed.

(** Five soups against one place per slot: four are placed, one is
    dropped. *)
Lemma distribute_places_all_that_fit_witness :
  Z.of_nat (length [soup; soup; soup; soup]) = Z.min 5 4.
Proof.
  exact (distribute_places_all_that_fit [soup; soup; soup; soup; soup] single_caps
           [("breakfast", [soup]); ("lunch", [soup]); ("dinner", [soup]);
            ("snack", [soup])]
           ltac:(vm_compute; reflexivity)).
Defined.

(** X14. As long as a slot that the food is eligible for has room (breakfast
    not counting for a food tagged "meat"), the food is placed in a slot it
    is eligible for: the fallback, which ignores eligibility, is not
    reached. *)
Theorem place_food_prefers_eligible_slots :
  forall (slot_caps : dict (Z * Z)) (d d' : dict (list FoodItem))
         (food : FoodItem) (slot : string),
    MealOptimizer.place_food slot_caps d food = Ok d' ->
    In slot MealOptimizer.slot_order ->
    slot ∈ meal_times food ->
    ~ (slot = "breakfast" /\ "meat" ∈ tags food) ->
    AllocatorSpec.free_capacity slot_caps d slot ->
    exists slot',
      In slot' MealOptimizer.slot_order /\ slot' ∈ meal_times food /\
      ~ (slot' = "breakfast" /\ "meat" ∈ tags food) /\
      AllocatorSpec.placed_in slot' food d d'.
Proof.
  intros slot_caps d d' food slot H Hslot Helig Hmeat (its & cap & Hits & Hcap & Hlt).
  unfold MealOptimizer.place_food in H.
  apply bind_ok in H as ([d1|] & Hnat & H).
  - injection H as <-.
    apply AllocatorFacts.assign_natural_some in Hnat
      as (s & items & c & Hin & Hs & Hnot & Hitems & _ & _ & ->).
    exists s. repeat split; try assumption.
    exists items. split; [exact Hitems | apply dict_get_set_eq].
  - exfalso.
    destruct (AllocatorFacts.assign_natural_none food slot_caps d _ Hnat slot Hslot Helig)
      as [Hbm | (its' & cap' & Hits' & Hcap' & Hge)]; [contradiction|].
    rewrite Hits in Hits'. rewrite Hcap in Hcap'.
    injection Hits' as <-. injection Hcap' as <-. lia.
Qed.

(** The ham with an empty distribution: lunch has room, the ham goes to
    lunch. *)
Lemma place_food_prefers_eligible_slots_witness :
  exists slot',
    In slot' MealOptimizer.slot_order /\ slot' ∈ meal_times ham /\
    ~ (slot' = "breakfast" /\ "meat" ∈ tags ham) /\
    AllocatorSpec.placed_in slot' ham
      [("breakfast", []); ("lunch", []); ("dinner", []); ("snack", [])]
      [("breakfast", []); ("lunch", [ham]); ("dinner", []); ("snack", [])].
Proof.
  apply (place_food_prefers_eligible_slots default_slot_caps _ _ ham "lunch").
  - vm_compute. reflexivity.
  - simpl. tauto.
  - apply set_mem_true. vm_compute. reflexivity.
  - intros [H _]. discriminate.
  - exists [], (1, 3)%Z. repeat split.
Defined.

(** ** Orchestration, continued *)

Module OrchestrationMoreFacts.
Import MealPlanBuilder MealOptimizer.

(** The capacities of the builder after the [set_slot_limits] loop. *)
Lemma builder_caps_fold (slot_caps : dict (Z * Z)) :
  forall b,
    _slot_caps
      (fold_left
         (fun b cap => set_slot_limits b (fst cap) (fst (snd cap)) (snd (snd cap)))
         slot_caps b)
    = fold_left (fun c cap => dict_set c (fst cap) (fst (snd cap), snd (snd cap)))
        slot_caps (_slot_caps b).
Proof.
  induction slot_caps as [|cap rest IH]; intros b; simpl; [reflexivity|].
  rewrite IH. reflexivity.
Qed.

Lemma caps_fold_other (rest : dict (Z * Z)) (k : string) :
  ~ In k (map fst rest) ->
  forall c,
    dict_get
      (fold_left (fun c cap => dict_set c (fst cap) (fst (snd cap), snd (snd cap)))
         rest c) k
    = dict_get c k.
Proof.
  induction rest as [|[k0 v0] rest IH]; intros Hk c; simpl; [reflexivity|].
  rewrite IH.
  - apply dict_get_set_ne. intros ->. apply Hk. left. reflexivity.
  - intros Hin. apply Hk. right. exact Hin.
Qed.

Lemma caps_fold_get (slot_caps : dict (Z * Z)) (k : string) (v : Z * Z) :
  List.NoDup (map fst slot_caps) -> In (k, v) slot_caps ->
  forall c,
    dict_get
      (fold_left (fun c cap => dict_set c (fst cap) (fst (snd cap), snd (snd cap)))
         slot_caps c) k
    = Some v.
Proof.
  induction slot_caps as [|[k0 v0] rest IH]; intros Hnodup Hin c; [destruct Hin|].
  simpl in Hnodup. apply List.NoDup_cons_iff in Hnodup as [Hfresh Hnodup].
  simpl. destruct Hin as [Heq | Hin].
  - injection Heq as -> ->. rewrite (caps_fold_other rest k Hfresh).
    rewrite dict_get_set_eq. destruct v. reflexivity.
  - apply IH; assumption.
Qed.

Lemma dict_get_In {V : Type} (d : dict V) (k : string) (v : V) :
  dict_get d k = Some v -> In (k, v) d.
Proof.
  induction d as [|[k0 v0] d IH]; simpl; [discriminate|].
  destruct (String.eqb_spec k0 k) as [->|_].
  - intros H. injection H as ->. left. reflexivity.
  - intros H. right. exact (IH H).
Qed.

Lemma in_keys_get {V : Type} (d : dict V) (k : string) :
  In k (map fst d) -> exists v, dict_get d k = Some v.
Proof.
  induction d as [|[k0 v0] d IH]; simpl; [intros []|].
  destruct (String.eqb_spec k0 k) as [->|Hne]; [eauto|].
  intros [H | H]; [contradiction | exact (IH H)].
Qed.

Lemma add_all_caps (slot : string) (foods : list FoodItem) :
  forall b b',
    add_all (fun b food => add_to_slot b slot food) b foods = Ok b' ->
    _slot_caps b' = _slot_caps b.
Proof.
  induction foods as [|food rest IH]; simpl; intros b b' H.
  - injection H as <-. reflexivity.
  - apply bind_ok in H as (b1 & Hadd & H).
    rewrite (IH _ _ H). eapply BuilderMoreFacts.add_to_slot_caps. exact Hadd.
Qed.

Lemma populate_caps (distribution : dict (list FoodItem)) (slot_caps : dict (Z * Z))
    (builder : t) :
  populate distribution slot_caps = Ok builder ->
  _slot_caps builder
  = fold_left (fun c cap => dict_set c (fst cap) (fst (snd cap), snd (snd cap)))
      slot_caps (_slot_caps init).
Proof.
  unfold populate. intros H.
  apply bind_ok in H as (b1 & H1 & H).
  apply bind_ok in H as (b2 & H2 & H).
  apply bind_ok in H as (b3 & H3 & H).
  apply (add_all_caps "snack") in H. apply (add_all_caps "dinner") in H3.
  apply (add_all_caps "lunch") in H2. apply (add_all_caps "breakfast") in H1.
  rewrite H, H3, H2, H1. apply builder_caps_fold.
Qed.

(** What stands behind a returned plan. *)
Lemma find_optimal_plan_some
    (sort : list (Q * FoodItem) -> list (Q * FoodItem))
    (foods : list FoodItem) (targets : dict (option Q))
    (limits : dict (option Q * option Q)) (weights : dict Q)
    (slot_caps : dict (Z * Z)) (plan : MealPlan) :
  find_optimal_plan sort foods targets limits weights slot_caps = Some plan ->
  exists all_selected distribution builder,
    select_all sort foods targets limits weights slot_caps = Ok all_selected /\
    distribute_to_slots all_selected slot_caps = Ok distribution /\
    populate distribution slot_caps = Ok builder /\
    plan = BuilderSpec.plan_of builder /\
    ~ BuilderSpec.count_out_of_range builder /\
    ~ BuilderSpec.bound_violated builder (Some limits).
Proof.
  unfold find_optimal_plan. intros H.
  destruct (find_optimal_plan_try sort foods targets limits weights slot_caps)
    as [plan'|e] eqn:Etry; [|discriminate].
  injection H as <-. unfold find_optimal_plan_try in Etry.
  apply bind_ok in Etry as (all_selected & Hsel & Etry).
  apply bind_ok in Etry as (distribution & Hdist & Etry).
  apply bind_ok in Etry as (builder & Hpop & Hbuild).
  exists all_selected, distribution, builder.
  destruct (BuilderFacts.build_cases builder (Some targets) (Some limits))
    as [(Hok & Hc & Hb) | (Hraise & _)]; [|congruence].
  rewrite Hok in Hbuild. injection Hbuild as <-.
  repeat split; assumption.
Qed.

(** A returned plan respects every configured capacity. *)
Lemma returned_plan_counts
    (sort : list (Q * FoodItem) -> list (Q * FoodItem))
    (foods : list FoodItem) (targets : dict (option Q))
    (limits : dict (option Q * option Q)) (weights : dict Q)
    (slot_caps : dict (Z * Z)) (plan : MealPlan) :
  List.NoDup (map fst slot_caps) ->
  find_optimal_plan sort foods targets limits weights slot_caps = Some plan ->
  forall slot min_count max_count,
    In (slot, (min_count, max_count)) slot_caps ->
    (min_count <= Z.of_nat (length (PlanMoreSpec.plan_slot plan slot))
     <= max_count)%Z.
Proof.
  intros Hnodup H slot min_count max_count Hin.
  apply find_optimal_plan_some in H
    as (all_selected & distribution & builder & _ & _ & Hpop & -> & Hcount & _).
  pose proof (populate_caps _ _ _ Hpop) as Hcaps.
  assert (Hentry : In (slot, (min_count, max_count)) (_slot_caps builder)).
  { apply dict_get_In. rewrite Hcaps. apply caps_fold_get; assumption. }
  change (PlanMoreSpec.plan_slot (BuilderSpec.plan_of builder) slot)
    with (_get_slot_items builder slot).
  destruct (Z.lt_ge_cases (Z.of_nat (length (_get_slot_items builder slot))) min_count)
    as [Hlow|Hlow].
  { exfalso. apply Hcount. exists slot, min_count, max_count. split; [exact Hentry | lia]. }
  destruct (Z.lt_ge_cases max_count (Z.of_nat (length (_get_slot_items builder slot))))
    as [Hhigh|Hhigh].
  { exfalso. apply Hcount. exists slot, min_count, max_count. split; [exact Hentry | lia]. }
  lia.
Qed.

End OrchestrationMoreFacts.

(** X15. A plan returned by [find_optimal_plan] meets the constraints it was
    asked for: the item count of every configured slot lies within the
    slot's [min, max] (a configured name that is not one of the four slots
    counting 0 items), and for every entry of the limits the plan's total of
    that nutrient is not below the minimum and not above the maximum. *)
Theorem returned_plan_meets_constraints :
  forall (sort : list (Q * FoodItem) -> list (Q * FoodItem))
         (foods : list FoodItem) (targets : dict (option Q))
         (limits : dict (option Q * option Q)) (weights : dict Q)
         (slot_caps : dict (Z * Z)) (plan : MealPlan),
    List.NoDup (map fst slot_caps) ->
    find_optimal_plan sort foods targets limits weights slot_caps = Some plan ->
    (forall slot min_count max_count,
        In (slot, (min_count, max_count)) slot_caps ->
        (min_count <= Z.of_nat (length (PlanMoreSpec.plan_slot plan slot))
         <= max_count)%Z) /\
    (forall nutrient min_val max_val,
        In (nutrient, (min_val, max_val)) limits ->
        PlanMoreSpec.within_bound plan nutrient min_val max_val).
Proof.
  intros sort foods targets limits weights slot_caps plan Hnodup H. split.
  - eapply OrchestrationMoreFacts.returned_plan_counts; eassumption.
  - intros nutrient min_val max_val Hin.
    apply OrchestrationMoreFacts.find_optimal_plan_some in H
      as (all_selected & distribution & builder & _ & _ & _ & -> & _ & Hbound).
    unfold PlanMoreSpec.within_bound, TotalsSpec.total. split.
    + intros m ->. apply Qnot_lt_le. intros Hlt. apply Hbound.
      exists limits, nutrient, (Some m), max_val.
      split; [reflexivity|]. split; [exact Hin|].
      left. exists m. split; [reflexivity | exact Hlt].
    + intros m ->. apply Qnot_lt_le. intros Hlt. apply Hbound.
      exists limits, nutrient, min_val, (Some m).
      split; [reflexivity|]. split; [exact Hin|].
      right. exists m. split; [reflexivity | exact Hlt].
Qed.

(** Oats, soup and stew under a calorie bound of (800, 1000): the plan has
    one item per meal and 900 kcal. *)
Lemma returned_plan_meets_constraints_witness :
  (1 <= Z.of_nat (length (PlanMoreSpec.plan_slot
                           (mkMealPlan [oats] [soup] [stew] []) "lunch")) <= 3)%Z /\
  PlanMoreSpec.within_bound (mkMealPlan [oats] [soup] [stew] []) "calories"
    (Some 800%Q) (Some 1000%Q).
Proof.
  destruct (returned_plan_meets_constraints stable_sort_desc [oats; soup; stew]
              [] [("calories", (Some 800%Q, Some 1000%Q))] [] default_slot_caps
              (mkMealPlan [oats] [soup] [stew] [])) as [Hcount Hbound].
  - repeat constructor; simpl; intuition discriminate.
  - vm_compute. reflexivity.
  - split.
    + apply (Hcount "lunch" 1%Z 3%Z). simpl. tauto.
    + apply (Hbound "calories" (Some 800%Q) (Some 1000%Q)). left. reflexivity.
Defined.

Module SelectionFacts.
Import MealOptimizer.

Lemma fold_set_get {V : Type} (f : string -> V) (keys : list string) :
  forall (d : dict V) (s : string) (v : V),
    dict_get (fold_left (fun d k => dict_set d k (f k)) keys d) s = Some v ->
    (In s keys /\ v = f s) \/ dict_get d s = Some v.
Proof.
  induction keys as [|k keys IH]; simpl; intros d s v H; [right; exact H|].
  destruct (IH _ _ _ H) as [[Hin Hv] | Hget].
  - left. split; [right; exact Hin | exact Hv].
  - rewrite dict_get_set in Hget.
    destruct (String.eqb_spec k s) as [->|_].
    + injection Hget as <-. left. split; [left; reflexivity | reflexivity].
    + right. exact Hget.
Qed.

(** The entry of [slot_foods] for a slot is the catalog filtered by that
    slot, and only configured slots have one. *)
Lemma slot_foods_get (foods : list FoodItem) (slot_caps : dict (Z * Z))
    (slot : string) (items : list FoodItem) :
  dict_get (slot_foods_of foods slot_caps) slot = Some items ->
  In slot (map fst slot_caps) /\
  items = filter_items foods [by_meal_time slot].
Proof.
  unfold slot_foods_of. intros H.
  apply (fold_set_get (fun slot => filter_items foods [by_meal_time slot])) in H
    as [H | H]; [exact H | discriminate].
Qed.

Section WithSort.

Variable sort : list (Q * FoodItem) -> list (Q * FoodItem).

Lemma select_with_targets_keys slot_foods daily_targets limits weights slot_caps
    shares :
  forall all_selected result,
    select_with_targets sort slot_foods daily_targets limits weights slot_caps
      shares all_selected = Ok result ->
    forall share, In share shares ->
      exists items, dict_get slot_foods (fst share) = Some items.
Proof.
  induction shares as [|[slot percentage] rest IH]; simpl;
    intros all_selected result H share Hin; [destruct Hin|].
  apply bind_ok in H as (slot_items & Hitems & H).
  apply dict_index_ok in Hitems.
  destruct Hin as [<- | Hin]; [exists slot_items; exact Hitems|].
  destruct slot_items as [|food items]; [exact (IH _ _ H share Hin)|].
  apply bind_ok in H as (cap & _ & H).
  apply bind_ok in H as (selected & _ & H).
  exact (IH _ _ H share Hin).
Qed.

Lemma select_without_targets_keys slot_foods slot_caps slots :
  forall all_selected result,
    select_without_targets slot_foods slot_caps slots all_selected = Ok result ->
    forall slot, In slot slots ->
      exists items, dict_get slot_foods slot = Some items.
Proof.
  induction slots as [|slot0 rest IH]; simpl;
    intros all_selected result H slot Hin; [destruct Hin|].
  apply bind_ok in H as (slot_items & Hitems & H).
  apply dict_index_ok in Hitems.
  destruct Hin as [<- | Hin]; [exists slot_items; exact Hitems|].
  destruct slot_items as [|food items]; [exact (IH _ _ H slot Hin)|].
  apply bind_ok in H as (cap & _ & H).
  exact (IH _ _ H slot Hin).
Qed.

(** The selection completes only when the four slots are configured. *)
Lemma select_all_needs_slots foods targets limits weights slot_caps all_selected :
  select_all sort foods targets limits weights slot_caps = Ok all_selected ->
  forall slot, In slot slot_order -> In slot (map fst slot_caps).
Proof.
  unfold select_all. intros H slot Hslot.
  destruct (dict_truthy (daily_targets_of targets)).
  - assert (Hshare : exists share, In share slot_distribution /\ fst share = slot).
    { unfold slot_distribution. simpl in Hslot |- *.
      destruct Hslot as [<- | [<- | [<- | [<- | []]]]];
        [exists ("breakfast", (25 # 100)%Q) | exists ("lunch", (35 # 100)%Q)
        | exists ("dinner", (30 # 100)%Q) | exists ("snack", (10 # 100)%Q)];
        (split; [simpl; tauto | reflexivity]). }
    destruct Hshare as (share & Hin & <-).
    destruct (select_with_targets_keys _ _ _ _ _ _ _ _ H share Hin) as (items & Hget).
    exact (proj1 (slot_foods_get _ _ _ _ Hget)).
  - destruct (select_without_targets_keys _ _ _ _ _ H slot Hslot) as (items & Hget).
    exact (proj1 (slot_foods_get _ _ _ _ Hget)).
Qed.

End WithSort.

End SelectionFacts.

(** X16. [find_optimal_plan] returns [None] whenever the capacity map leaves
    out one of the four slots breakfast, lunch, dinner, snack, whatever the
    catalog and the other parameters are. *)
Theorem missing_slot_gives_no_plan :
  forall (sort : list (Q * FoodItem) -> list (Q * FoodItem))
         (foods : list FoodItem) (targets : dict (option Q))
         (limits : dict (option Q * option Q)) (weights : dict Q)
         (slot_caps : dict (Z * Z)) (slot : string),
    In slot MealOptimizer.slot_order ->
    dict_get slot_caps slot = None ->
    find_optimal_plan sort foods targets limits weights slot_caps = None.
Proof.
  intros sort foods targets limits weights slot_caps slot Hslot Hmissing.
  unfold find_optimal_plan, find_optimal_plan_try.
  destruct (select_all sort foods targets limits weights slot_caps)
    as [all_selected|e] eqn:Hsel; [|reflexivity].
  exfalso.
  pose proof (SelectionFacts.select_all_needs_slots sort _ _ _ _ _ _ Hsel slot Hslot)
    as Hin.
  apply OrchestrationMoreFacts.in_keys_get in Hin as (cap & Hcap). congruence.
Qed.

(** Capacities for three meals and no snack entry. *)
Lemma missing_slot_gives_no_plan_witness :
  find_optimal_plan stable_sort_desc [oats; soup; stew] [] [] []
    [("breakfast", (1, 2)%Z); ("lunch", (1, 3)%Z); ("dinner", (1, 3)%Z)]
  = None.
Proof.
  apply (missing_slot_gives_no_plan stable_sort_desc [oats; soup; stew] [] [] []
           [("breakfast", (1, 2)%Z); ("lunch", (1, 3)%Z); ("dinner", (1, 3)%Z)]
           "snack").
  - simpl. tauto.
  - reflexivity.
Defined.

(** X17. A capacity entry for a name that is not one of the four slots
    counts 0 items: with a minimum of at least 1 on such a name,
    [find_optimal_plan] never returns a plan. *)
Theorem unknown_slot_minimum_gives_no_plan :
  forall (sort : list (Q * FoodItem) -> list (Q * FoodItem))
         (foods : list FoodItem) (targets : dict (option Q))
         (limits : dict (option Q * option Q)) (weights : dict Q)
         (slot_caps : dict (Z * Z)) (slot : string) (min_count max_count : Z),
    List.NoDup (map fst slot_caps) ->
    In (slot, (min_count, max_count)) slot_caps ->
    ~ In slot MealOptimizer.slot_order ->
    (1 <= min_count)%Z ->
    find_optimal_plan sort foods targets limits weights slot_caps = None.
Proof.
  intros sort foods targets limits weights slot_caps slot min_count max_count
         Hnodup Hin Hunknown Hmin.
  destruct (find_optimal_plan sort foods targets limits weights slot_caps)
    as [plan|] eqn:Hplan; [|reflexivity].
  exfalso.
  pose proof (OrchestrationMoreFacts.returned_plan_counts _ _ _ _ _ _ _ Hnodup Hplan
                slot min_count max_count Hin) as Hcount.
  assert (Hempty : PlanMoreSpec.plan_slot plan slot = []).
  { unfold PlanMoreSpec.plan_slot.
    repeat match goal with
           | |- context [String.eqb slot ?k] =>
               destruct (String.eqb_spec slot k) as [->|_];
               [exfalso; apply Hunknown; simpl; tauto|]
           end.
    reflexivity. }
  rewrite Hempty in Hcount. simpl in Hcount. lia.
Qed.

(** The default capacities with a "brunch" entry that asks for one item. *)
Lemma unknown_slot_minimum_gives_no_plan_witness :
  find_optimal_plan stable_sort_desc [oats; soup; stew; brunch_bowl] [] [] []
    (default_slot_caps ++ [("brunch", (1, 2)%Z)])
  = None.
Proof.
  apply (unknown_slot_minimum_gives_no_plan stable_sort_desc
           [oats; soup; stew; brunch_bowl] [] [] []
           (default_slot_caps ++ [("brunch", (1, 2)%Z)]) "brunch" 1%Z 2%Z).
  - repeat constructor; simpl; intuition discriminate.
  - simpl. tauto.
  - simpl. intuition discriminate.
  - lia.
Defined.

Module ProvenanceFacts.
Import MealOptimizer.

Lemma firstn_In {A : Type} (n : nat) (l : list A) (x : A) :
  In x (firstn n l) -> In x l.
Proof.
  revert l. induction n as [|n IH]; intros [|y l]; simpl; try tauto.
  intros [H | H]; [left; exact H | right; exact (IH _ H)].
Qed.

Lemma slice_to_In {A : Type} (l : list A) (n : Z) (x : A) :
  In x (slice_to l n) -> In x l.
Proof.
  unfold slice_to. destruct (0 <=? n)%Z; apply firstn_In.
Qed.

Lemma filter_items_In (foods : list FoodItem) (predicates : list Predicate)
    (food : FoodItem) :
  In food (filter_items foods predicates) -> In food foods.
Proof. unfold filter_items. intros H. apply filter_In in H. tauto. Qed.

Section WithSort.

Variable sort : list (Q * FoodItem) -> list (Q * FoodItem).
Hypothesis sort_contract : stable_desc_sort sort.

Lemma knapsack_In foods targets limits weights max_items selected food :
  knapsack_optimize sort foods targets limits weights max_items = Ok selected ->
  In food selected -> In food foods.
Proof.
  unfold knapsack_optimize. intros H Hfood.
  destruct (negb (dict_truthy targets) || match foods with [] => true | _ => false end).
  - injection H as <-. destruct Hfood.
  - apply SelectorMoreFacts.select_loop_sublist in H as (accepted & -> & Hsub).
    cbn [app] in Hfood.
    apply (SelectorMoreFacts.sublist_In _ _ _ Hsub) in Hfood.
    apply in_map_iff in Hfood as (p & <- & Hp).
    apply (Permutation_in _ (Permutation_sym (sort_perm _ sort_contract _))) in Hp.
    rewrite <- (SelectorMoreFacts.score_items_foods foods targets weights).
    apply in_map. exact Hp.
Qed.

Lemma select_with_targets_In foods caps daily_targets limits weights shares :
  forall all_selected result,
    select_with_targets sort (slot_foods_of foods caps) daily_targets limits weights
      caps shares all_selected = Ok result ->
    forall food, In food result -> In food all_selected \/ In food foods.
Proof.
  induction shares as [|[slot percentage] rest IH]; simpl;
    intros all_selected result H food Hfood.
  - injection H as <-. left. exact Hfood.
  - apply bind_ok in H as (slot_items & Hitems & H).
    apply dict_index_ok in Hitems.
    apply SelectionFacts.slot_foods_get in Hitems as [_ Hitems].
    destruct slot_items as [|item items]; [exact (IH _ _ H food Hfood)|].
    apply bind_ok in H as (cap & _ & H).
    apply bind_ok in H as (selected & Hknap & H).
    destruct (IH _ _ H food Hfood) as [Hacc | Hcat]; [|right; exact Hcat].
    apply in_app_or in Hacc as [Hacc | Hnew]; [left; exact Hacc|].
    right. apply slice_to_In in Hnew.
    apply (knapsack_In _ _ _ _ _ _ _ Hknap) in Hnew.
    rewrite Hitems in Hnew. eapply filter_items_In. exact Hnew.
Qed.

Lemma select_without_targets_In foods caps slots :
  forall all_selected result,
    select_without_targets (slot_foods_of foods caps) caps slots all_selected
    = Ok result ->
    forall food, In food result -> In food all_selected \/ In food foods.
Proof.
  induction slots as [|slot rest IH]; simpl; intros all_selected result H food Hfood.
  - injection H as <-. left. exact Hfood.
  - apply bind_ok in H as (slot_items & Hitems & H).
    apply dict_index_ok in Hitems.
    apply SelectionFacts.slot_foods_get in Hitems as [_ Hitems].
    destruct slot_items as [|item items]; [exact (IH _ _ H food Hfood)|].
    apply bind_ok in H as (cap & _ & H).
    destruct (IH _ _ H food Hfood) as [Hacc | Hcat]; [|right; exact Hcat].
    apply in_app_or in Hacc as [Hacc | Hnew]; [left; exact Hacc|].
    right. apply slice_to_In in Hnew.
    rewrite Hitems in Hnew. eapply filter_items_In. exact Hnew.
Qed.

(** Everything that is selected is a record of the catalog. *)
Lemma select_all_In foods targets limits weights caps all_selected food :
  select_all sort foods targets limits weights caps = Ok all_selected ->
  In food all_selected -> In food foods.
Proof.
  unfold select_all. intros H Hfood.
  destruct (dict_truthy (daily_targets_of targets)).
  - destruct (select_with_targets_In _ _ _ _ _ _ _ _ H food Hfood) as [[] | Hin].
    exact Hin.
  - destruct (select_without_targets_In _ _ _ _ _ H food Hfood) as [[] | Hin].
    exact Hin.
Qed.

End WithSort.

(** Every list of the distribution is taken, in order, from the input. *)
Lemma distribute_slot_items (foods : list FoodItem) (slot_caps : dict (Z * Z))
    (distribution : dict (list FoodItem)) (slot : string) :
  distribute_to_slots foods slot_caps = Ok distribution ->
  sublist (AllocatorMoreSpec.slot_items distribution slot) foods.
Proof.
  unfold distribute_to_slots, AllocatorMoreSpec.slot_items, dict_get_default.
  intros H.
  destruct (dict_get distribution slot) as [items|] eqn:Hget; [|apply sublist_nil_l].
  destruct (AllocatorMoreFacts.place_foods_extends _ _ _ _ H slot items Hget)
    as (items0 & added & Hget0 & -> & Hsub).
  assert (items0 = []) as ->; [|exact Hsub].
  unfold empty_distribution in Hget0.
  eapply AllocatorFacts.all_empty_fold; [|exact Hget0]. intros ? ? Hs. discriminate.
Qed.

End ProvenanceFacts.

(** X18. A returned plan holds records of the catalog only: every food of
    every slot list of a plan returned by [find_optimal_plan] is a record of
    the catalog it was given. *)
Theorem returned_plan_comes_from_catalog :
  forall (sort : list (Q * FoodItem) -> list (Q * FoodItem))
         (foods : list FoodItem) (targets : dict (option Q))
         (limits : dict (option Q * option Q)) (weights : dict Q)
         (slot_caps : dict (Z * Z)) (plan : MealPlan),
    stable_desc_sort sort ->
    find_optimal_plan sort foods targets limits weights slot_caps = Some plan ->
    forall food, In food (all_items plan) -> In food foods.
Proof.
  intros sort foods targets limits weights slot_caps plan Hsort H food Hfood.
  apply OrchestrationMoreFacts.find_optimal_plan_some in H
    as (all_selected & distribution & builder & Hsel & Hdist & Hpop & -> & _ & _).
  pose proof (OrchestrationFacts.populate_ok _ _ _ Hpop) as Hslots.
  apply (ProvenanceFacts.select_all_In sort Hsort _ _ _ _ _ _ _ Hsel).
  assert (Hfrom : forall s, In s MealOptimizer.slot_order ->
                    In food (MealPlanBuilder._get_slot_items builder s) ->
                    In food all_selected).
  { intros s Hs Hin. rewrite (proj1 (Hslots s Hs)) in Hin.
    eapply SelectorMoreFacts.sublist_In;
      [exact (ProvenanceFacts.distribute_slot_items _ _ _ s Hdist) | exact Hin]. }
  unfold all_items, BuilderSpec.plan_of in Hfood. cbn [breakfast lunch dinner snacks] in Hfood.
  apply in_app_or in Hfood as [Hf | Hfood];
    [apply (Hfrom "breakfast"); [simpl; tauto | exact Hf]|].
  apply in_app_or in Hfood as [Hf | Hfood];
    [apply (Hfrom "lunch"); [simpl; tauto | exact Hf]|].
  apply in_app_or in Hfood as [Hf | Hf].
  - apply (Hfrom "dinner"); [simpl; tauto | exact Hf].
  - apply (Hfrom "snack"); [simpl; tauto | exact Hf].
Qed.

(** The stew of a returned plan is the stew of the catalog. *)
Lemma returned_plan_comes_from_catalog_witness :
  In stew [oats; soup; stew].
Proof.
  apply (returned_plan_comes_from_catalog stable_sort_desc [oats; soup; stew]
           [("calories", Some 900%Q)] [] [] default_slot_caps
           (mkMealPlan [oats] [soup] [stew] [])
           SortFacts.stable_sort_desc_contract).
  - vm_compute. reflexivity.
  - simpl. tauto.
Defined.

(** ** Catalog ingestion, continued *)

Module IngestionMoreFacts.
Import IngestionMoreSpec.

Section WithFloat.

Variable py_float : string -> option Q.



(** A row without a [meal_times] column gives a record for all four slots,
    a row without a [tags] column a record without tags. *)
Lemma parse_row_defaults (row : csv_row) (food : FoodItem) :
  parse_row py_float row = Ok food ->
  (dict_get row "meal_times" = None -> meal_times food = all_slots) /\
  (dict_get row "tags" = None -> tags food = ∅).
Proof.
  unfold parse_row. intros H.
  apply bind_ok in H as (_ & _ & H).
  apply bind_ok in H as (nm & _ & H).
  apply bind_ok in H as (c & _ & H).
  apply bind_ok in H as (p & _ & H).
  apply bind_ok in H as (f & _ & H).
  apply bind_ok in H as (cb & _ & H).
  apply bind_ok in H as (mt & Hmt & H).
  apply bind_ok in H as (tg & Htg & H).
  injection H as <-. cbn [meal_times tags]. unfold set_field in *. split.
  - intros Hnone. rewrite Hnone in Hmt. injection Hmt as <-. reflexivity.
  - intros Hnone. rewrite Hnone in Htg. injection Htg as <-. reflexivity.
Qed.

Lemma parsed_records_In (rows : list csv_row) (food : FoodItem) :
  In food (parsed_records py_float rows) ->
  exists row, In row rows /\ parse_row py_float row = Ok food.
Proof.
  unfold parsed_records. intros H. apply in_flat_map in H as (row & Hrow & Hfood).
  exists row. split; [exact Hrow|].
  destruct (parse_row py_float row) as [food'|e]; [|destruct Hfood].
  destruct Hfood as [<- | []]. reflexivity.
Qed.

End WithFloat.

Lemma parsed_records_length (py_float : string -> option Q) (rows : list csv_row) :
  (length (parsed_records py_float rows) <= length rows)%nat.
Proof.
  induction rows as [|row rest IH]; simpl; [lia|].
  rewrite length_app.
  destruct (parse_row py_float row); simpl; lia.
Qed.

End IngestionMoreFacts.



(** X20. A catalog loaded from rows that have no [meal_times] column is
    eligible everywhere: every record has the four slots as its meal times,
    so filtering the catalog by any of the four slots keeps all of it. *)
Theorem catalog_without_meal_times_is_eligible_everywhere :
  forall (py_float : string -> option Q) (rows : list csv_row),
    (forall row, In row rows -> dict_get row "meal_times" = None) ->
    (forall food, In food (load_foods py_float (Some rows)) ->
                  meal_times food = IngestionMoreSpec.all_slots) /\
    (forall slot, In slot MealOptimizer.slot_order ->
       filter_items (load_foods py_float (Some rows)) [by_meal_time slot]
       = load_foods py_float (Some rows)).
Proof.
  intros py_float rows Hrows.
  assert (Hall : forall food, In food (load_foods py_float (Some rows)) ->
                   meal_times food = IngestionMoreSpec.all_slots).
  { intros food Hfood. unfold load_foods in Hfood.
    destruct (load_rows py_float rows []) as [foods|e] eqn:E; [|destruct Hfood].
    destruct (IngestionFacts.load_rows_origin py_float rows [] foods E food Hfood)
      as [[] | (row & Hin & Hrow)].
    exact (proj1 (IngestionMoreFacts.parse_row_defaults py_float row food Hrow)
             (Hrows row Hin)). }
  split; [exact Hall|].
  intros slot Hslot. unfold filter_items.
  induction (load_foods py_float (Some rows)) as [|food foods IH]; [reflexivity|].
  cbn [List.filter forallb by_meal_time].
  assert (Hmem : set_mem slot (meal_times food) = true).
  { rewrite (Hall food (or_introl eq_refl)). simpl in Hslot.
    destruct Hslot as [<- | [<- | [<- | [<- | []]]]]; vm_compute; reflexivity. }
  unfold by_meal_time at 1. rewrite Hmem. cbn [andb]. f_equal.
  apply IH. intros f Hf. apply Hall. right. exact Hf.
Qed.

(** The tonic row has no [meal_times] column: its record stays in the
    filter for dinner. *)
Lemma catalog_without_meal_times_is_eligible_everywhere_witness :
  filter_items (load_foods float_of_decimal (Some [tonic_row]))
    [by_meal_time "dinner"]
  = load_foods float_of_decimal (Some [tonic_row]).
Proof.
  apply (proj2 (catalog_without_meal_times_is_eligible_everywhere
                  float_of_decimal [tonic_row]
                  ltac:(intros row [<- | []]; reflexivity))).
  simpl. tauto.
Defined.

(** ** The first planner, [meal_planner.py] *)

Module MealPlannerFacts.
Import meal_planner.

Lemma combinations_sound {A : Type} (l : list A) :
  forall r c, In c (combinations l r) -> sublist c l /\ length c = r.
Proof.
  induction l as [|x rest IH]; intros [|r] c Hin; simpl in Hin.
  - destruct Hin as [<- | []]. split; [constructor | reflexivity].
  - destruct Hin.
  - destruct Hin as [<- | []]. split; [apply sublist_nil_l | reflexivity].
  - apply in_app_or in Hin as [Hin | Hin].
    + apply in_map_iff in Hin as (c' & <- & Hc').
      destruct (IH r c' Hc') as [Hsub Hlen].
      split; [apply sublist_skip; exact Hsub | simpl; rewrite Hlen; reflexivity].
    + destruct (IH (S r) c Hin) as [Hsub Hlen].
      split; [apply sublist_cons; exact Hsub | exact Hlen].
Qed.

Lemma combinations_complete {A : Type} (c l : list A) :
  sublist c l -> In c (combinations l (length c)).
Proof.
  induction 1 as [|x c l Hsub IH|x c l Hsub IH].
  - left. reflexivity.
  - simpl. apply in_or_app. left. apply in_map. exact IH.
  - destruct c as [|y c].
    + left. reflexivity.
    + cbn [length combinations]. apply in_or_app. right. exact IH.
Qed.

Lemma in_sizes (max_items : Z) (r : nat) :
  In r (sizes max_items) <-> (2 <= r)%nat /\ (Z.of_nat r <= max_items)%Z.
Proof.
  unfold sizes. rewrite in_seq. lia.
Qed.

Lemma in_visited (food_items : list FoodItem) (max_items : Z)
    (c : list FoodItem) :
  In c (visited food_items max_items) <-> candidate food_items max_items c.
Proof.
  unfold visited, candidate. rewrite in_flat_map. split.
  - intros (r & Hr & Hc). apply in_sizes in Hr.
    apply combinations_sound in Hc as [Hsub <-]. tauto.
  - intros (Hsub & Hlen). exists (length c). split.
    + apply in_sizes. exact Hlen.
    + apply combinations_complete. exact Hsub.
Qed.

Lemma fold_flat_map {A B S : Type} (f : S -> B -> S) (g : A -> list B)
    (l : list A) :
  forall s, fold_left (fun s a => fold_left f (g a) s) l s
            = fold_left f (flat_map g l) s.
Proof.
  induction l as [|a l IH]; intros s; simpl; [reflexivity|].
  rewrite fold_left_app. apply IH.
Qed.

Lemma consider_first_best (target : Z) (seen : list (list FoodItem))
    (state : option (list FoodItem) * distance) (combo : list FoodItem) :
  first_best target seen state ->
  first_best target (seen ++ [combo]) (consider target state combo).
Proof.
  intros [[-> ->] | (best & before & after & -> & -> & Hbefore & Hafter)].
  - right. exists combo, [], []. unfold consider. simpl.
    split; [reflexivity|]. split; [reflexivity|].
    split; intros c [].
  - right. unfold consider. cbn [snd lt_distance].
    fold (miss target combo).
    destruct (Z.ltb_spec (miss target combo) (miss target best)) as [Hlt | Hge].
    + exists combo, (before ++ best :: after), [].
      split; [reflexivity|]. split; [reflexivity|]. split; [|intros c []].
      intros c Hc. apply in_app_or in Hc as [Hc | [<- | Hc]].
      * specialize (Hbefore c Hc). lia.
      * exact Hlt.
      * specialize (Hafter c Hc). lia.
    + exists best, before, (after ++ [combo]).
      split; [reflexivity|]. split; [rewrite <- app_assoc; reflexivity|].
      split; [exact Hbefore|].
      intros c Hc. apply in_app_or in Hc as [Hc | [<- | []]].
      * exact (Hafter c Hc).
      * exact Hge.
Qed.

Lemma fold_consider_first_best (target : Z) (todo : list (list FoodItem)) :
  forall seen state,
    first_best target seen state ->
    first_best target (seen ++ todo) (fold_left (consider target) todo state).
Proof.
  induction todo as [|combo todo IH]; intros seen state H; simpl.
  - rewrite app_nil_r. exact H.
  - replace (seen ++ combo :: todo) with ((seen ++ [combo]) ++ todo)
      by (rewrite <- app_assoc; reflexivity).
    apply IH. apply consider_first_best. exact H.
Qed.

(** The search ends in the first combination of the visiting order with the
    least miss, or in nothing when no combination is visited. *)
Lemma search_first_best (food_items : list FoodItem) (target max_items : Z) :
  first_best target (visited food_items max_items)
    (fold_left
       (fun state r =>
          fold_left (consider target) (combinations food_items r) state)
       (sizes max_items) (None, Inf)).
Proof.
  rewrite fold_flat_map.
  apply (fold_consider_first_best target (visited food_items max_items) []).
  left. split; reflexivity.
Qed.

Lemma generate_plan_some (food_items : list FoodItem) (target max_items : Z)
    (plan : MealPlan) :
  generate_plan food_items target max_items = Some plan ->
  exists before after,
    visited food_items max_items = before ++ items plan :: after /\
    (forall c, In c before -> (miss target (items plan) < miss target c)%Z) /\
    (forall c, In c after -> (miss target (items plan) <= miss target c)%Z).
Proof.
  unfold generate_plan. intros H.
  destruct (search_first_best food_items target max_items)
    as [[_ E] | (best & before & after & E & Hseen & Hbefore & Hafter)];
    rewrite E in H; cbn [fst] in H; [discriminate|].
  destruct best as [|x best]; [discriminate|].
  injection H as <-. cbn [items]. eauto.
Qed.

Lemma lengths_sorted_app {A : Type} (l1 l2 : list (list A)) :
  StronglySorted (fun a b => (length a <= length b)%nat) l1 ->
  StronglySorted (fun a b => (length a <= length b)%nat) l2 ->
  (forall a b, In a l1 -> In b l2 -> (length a <= length b)%nat) ->
  StronglySorted (fun a b => (length a <= length b)%nat) (l1 ++ l2).
Proof.
  induction l1 as [|a l1 IH]; intros H1 H2 H12; simpl; [exact H2|].
  apply StronglySorted_inv in H1 as [H1 Ha].
  constructor.
  - apply IH; [exact H1 | exact H2 |].
    intros x y Hx Hy. apply H12; [right; exact Hx | exact Hy].
  - apply List.Forall_forall. intros b Hb. apply in_app_or in Hb as [Hb | Hb].
    + exact (proj1 (List.Forall_forall _ _) Ha b Hb).
    + apply H12; [left; reflexivity | exact Hb].
Qed.

Lemma same_length_sorted {A : Type} (n : nat) (l : list (list A)) :
  (forall c, In c l -> length c = n) ->
  StronglySorted (fun a b => (length a <= length b)%nat) l.
Proof.
  induction l as [|a l IH]; intros H; constructor.
  - apply IH. intros c Hc. apply H. right. exact Hc.
  - apply List.Forall_forall. intros b Hb.
    rewrite (H a (or_introl eq_refl)), (H b (or_intror Hb)). lia.
Qed.

Lemma combinations_sorted {A : Type} (l : list A) (n : nat) :
  forall a, StronglySorted (fun x y => (length x <= length y)%nat)
              (flat_map (combinations l) (seq a n)).
Proof.
  induction n as [|n IH]; intros a; simpl; [constructor|].
  apply lengths_sorted_app.
  - apply (same_length_sorted a). intros c Hc.
    exact (proj2 (combinations_sound l a c Hc)).
  - apply IH.
  - intros x y Hx Hy.
    apply combinations_sound in Hx as [_ Hx].
    apply in_flat_map in Hy as (r & Hr & Hy).
    apply combinations_sound in Hy as [_ Hy].
    apply in_seq in Hr. lia.
Qed.

Lemma sorted_after {A : Type} (R : A -> A -> Prop) (before after : list A)
    (x : A) :
  StronglySorted R (before ++ x :: after) -> Forall (R x) after.
Proof.
  induction before as [|b before IH]; simpl; intros H;
    apply StronglySorted_inv in H as [H Hb]; [exact Hb | exact (IH H)].
Qed.

Lemma load_loop_acc (py_int : string -> option Z) (py_float : string -> option Q)
    (rows : list csv_row) :
  forall food_items,
    load_loop py_int py_float rows food_items
    = food_items ++ load_loop py_int py_float rows [].
Proof.
  induction rows as [|row rest IH]; intros food_items; simpl.
  - rewrite app_nil_r. reflexivity.
  - destruct (read_row py_int py_float row) as [food|e].
    + rewrite (IH (food_items ++ [food])), (IH [food]), <- app_assoc. reflexivity.
    + rewrite app_nil_r. reflexivity.
Qed.

End MealPlannerFacts.

(** X21. When [generate_plan] of [meal_planner.py] returns a plan, its
    items are a subsequence of the catalog with at least two and at most
    [max_items] items, and no such subsequence has calories closer to the
    target. *)
Theorem generate_plan_is_closest :
  forall (food_items : list meal_planner.FoodItem) (target_calories max_items : Z)
         (plan : meal_planner.MealPlan),
    meal_planner.generate_plan food_items target_calories max_items = Some plan ->
    meal_planner.candidate food_items max_items (meal_planner.items plan) /\
    forall combo,
      meal_planner.candidate food_items max_items combo ->
      (Z.abs (target_calories - meal_planner.total_calories plan)
       <= Z.abs (target_calories
                 - sumZ (map meal_planner.calories combo)))%Z.
Proof.
  intros food_items target max_items plan H.
  apply MealPlannerFacts.generate_plan_some in H
    as (before & after & Hseen & Hbefore & Hafter).
  split.
  - apply MealPlannerFacts.in_visited. rewrite Hseen.
    apply in_or_app. right. left. reflexivity.
  - intros combo Hcombo. apply MealPlannerFacts.in_visited in Hcombo.
    rewrite Hseen in Hcombo.
    change (meal_planner.miss target (meal_planner.items plan)
            <= meal_planner.miss target combo)%Z.
    apply in_app_or in Hcombo as [Hc | [<- | Hc]].
    + specialize (Hbefore combo Hc). lia.
    + lia.
    + exact (Hafter combo Hc).
Qed.

(** For bread, cheese and pasta (100, 200 and 300 kcal) and a target of 450
    the plan is no further from it than cheese with pasta. *)
Lemma generate_plan_is_closest_witness :
  exists plan,
    meal_planner.generate_plan
      [meal_planner.bread; meal_planner.cheese; meal_planner.pasta] 450 5
    = Some plan /\
    (Z.abs (450 - meal_planner.total_calories plan)
     <= Z.abs (450 - sumZ (map meal_planner.calories
                             [meal_planner.cheese; meal_planner.pasta])))%Z.
Proof.
  eexists. split; [vm_compute; reflexivity|].
  apply (generate_plan_is_closest
           [meal_planner.bread; meal_planner.cheese; meal_planner.pasta] 450 5).
  - vm_compute. reflexivity.
  - split; [|simpl; lia].
    apply sublist_cons. apply sublist_skip. apply sublist_skip. constructor.
Defined.

(** X22. [generate_plan] returns [None] exactly when the catalog has fewer
    than two items or [max_items] is below two; a target that is far from
    every combination never makes it give up. *)
Theorem generate_plan_none_iff :
  forall (food_items : list meal_planner.FoodItem) (target_calories max_items : Z),
    meal_planner.generate_plan food_items target_calories max_items = None <->
    (length food_items < 2)%nat \/ (max_items < 2)%Z.
Proof.
  intros food_items target max_items.
  unfold meal_planner.generate_plan.
  destruct (MealPlannerFacts.search_first_best food_items target max_items)
    as [[Hseen E] | (best & before & after & E & Hseen & _)]; rewrite E; cbn [fst].
  - split; [intros _ | reflexivity].
    destruct (Nat.lt_ge_cases (length food_items) 2) as [Hlt | Hge]; [left; exact Hlt|].
    destruct (Z.lt_ge_cases max_items 2) as [Hm | Hm]; [right; exact Hm|].
    exfalso.
    assert (Hin : In (firstn 2 food_items)
                    (meal_planner.visited food_items max_items)).
    { apply MealPlannerFacts.in_visited. split; [apply sublist_take|].
      rewrite length_firstn. lia. }
    rewrite Hseen in Hin. destruct Hin.
  - assert (Hin : meal_planner.candidate food_items max_items best).
    { apply MealPlannerFacts.in_visited. rewrite Hseen.
      apply in_or_app. right. left. reflexivity. }
    destruct Hin as (Hsub & Hlen & Hmax).
    apply sublist_length in Hsub.
    destruct best as [|x best]; [simpl in Hlen; lia|].
    split; [discriminate | lia].
Qed.

(** X23. Among the combinations that are equally close to the target,
    [generate_plan] returns one with the fewest items: the sizes are
    visited in increasing order and only a strictly smaller difference
    replaces the best plan. *)
Theorem generate_plan_prefers_fewer_items :
  forall (food_items : list meal_planner.FoodItem) (target_calories max_items : Z)
         (plan : meal_planner.MealPlan) (combo : list meal_planner.FoodItem),
    meal_planner.generate_plan food_items target_calories max_items = Some plan ->
    meal_planner.candidate food_items max_items combo ->
    meal_planner.miss target_calories combo
    = meal_planner.miss target_calories (meal_planner.items plan) ->
    (length (meal_planner.items plan) <= length combo)%nat.
Proof.
  intros food_items target max_items plan combo H Hcombo Hmiss.
  apply MealPlannerFacts.generate_plan_some in H
    as (before & after & Hseen & Hbefore & _).
  apply MealPlannerFacts.in_visited in Hcombo.
  pose proof (MealPlannerFacts.combinations_sorted food_items
                (Z.to_nat (max_items + 1) - 2) 2) as Hsorted.
  fold (meal_planner.sizes max_items) in Hsorted.
  fold (meal_planner.visited food_items max_items) in Hsorted.
  rewrite Hseen in Hsorted, Hcombo.
  apply in_app_or in Hcombo as [Hc | [<- | Hc]].
  - specialize (Hbefore combo Hc). lia.
  - lia.
  - apply MealPlannerFacts.sorted_after in Hsorted.
    exact (proj1 (List.Forall_forall _ _) Hsorted combo Hc).
Qed.

(** With a target of 550 cheese with pasta (500 kcal) and the three items
    together (600 kcal) are equally close: the plan has two items. *)
Lemma generate_plan_prefers_fewer_items_witness :
  exists plan,
    meal_planner.generate_plan
      [meal_planner.bread; meal_planner.cheese; meal_planner.pasta] 550 5
    = Some plan /\
    (length (meal_planner.items plan)
     <= length [meal_planner.bread; meal_planner.cheese; meal_planner.pasta])%nat.
Proof.
  eexists. split; [vm_compute; reflexivity|].
  apply (generate_plan_prefers_fewer_items
           [meal_planner.bread; meal_planner.cheese; meal_planner.pasta] 550 5).
  - vm_compute. reflexivity.
  - split; [|simpl; lia]. reflexivity.
  - vm_compute. reflexivity.
Defined.

(** X24. [load_data] of [meal_planner.py] keeps the records of the rows
    before the first row that raises, and nothing after it: the rows split
    into a part whose records are the loaded items, in order, and a rest
    that is empty or starts with a row that raises. A file that cannot be
    opened leaves the catalog empty. *)
Theorem load_data_stops_at_first_failure :
  forall (py_int : string -> option Z) (py_float : string -> option Q)
         (rows : list csv_row),
    meal_planner.init py_int py_float None = [] /\
    exists good rest,
      rows = good ++ rest /\
      Forall2 (fun row food => meal_planner.read_row py_int py_float row = Ok food)
        good (meal_planner.init py_int py_float (Some rows)) /\
      match rest with
      | [] => True
      | row :: _ => exists e, meal_planner.read_row py_int py_float row = Raise e
      end.
Proof.
  intros py_int py_float rows. split; [reflexivity|].
  unfold meal_planner.init, meal_planner.load_data.
  induction rows as [|row rows IH].
  - exists [], []. simpl. split; [reflexivity|]. split; constructor.
  - cbn [meal_planner.load_loop].
    destruct (meal_planner.read_row py_int py_float row) as [food|e] eqn:E.
    + destruct IH as (good & rest & Hrows & Hgood & Hrest).
      exists (row :: good), rest. split; [rewrite Hrows; reflexivity|].
      split; [|exact Hrest].
      rewrite MealPlannerFacts.load_loop_acc. cbn [app].
      constructor; [exact E | exact Hgood].
    + exists [], (row :: rows). split; [reflexivity|].
      split; [constructor | exists e; exact E].
Qed.
